(** * etlgo: the ETL / aggregation pipeline, embedded from the Go sources

    The development follows the layout of the repository:
    - [GoTime]    : the part of Go's package [time] the repository calls
                    ([Time], [Location], [After], [Before], [AddDate],
                    [Format], [Parse]);
    - [Domain]    : internal/domain (records of ads, opportunities, metrics);
    - [Infra]     : internal/infrastructure (the day-partitioned stores);
    - [Usecase]   : internal/usecase (transform, aggregation, export).

    Go's [int] is taken as the 64-bit two's complement integer of the
    platforms the service is built for; [float64] is Rocq's primitive
    binary64 float. *)

From Stdlib Require Import ZArith Lia Ascii String DecimalString DecimalN.
From Stdlib Require Import Floats.PrimFloat Floats.SpecFloat Floats.FloatOps.
From stdpp Require Import base option list gmap strings sorting.

#[local] Open Scope Z_scope.

(* ===================================================================== *)
(** * Package time                                                        *)
(* ===================================================================== *)

Module GoTime.

(** ** Locations

    A [time.Location] is the table [lookup] reads: the offset, in seconds
    east of UTC, in force before the first transition (the zone
    [lookupFirstZone] picks) and the transitions in the order of their
    instants, each with the offset it brings. The rule that extends a
    table past its last transition stands as further entries of the
    table; names and the daylight flag are left out. *)
Record zoneTrans : Type := mkZoneTrans { txWhen : Z; txOffset : Z }.

Record Location : Type := mkLocation { firstOffset : Z; tx : list zoneTrans }.

#[global] Instance zoneTrans_eq_dec : EqDecision zoneTrans.
Proof. solve_decision. Defined.

#[global] Instance Location_eq_dec : EqDecision Location.
Proof. solve_decision. Defined.

Definition alpha : Z := - 2 ^ 63.
Definition omega : Z := 2 ^ 63 - 1.

(** The search of [lookup] for the last transition at or before [sec];
    [offset] and [start] are those of the entry passed last. *)
Fixpoint lookupFrom (tx : list zoneTrans) (sec offset start : Z) : Z * Z * Z :=
  match tx with
  | [] => (offset, start, omega)
  | tr :: tx' =>
      if sec <? txWhen tr then (offset, start, txWhen tr)
      else lookupFrom tx' sec (txOffset tr) (txWhen tr)
  end.

(** [l.lookup(sec)]: the offset in force at the instant [sec] and the
    bounds [start <= sec < end] of the period it is in force for. *)
Definition lookup (l : Location) (sec : Z) : Z * Z * Z :=
  lookupFrom (tx l) sec (firstOffset l) alpha.

Definition offsetAt (l : Location) (sec : Z) : Z := (lookup l sec).1.1.

(** [time.FixedZone("", offset)] and [time.UTC]. *)
Definition FixedZone (offset : Z) : Location := mkLocation offset [].
Definition UTC : Location := FixedZone 0.

(** ** Times

    A [time.Time] is an instant together with a location. The instant is
    kept in nanoseconds since the Unix epoch. [time.Now()] is in
    [time.Local], the zone of the server; [time.Parse] answers in UTC, in
    [time.Local] or in a fixed zone (see [ParseIn]). *)
Record Time : Type := mkTime { unixNano : Z; loc : Location }.

#[global] Instance Time_eq_dec : EqDecision Time.
Proof. solve_decision. Defined.

Definition nsPerSecond : Z := 1000000000.
Definition secondsPerDay : Z := 86400.
Definition nsPerDay : Z := secondsPerDay * nsPerSecond.

(** The zero [Time]: January 1, year 1, 00:00:00 UTC. *)
Definition unixToInternal : Z := 62135596800.
Definition zeroTime : Time := mkTime (- unixToInternal * nsPerSecond) UTC.

(** [t.After(u)], [t.Before(u)]: comparison of the instants. *)
Definition After (t u : Time) : bool := unixNano u <? unixNano t.
Definition Before (t u : Time) : bool := unixNano t <? unixNano u.

(** [t.In(l)]: the same instant, read in [l]. *)
Definition In (t : Time) (l : Location) : Time := mkTime (unixNano t) l.

Definition unixSec (t : Time) : Z := unixNano t / nsPerSecond.

(** The offset of the location of [t] at the instant of [t]. *)
Definition zoneOffset (t : Time) : Z := offsetAt (loc t) (unixSec t).

(** The calendar day of [t] in its own location, counted from 1970-01-01. *)
Definition dayNumber (t : Time) : Z :=
  (unixNano t + zoneOffset t * nsPerSecond) / nsPerDay.

(** Nanoseconds elapsed since midnight in the location of [t]. *)
Definition clockNanos (t : Time) : Z :=
  (unixNano t + zoneOffset t * nsPerSecond) mod nsPerDay.

(** The end of [time.Date]: the offset it takes off the seconds [unix]
    that the date and the clock reading amount to. It looks [unix] up as
    if it were an instant and, when the instant this leads to lies outside
    the period found, looks that instant up instead. *)
Definition dateOffset (l : Location) (unix : Z) : Z :=
  let '(offset, start, end_) := lookup l unix in
  if offset =? 0 then 0
  else
    let utc := unix - offset in
    if (utc <? start) || (end_ <=? utc) then offsetAt l utc else offset.

(** [t.AddDate(0, 0, days)], that is [time.Date] on the date of [t] with
    its day moved by [days], on the clock reading of [t] and in the
    location of [t]: the day count moves by [days] and [time.Date] turns
    the reading back into an instant. *)
Definition AddDate (t : Time) (days : Z) : Time :=
  let wall := unixNano t + zoneOffset t * nsPerSecond + days * nsPerDay in
  mkTime (wall - dateOffset (loc t) (wall / nsPerSecond) * nsPerSecond) (loc t).

(** The calendar day of the instant [sec] in [l], and the instant
    [time.Date] gives for the wall-clock seconds [wall]. *)
Definition localDay (l : Location) (sec : Z) : Z :=
  (sec + offsetAt l sec) / secondsPerDay.

Definition dateSec (l : Location) (wall : Z) : Z := wall - dateOffset l wall.

(** A location is regular when its clock changes stay inside a calendar
    day: [time.Date] lands on the day it is given, and the calendar day
    never goes back as time passes. Fixed zones are regular, and so are
    the zones that change their clocks in the small hours. *)
Definition regular (l : Location) : Prop :=
  (forall wall : Z, localDay l (dateSec l wall) = wall / secondsPerDay)
  /\ (forall s1 s2 : Z, s1 <= s2 -> localDay l s1 <= localDay l s2).

(** ** The proleptic Gregorian calendar *)

Definition isLeap (year : Z) : bool :=
  (year mod 4 =? 0) && (negb (year mod 100 =? 0) || (year mod 400 =? 0)).

Definition daysIn (month year : Z) : Z :=
  if month =? 2 then (if isLeap year then 29 else 28)
  else if (month =? 4) || (month =? 6) || (month =? 9) || (month =? 11)
       then 30 else 31.

Definition daysPerEra : Z := 146097.
Definition epochShift : Z := 719468.

(** Day and month inside a 400-year era that starts on March 1. *)
Definition civilOfDoe (doe : Z) : Z * Z * Z :=
  let yoe := (doe - doe / 1460 + doe / 36524 - doe / 146096) / 365 in
  let doy := doe - (365 * yoe + yoe / 4 - yoe / 100) in
  let mp := (5 * doy + 2) / 153 in
  let d := doy - (153 * mp + 2) / 5 + 1 in
  let m := if mp <? 10 then mp + 3 else mp - 9 in
  (yoe + (if m <=? 2 then 1 else 0), m, d).

Definition doeOfCivil (yoe' m d : Z) : Z :=
  let yoe := yoe' - (if m <=? 2 then 1 else 0) in
  let mp := if 2 <? m then m - 3 else m + 9 in
  let doy := (153 * mp + 2) / 5 + d - 1 in
  yoe * 365 + yoe / 4 - yoe / 100 + doy.

(** [t.Date()] from the day number. *)
Definition civilFromDays (z : Z) : Z * Z * Z :=
  let era := (z + epochShift) / daysPerEra in
  let doe := (z + epochShift) mod daysPerEra in
  let '(y, m, d) := civilOfDoe doe in
  (y + era * 400, m, d).

(** Day number of a calendar date, as [time.Date] computes it. *)
Definition daysFromCivil (y m d : Z) : Z :=
  let y' := y - (if m <=? 2 then 1 else 0) in
  let era := y' / 400 in
  let yoe := y' mod 400 in
  let mp := if 2 <? m then m - 3 else m + 9 in
  let doy := (153 * mp + 2) / 5 + d - 1 in
  let doe := yoe * 365 + yoe / 4 - yoe / 100 + doy in
  era * daysPerEra + doe - epochShift.

(** [time.Date(y, m, d, hh, mm, ss, 0, l)]. *)
Definition DateIn (y m d hh mm ss : Z) (l : Location) : Time :=
  let unix := daysFromCivil y m d * secondsPerDay + hh * 3600 + mm * 60 + ss in
  mkTime (dateSec l unix * nsPerSecond) l.

(** [time.Date(y, m, d, hh, mm, ss, 0, FixedZone(offset))]. *)
Definition Date (y m d hh mm ss offset : Z) : Time :=
  mkTime ((daysFromCivil y m d * secondsPerDay
           + hh * 3600 + mm * 60 + ss - offset) * nsPerSecond) (FixedZone offset).

(** ** Formatting with the layout "2006-01-02" *)

(** [appendInt(b, x, width)]: sign, then the decimal digits of [|x|],
    zero-padded on the left to [width] digits. *)
Definition decimal (u : Z) : string :=
  NilZero.string_of_uint (N.to_uint (Z.to_N u)).

Fixpoint zeros (n : nat) : string :=
  match n with
  | O => EmptyString
  | S n' => String "0" (zeros n')
  end.

Definition appendInt (x : Z) (width : nat) : string :=
  let s := decimal (Z.abs x) in
  let sign : string := if x <? 0 then "-"%string else EmptyString in
  sign +:+ zeros (width - String.length s) +:+ s.

Definition formatCivil (ymd : Z * Z * Z) : string :=
  let '(y, m, d) := ymd in
  appendInt y 4 +:+ "-" +:+ appendInt m 2 +:+ "-" +:+ appendInt d 2.

(** [t.Format("2006-01-02")]. *)
Definition Format (t : Time) : string :=
  formatCivil (civilFromDays (dayNumber t)).

(** ** Parsing: [time.Parse(layout, value)]

    The layout elements of the repository's layouts are recognised:
    "2006", "01", "02", "15", "04", "05" and "Z07:00"; every other
    character of a layout is literal text. *)

Inductive std : Type :=
| stdNone | stdLongYear | stdZeroMonth | stdZeroDay | stdHour
| stdZeroMinute | stdZeroSecond | stdISO8601ColonTZ.

Definition stdOfPrefix (layout : string) : option (std * string) :=
  if String.prefix "2006" layout
  then Some (stdLongYear, String.substring 4 (String.length layout - 4) layout)
  else if String.prefix "Z07:00" layout
  then Some (stdISO8601ColonTZ, String.substring 6 (String.length layout - 6) layout)
  else
    let rest := String.substring 2 (String.length layout - 2) layout in
    if String.prefix "01" layout then Some (stdZeroMonth, rest)
    else if String.prefix "02" layout then Some (stdZeroDay, rest)
    else if String.prefix "04" layout then Some (stdZeroMinute, rest)
    else if String.prefix "05" layout then Some (stdZeroSecond, rest)
    else if String.prefix "15" layout then Some (stdHour, rest)
    else None.

(** [nextStdChunk(layout)]: literal prefix, layout element, suffix. *)
Fixpoint nextStdChunk (layout : string) : string * std * string :=
  match stdOfPrefix layout with
  | Some (sd, suffix) => (EmptyString, sd, suffix)
  | None =>
      match layout with
      | EmptyString => (EmptyString, stdNone, EmptyString)
      | String c rest =>
          let '(prefix, sd, suffix) := nextStdChunk rest in
          (String c prefix, sd, suffix)
      end
  end.

Definition digitVal (c : ascii) : option Z :=
  let n := Z.of_nat (nat_of_ascii c) in
  if (48 <=? n) && (n <=? 57) then Some (n - 48) else None.

Definition isDigit (s : string) (i : nat) : bool :=
  match String.get i s with
  | Some c => bool_decide (is_Some (digitVal c))
  | None => false
  end.

Fixpoint cutspace (s : string) : string :=
  match s with
  | String " " s' => cutspace s'
  | _ => s
  end.

(** [skip(value, prefix)]: a space of the layout matches any run of
    spaces of the value, other characters match themselves. *)
Fixpoint skipLoop (fuel : nat) (value prefix : string) : option string :=
  match prefix with
  | EmptyString => Some value
  | String pc prefix' =>
      match fuel with
      | O => None
      | S fuel' =>
          if Ascii.eqb pc " " then
            match value with
            | String vc _ =>
                if Ascii.eqb vc " "
                then skipLoop fuel' (cutspace value) (cutspace prefix)
                else None
            | EmptyString => skipLoop fuel' (cutspace value) (cutspace prefix)
            end
          else
            match value with
            | String vc value' =>
                if Ascii.eqb vc pc then skipLoop fuel' value' prefix' else None
            | EmptyString => None
            end
      end
  end.

Definition skip (value prefix : string) : option string :=
  skipLoop (String.length prefix) value prefix.

(** [getnum(s, fixed)]: one or two leading digits, exactly two when
    [fixed]. *)
Definition getnum (s : string) (fixed : bool) : option (Z * string) :=
  match s with
  | EmptyString => None
  | String c0 r0 =>
      match digitVal c0 with
      | None => None
      | Some d0 =>
          let one := if fixed then None else Some (d0, r0) in
          match r0 with
          | EmptyString => one
          | String c1 r1 =>
              match digitVal c1 with
              | Some d1 => Some (d0 * 10 + d1, r1)
              | None => one
              end
          end
      end
  end.

(** [atoi] on a string that starts with a digit: all characters must be
    digits. *)
Fixpoint atoiDigits (s : string) (acc : Z) : option Z :=
  match s with
  | EmptyString => Some acc
  | String c s' =>
      match digitVal c with
      | Some d => atoiDigits s' (acc * 10 + d)
      | None => None
      end
  end.

Fixpoint digitRun (s : string) : nat :=
  match s with
  | String c s' => if bool_decide (is_Some (digitVal c)) then S (digitRun s') else O
  | EmptyString => O
  end.

Definition commaOrPeriod (c : ascii) : bool :=
  Ascii.eqb c "." || Ascii.eqb c ",".

(** [parseNanoseconds(value, nbytes)]: the digits after the separator,
    cut to nine and scaled to nanoseconds. *)
Definition parseNanoseconds (value : string) (nbytes : nat) : option Z :=
  let nbytes' := Nat.min nbytes 10 in
  match atoiDigits (String.substring 1 (nbytes' - 1) value) 0 with
  | Some ns => Some (ns * 10 ^ Z.of_nat (10 - nbytes'))
  | None => None
  end.

(** The zone a value names: "Z", which is UTC, or an offset in seconds. *)
Inductive zoneRef : Type :=
| zoneUTC
| zoneAt (offset : Z).

(** The fields a parse fills in. [zone] is [None] until the value names
    one. *)
Record parsed : Type := mkParsed {
  p_year : Z; p_month : Z; p_day : Z;
  p_hour : Z; p_min : Z; p_sec : Z; p_nsec : Z;
  p_zone : option zoneRef
}.

Definition parsed0 : parsed := mkParsed 0 (-1) (-1) 0 0 0 0 None.

(** One layout element applied to the value: the updated fields and the
    rest of the value, or [None] for [errBad] and for a range error. *)
Definition parseStd (sd : std) (value : string) (st : parsed)
  : option (parsed * string) :=
  match sd with
  | stdNone => None
  | stdLongYear =>
      if (4 <=? String.length value)%nat && isDigit value 0 then
        match atoiDigits (String.substring 0 4 value) 0 with
        | Some y =>
            Some (mkParsed y (p_month st) (p_day st) (p_hour st) (p_min st)
                    (p_sec st) (p_nsec st) (p_zone st),
                  String.substring 4 (String.length value - 4) value)
        | None => None
        end
      else None
  | stdZeroMonth =>
      match getnum value true with
      | Some (m, value') =>
          if (m <=? 0) || (12 <? m) then None
          else Some (mkParsed (p_year st) m (p_day st) (p_hour st) (p_min st)
                       (p_sec st) (p_nsec st) (p_zone st), value')
      | None => None
      end
  | stdZeroDay =>
      match getnum value true with
      | Some (d, value') =>
          Some (mkParsed (p_year st) (p_month st) d (p_hour st) (p_min st)
                  (p_sec st) (p_nsec st) (p_zone st), value')
      | None => None
      end
  | stdHour =>
      match getnum value false with
      | Some (h, value') =>
          if (h <? 0) || (24 <=? h) then None
          else Some (mkParsed (p_year st) (p_month st) (p_day st) h (p_min st)
                       (p_sec st) (p_nsec st) (p_zone st), value')
      | None => None
      end
  | stdZeroMinute =>
      match getnum value true with
      | Some (mi, value') =>
          if (mi <? 0) || (60 <=? mi) then None
          else Some (mkParsed (p_year st) (p_month st) (p_day st) (p_hour st) mi
                       (p_sec st) (p_nsec st) (p_zone st), value')
      | None => None
      end
  | stdZeroSecond =>
      match getnum value true with
      | Some (sc, value') =>
          if (sc <? 0) || (60 <=? sc) then None
          else
            let st' := mkParsed (p_year st) (p_month st) (p_day st) (p_hour st)
                         (p_min st) sc (p_nsec st) (p_zone st) in
            match value' with
            | String c0 r0 =>
                if commaOrPeriod c0 && isDigit value' 1 then
                  (* a fractional second in the value, none in the layout *)
                  let n := (1 + digitRun r0)%nat in
                  match parseNanoseconds value' n with
                  | Some ns =>
                      Some (mkParsed (p_year st) (p_month st) (p_day st)
                              (p_hour st) (p_min st) sc ns (p_zone st),
                            String.substring n (String.length value' - n) value')
                  | None => None
                  end
                else Some (st', value')
            | EmptyString => Some (st', value')
            end
      | None => None
      end
  | stdISO8601ColonTZ =>
      match value with
      | String "Z" value' =>
          Some (mkParsed (p_year st) (p_month st) (p_day st) (p_hour st)
                  (p_min st) (p_sec st) (p_nsec st) (Some zoneUTC), value')
      | _ =>
          if (String.length value <? 6)%nat then None
          else if negb (bool_decide (String.get 3 value = Some ":"%char)) then None
          else
            match getnum (String.substring 1 2 value) true,
                  getnum (String.substring 4 2 value) true with
            | Some (hr, _), Some (mm, _) =>
                if (24 <? hr) || (60 <? mm) then None
                else
                  let off := (hr * 60 + mm) * 60 in
                  let rest := String.substring 6 (String.length value - 6) value in
                  let upd z := Some (mkParsed (p_year st) (p_month st) (p_day st)
                                       (p_hour st) (p_min st) (p_sec st)
                                       (p_nsec st) (Some (zoneAt z)), rest) in
                  match String.get 0 value with
                  | Some "+"%char => upd off
                  | Some "-"%char => upd (- off)
                  | _ => None
                  end
            | _, _ => None
            end
      end
  end.

(** The loop of [parse]: one layout element per iteration; at the end of
    the layout the value must be used up. *)
Fixpoint parseLoop (fuel : nat) (layout value : string) (st : parsed)
  : option parsed :=
  match fuel with
  | O => None
  | S fuel' =>
      let '(prefix, sd, suffix) := nextStdChunk layout in
      match skip value prefix with
      | None => None
      | Some value1 =>
          match sd with
          | stdNone =>
              if (String.length value1 =? 0)%nat then Some st else None
          | _ =>
              match parseStd sd value1 st with
              | Some (st', value2) => parseLoop fuel' suffix value2 st'
              | None => None
              end
          end
      end
  end.

(** [time.Parse(layout, value)] in a process whose [time.Local] is
    [local]; [None] stands for a non-nil error (the [Time] returned with
    it is the zero [Time]). A value without a zone, or with "Z", is in
    UTC; a value with an offset is in [local] when that is the offset of
    [local] at the instant, else in a fixed zone of that offset. *)
Definition ParseIn (local : Location) (layout value : string) : option Time :=
  match parseLoop (S (String.length layout)) layout value parsed0 with
  | None => None
  | Some st =>
      if (p_day st <? 1) || (daysIn (p_month st) (p_year st) <? p_day st)
      then None
      else
        let t := Date (p_year st) (p_month st) (p_day st)
                   (p_hour st) (p_min st) (p_sec st) 0 in
        match p_zone st with
        | None | Some zoneUTC => Some (mkTime (unixNano t + p_nsec st) UTC)
        | Some (zoneAt offset) =>
            let nanos := unixNano t + p_nsec st - offset * nsPerSecond in
            if offsetAt local (nanos / nsPerSecond) =? offset
            then Some (mkTime nanos local)
            else Some (mkTime nanos (FixedZone offset))
        end
  end.

(** [time.Parse] where [time.Local] is UTC. For the values that carry no
    offset, which is all that the layouts without a zone accept, the
    result is the same whatever [time.Local] is. *)
Definition Parse (layout value : string) : option Time :=
  ParseIn UTC layout value.

Definition RFC3339 : string := "2006-01-02T15:04:05Z07:00".

(** ** Auxiliary definitions for the facts about the calendar *)

(** Deciding a boolean property on a block of consecutive integers. *)
Fixpoint rangeAll (P : Z -> bool) (lo : Z) (n : nat) : bool :=
  match n with
  | O => true
  | S n' => if P lo then rangeAll P (lo + 1) n' else false
  end.

(** What [civilOfDoe] must satisfy on a day of the era. *)
Definition doeOk (doe : Z) : bool :=
  let '(y, m, d) := civilOfDoe doe in
  let yoe := y - (if m <=? 2 then 1 else 0) in
  (1 <=? m) && (m <=? 12) && (1 <=? d) && (d <=? 31)
  && (0 <=? yoe) && (yoe <=? 399) && (doeOfCivil y m d =? doe).

(** Reading a run of decimal digits back. *)
Definition readDigits (s : string) : option N :=
  N.of_uint <$> NilEmpty.uint_of_string s.

End GoTime.

(* ===================================================================== *)
(** * Go's built-in [int], [float64] and slices                           *)
(* ===================================================================== *)

Module GoNum.

(** [int]: 64-bit two's complement; arithmetic wraps around. *)
Definition maxInt : Z := 2 ^ 63 - 1.
Definition minInt : Z := - 2 ^ 63.

Definition wrapInt (z : Z) : Z := (z + 2 ^ 63) mod 2 ^ 64 - 2 ^ 63.

Definition intAdd (a b : Z) : Z := wrapInt (a + b).

Definition isInt (z : Z) : Prop := minInt <= z <= maxInt.

(** [float64(n)] for an [int] [n]: the nearest binary64, ties to even. *)
Definition float64OfInt (n : Z) : float :=
  match n with
  | Z0 => PrimFloat.zero
  | Zpos p => SF2Prim (binary_round prec emax false p 0)
  | Zneg p => SF2Prim (binary_round prec emax true p 0)
  end.

(** [x > 0] on [float64]. *)
Definition floatPos (x : float) : bool := PrimFloat.ltb PrimFloat.zero x.

(** The slice expression [l[lo:hi]]; [None] is the run-time panic for
    bounds out of range. *)
Definition slice {A : Type} (l : list A) (lo hi : Z) : option (list A) :=
  if (0 <=? lo) && (lo <=? hi) && (hi <=? Z.of_nat (length l))
  then Some (take (Z.to_nat (hi - lo)) (drop (Z.to_nat lo) l))
  else None.

(** A Go [error], by its message. *)
Definition error : Type := string.

End GoNum.

(* ===================================================================== *)
(** * internal/domain                                                     *)
(* ===================================================================== *)

Module Domain.

(** ads.go: [AdPerformance], the raw record of the ads source. *)
Module AdPerformance.
Record t : Type := mk {
  Date : string;
  CampaignID : string;
  Channel : string;
  Clicks : Z;
  Impressions : Z;
  Cost : float;
  UTMCampaign : string;
  UTMSource : string;
  UTMMedium : string
}.
End AdPerformance.

(** ads.go: [ProcessedAdData]. *)
Module ProcessedAdData.
Record t : Type := mk {
  Date : GoTime.Time;
  CampaignID : string;
  Channel : string;
  Clicks : Z;
  Impressions : Z;
  Cost : float;
  UTMCampaign : string;
  UTMSource : string;
  UTMMedium : string;
  ProcessedAt : GoTime.Time
}.
End ProcessedAdData.

(** ads.go: [UTMKey], the grouping key; a comparable struct of three
    strings. *)
Module UTMKey.
Record t : Type := mk { Campaign : string; Source : string; Medium : string }.

#[global] Instance eq_dec : EqDecision t.
Proof. solve_decision. Defined.

#[global] Instance countable : Countable t.
Proof.
  refine (inj_countable'
            (fun u => (Campaign u, Source u, Medium u))
            (fun p => mk p.1.1 p.1.2 p.2) _).
  by intros [].
Defined.
(** [String]: the three fields joined by "|". *)
Definition String_ (u : t) : string :=
  Campaign u +:+ "|" +:+ Source u +:+ "|" +:+ Medium u.

End UTMKey.

(** [OpportunityStage] is a string type with four named constants; the
    CRM source may send any string. *)
Definition OpportunityStage : Type := string.
Definition StageLead : OpportunityStage := "lead".
Definition StageOpportunity : OpportunityStage := "opportunity".
Definition StageClosedWon : OpportunityStage := "closed_won".
Definition StageClosedLost : OpportunityStage := "closed_lost".

Module Opportunity.
Record t : Type := mk {
  OpportunityID : string;
  ContactEmail : string;
  Stage : OpportunityStage;
  Amount : float;
  CreatedAt : string;
  UTMCampaign : string;
  UTMSource : string;
  UTMMedium : string
}.
End Opportunity.

Module ProcessedOpportunity.
Record t : Type := mk {
  OpportunityID : string;
  ContactEmail : string;
  Stage : OpportunityStage;
  Amount : float;
  CreatedAt : GoTime.Time;
  UTMCampaign : string;
  UTMSource : string;
  UTMMedium : string;
  ProcessedAt : GoTime.Time
}.
End ProcessedOpportunity.

(** [BusinessMetrics]: one bucket. *)
Module BusinessMetrics.
Record t : Type := mk {
  Date : GoTime.Time;
  Channel : string;
  CampaignID : string;
  UTMCampaign : string;
  UTMSource : string;
  UTMMedium : string;
  Clicks : Z;
  Impressions : Z;
  Cost : float;
  Leads : Z;
  Opportunities : Z;
  ClosedWon : Z;
  Revenue : float;
  CPC : float;
  CPA : float;
  CVRLeadToOpp : float;
  CVROppToWon : float;
  ROAS : float;
  CalculatedAt : GoTime.Time
}.
End BusinessMetrics.

(** [MetricsFilter]; [From] and [To] are pointers, [None] is nil. *)
Module MetricsFilter.
Record t : Type := mk {
  From : option GoTime.Time;
  To : option GoTime.Time;
  Channel : string;
  CampaignID : string;
  UTMCampaign : string;
  UTMSource : string;
  UTMMedium : string;
  Limit : Z;
  Offset : Z
}.
End MetricsFilter.

Module MetricsResponse.
Record t : Type := mk {
  Data : list BusinessMetrics.t;
  Total : Z;
  Limit : Z;
  Offset : Z;
  HasMore : bool
}.
End MetricsResponse.

Module ExportData.
Record t : Type := mk {
  Date : string;
  Channel : string;
  CampaignID : string;
  Clicks : Z;
  Impressions : Z;
  Cost : float;
  Leads : Z;
  Opportunities : Z;
  ClosedWon : Z;
  Revenue : float;
  CPC : float;
  CPA : float;
  CVRLeadToOpp : float;
  CVROppToWon : float;
  ROAS : float
}.
End ExportData.

End Domain.

(* ===================================================================== *)
(** * Package sort                                                        *)
(* ===================================================================== *)

Module GoSort.

(** [sort.Slice(x, less)] sorts in place and is not guaranteed to be
    stable, so the order of elements that compare equal is left open. It
    is taken by its contract: the result is a rearrangement of the input
    in which no element is followed by a smaller one, whenever [less] is
    asymmetric and its complement is transitive. *)
Definition ascending {A : Type} (less : A -> A -> bool) (a b : A) : Prop :=
  less b a = false.

Class SliceSorter : Type := {
  Slice : forall {A : Type}, (A -> A -> bool) -> list A -> list A;
  Slice_Permutation : forall {A : Type} (less : A -> A -> bool) (l : list A),
    Slice less l ≡ₚ l;
  Slice_Sorted : forall {A : Type} (less : A -> A -> bool) (l : list A),
    (forall a b, less a b = true -> less b a = false) ->
    (forall a b c, less b a = false -> less c b = false -> less c a = false) ->
    StronglySorted (ascending less) (Slice less l)
}.

(** Insertion sort, the algorithm [sort.Slice] runs on a slice of at most
    twelve elements: every element in turn is swapped with its left
    neighbour as long as it is less than that neighbour. [sift] does the
    swaps of one element; the elements to its left are given from the
    nearest one on, and so is the result. *)
Fixpoint sift {A : Type} (less : A -> A -> bool) (x : A) (left : list A)
  : list A :=
  match left with
  | [] => [x]
  | y :: left' => if less x y then y :: sift less x left' else x :: y :: left'
  end.

Definition insertionSort {A : Type} (less : A -> A -> bool) (l : list A)
  : list A :=
  reverse (foldl (fun left x => sift less x left) [] l).

End GoSort.

(* ===================================================================== *)
(** * internal/infrastructure                                             *)
(* ===================================================================== *)

Module Infra.

Import Domain.

(** The loop header shared by the range scans,
    [for date := from; !date.After(to); date = date.AddDate(0, 0, 1)]:
    the successive values of [date]. In a regular location every round
    moves [date] to the next calendar day, so the loop has left through
    its condition once [date] is past the day of [to]: that many rounds
    is the fuel [rangeDates] gives it. *)
Fixpoint dayLoop (fuel : nat) (date to : GoTime.Time) : list GoTime.Time :=
  match fuel with
  | O => []
  | S fuel' =>
      if GoTime.After date to then []
      else date :: dayLoop fuel' (GoTime.AddDate date 1) to
  end.

Definition dayLoopFuel (from to : GoTime.Time) : nat :=
  Z.to_nat (GoTime.dayNumber (GoTime.In to (GoTime.loc from))
            - GoTime.dayNumber from + 1).

Definition rangeDates (from to : GoTime.Time) : list GoTime.Time :=
  dayLoop (dayLoopFuel from to) from to.

(** The value of [date] at the start of round [k]. *)
Definition dateAt (from : GoTime.Time) (k : nat) : GoTime.Time :=
  Nat.iter k (fun date => GoTime.AddDate date 1) from.

(** Number of rounds of the loop from [from] to [to]. *)
Definition rounds (from to : GoTime.Time) : Z :=
  Z.of_nat (length (rangeDates from to)).

(** The calendar days whose key a scan from [from] to [to] looks up: one
    per round, consecutive from the day of [from]. *)
Definition visitedDay (from to : GoTime.Time) (day : Z) : Prop :=
  GoTime.dayNumber from <= day < GoTime.dayNumber from + rounds from to.

#[global] Instance visitedDay_dec from to day : Decision (visitedDay from to day).
Proof. unfold visitedDay. apply _. Defined.

(** [m[key] = append(m[key], x)] on a map of slices. *)
Definition appendAt `{Countable K} {A : Type}
    (m : gmap K (list A)) (key : K) (x : A) : gmap K (list A) :=
  <[key := default [] (m !! key) ++ [x]]> m.

(** The loop [for _, x := range l { m[key(x)] = append(m[key(x)], x) }]. *)
Definition storeAll `{Countable K} {A : Type} (key : A -> K)
    (m : gmap K (list A)) (l : list A) : gmap K (list A) :=
  foldl (fun d x => appendAt d (key x) x) m l.

(** The body of both range scans: the partitions of the visited days,
    concatenated in the order of the visit. *)
Definition collectRange {A : Type} (data : gmap string (list A))
    (from to : GoTime.Time) : list A :=
  foldl (fun result date =>
           match data !! GoTime.Format date with
           | Some records => result ++ records
           | None => result
           end)
        [] (rangeDates from to).

(** ** ad_repository.go *)
Module AdRepository.

Record t : Type := mk { data : gmap string (list ProcessedAdData.t) }.

Definition NewAdRepository : t := mk ∅.

(** [Store]; the error it returns is always nil. *)
Definition Store (r : t) (ads : list ProcessedAdData.t)
  : t * option GoNum.error :=
  (mk (foldl (fun d ad =>
                let dateKey := GoTime.Format (ProcessedAdData.Date ad) in
                appendAt d dateKey ad)
             (data r) ads),
   None).

Definition GetByDateRange (r : t) (from to : GoTime.Time)
  : list ProcessedAdData.t * option GoNum.error :=
  (collectRange (data r) from to, None).

(** The key an ad record is stored under. *)
Definition dayKey (ad : ProcessedAdData.t) : string :=
  GoTime.Format (ProcessedAdData.Date ad).

(** [GetByUTM]: the scan, then the loop that keeps the records of the key. *)
Definition GetByUTM (r : t) (utm : UTMKey.t) (from to : GoTime.Time)
  : list ProcessedAdData.t * option GoNum.error :=
  match GetByDateRange r from to with
  | (_, Some err) => ([], Some err)
  | (ads, None) =>
      (foldl (fun result ad =>
                if String.eqb (ProcessedAdData.UTMCampaign ad) (UTMKey.Campaign utm)
                   && String.eqb (ProcessedAdData.UTMSource ad) (UTMKey.Source utm)
                   && String.eqb (ProcessedAdData.UTMMedium ad) (UTMKey.Medium utm)
                then result ++ [ad] else result)
             [] ads, None)
  end.

Definition GetByCampaign (r : t) (campaignID : string) (from to : GoTime.Time)
  : list ProcessedAdData.t * option GoNum.error :=
  match GetByDateRange r from to with
  | (_, Some err) => ([], Some err)
  | (ads, None) =>
      (foldl (fun result ad =>
                if String.eqb (ProcessedAdData.CampaignID ad) campaignID
                then result ++ [ad] else result)
             [] ads, None)
  end.

Definition GetByChannel (r : t) (channel : string) (from to : GoTime.Time)
  : list ProcessedAdData.t * option GoNum.error :=
  match GetByDateRange r from to with
  | (_, Some err) => ([], Some err)
  | (ads, None) =>
      (foldl (fun result ad =>
                if String.eqb (ProcessedAdData.Channel ad) channel
                then result ++ [ad] else result)
             [] ads, None)
  end.

(** The repository after a sequence of [Store] calls on a new one. *)
Definition stored (batches : list (list ProcessedAdData.t)) : t :=
  foldl (fun r ads => (Store r ads).1) NewAdRepository batches.

End AdRepository.

(** ** crm_repository.go *)
Module CRMRepository.

Record t : Type := mk { data : gmap string (list ProcessedOpportunity.t) }.

Definition NewCRMRepository : t := mk ∅.

Definition Store (r : t) (opportunities : list ProcessedOpportunity.t)
  : t * option GoNum.error :=
  (mk (foldl (fun d opp =>
                let dateKey := GoTime.Format (ProcessedOpportunity.CreatedAt opp) in
                appendAt d dateKey opp)
             (data r) opportunities),
   None).

Definition GetByDateRange (r : t) (from to : GoTime.Time)
  : list ProcessedOpportunity.t * option GoNum.error :=
  (collectRange (data r) from to, None).

Definition GetByUTM (r : t) (utm : UTMKey.t) (from to : GoTime.Time)
  : list ProcessedOpportunity.t * option GoNum.error :=
  match GetByDateRange r from to with
  | (_, Some err) => ([], Some err)
  | (opportunities, None) =>
      (foldl (fun result opp =>
                if String.eqb (ProcessedOpportunity.UTMCampaign opp) (UTMKey.Campaign utm)
                   && String.eqb (ProcessedOpportunity.UTMSource opp) (UTMKey.Source utm)
                   && String.eqb (ProcessedOpportunity.UTMMedium opp) (UTMKey.Medium utm)
                then result ++ [opp] else result)
             [] opportunities, None)
  end.

Definition GetByStage (r : t) (stage : OpportunityStage) (from to : GoTime.Time)
  : list ProcessedOpportunity.t * option GoNum.error :=
  match GetByDateRange r from to with
  | (_, Some err) => ([], Some err)
  | (opportunities, None) =>
      (foldl (fun result opp =>
                if String.eqb (ProcessedOpportunity.Stage opp) stage
                then result ++ [opp] else result)
             [] opportunities, None)
  end.

(** The key an opportunity is stored under. *)
Definition dayKey (opp : ProcessedOpportunity.t) : string :=
  GoTime.Format (ProcessedOpportunity.CreatedAt opp).

End CRMRepository.

(** ** The metrics repository (src/unnamed/part_003) *)
Module MetricsRepository.

Record t : Type := mk { data : gmap string (list BusinessMetrics.t) }.

Definition NewMetricsRepository : t := mk ∅.

Definition Store (r : t) (metrics : list BusinessMetrics.t)
  : t * option GoNum.error :=
  (mk (foldl (fun d metric =>
                let dateKey := GoTime.Format (BusinessMetrics.Date metric) in
                appendAt d dateKey metric)
             (data r) metrics),
   None).

Definition strNonEmpty (s : string) : bool := negb (String.eqb s "").

Definition matchesFilter (metric : BusinessMetrics.t) (filter : MetricsFilter.t)
  : bool :=
  if strNonEmpty (MetricsFilter.Channel filter)
     && negb (String.eqb (BusinessMetrics.Channel metric)
                (MetricsFilter.Channel filter)) then false
  else if strNonEmpty (MetricsFilter.CampaignID filter)
     && negb (String.eqb (BusinessMetrics.CampaignID metric)
                (MetricsFilter.CampaignID filter)) then false
  else if strNonEmpty (MetricsFilter.UTMCampaign filter)
     && negb (String.eqb (BusinessMetrics.UTMCampaign metric)
                (MetricsFilter.UTMCampaign filter)) then false
  else if strNonEmpty (MetricsFilter.UTMSource filter)
     && negb (String.eqb (BusinessMetrics.UTMSource metric)
                (MetricsFilter.UTMSource filter)) then false
  else if strNonEmpty (MetricsFilter.UTMMedium filter)
     && negb (String.eqb (BusinessMetrics.UTMMedium metric)
                (MetricsFilter.UTMMedium filter)) then false
  else true.

(** The comparison handed to [sort.Slice]. *)
Definition lessByDate (a b : BusinessMetrics.t) : bool :=
  GoTime.Before (BusinessMetrics.Date a) (BusinessMetrics.Date b).

(** The top of [GetByFilter]: the bounds of the scan. [now1] and [now2]
    are the two readings of [time.Now()], taken whether or not the
    filter carries bounds of its own. *)
Definition scanBounds (now1 now2 : GoTime.Time) (filter : MetricsFilter.t)
  : GoTime.Time * GoTime.Time :=
  let from := GoTime.AddDate now1 (-365) in
  let to := now2 in
  let from := match MetricsFilter.From filter with
              | Some f => f
              | None => from
              end in
  let to := match MetricsFilter.To filter with
            | Some f => f
            | None => to
            end in
  (from, to).

(** The middle of [GetByFilter]: collect the range, keep what matches
    the filter, sort by date. *)
Definition sortedMatches `{GoSort.SliceSorter} (now1 now2 : GoTime.Time)
    (r : t) (filter : MetricsFilter.t) : list BusinessMetrics.t :=
  let '(from, to) := scanBounds now1 now2 filter in
  let allMetrics := collectRange (data r) from to in
  let filteredMetrics :=
    foldl (fun acc metric =>
             if matchesFilter metric filter then acc ++ [metric] else acc)
          [] allMetrics in
  GoSort.Slice lessByDate filteredMetrics.

(** [GetByFilter]. The outer [None] is a run-time panic of the slice
    expression; the inner option is the returned error, always nil. *)
Definition GetByFilter `{GoSort.SliceSorter} (now1 now2 : GoTime.Time)
    (r : t) (filter : MetricsFilter.t)
  : option (MetricsResponse.t * option GoNum.error) :=
  let filteredMetrics := sortedMatches now1 now2 r filter in
  let limit := 100 in
  let offset := 0 in
  let limit := if 0 <? MetricsFilter.Limit filter
               then MetricsFilter.Limit filter else limit in
  let offset := if 0 <? MetricsFilter.Offset filter
                then MetricsFilter.Offset filter else offset in
  let total := Z.of_nat (length filteredMetrics) in
  let start := offset in
  let end_ := GoNum.intAdd offset limit in
  let start := if total <? start then total else start in
  let end_ := if total <? end_ then total else end_ in
  paginatedMetrics ←
    (if start <? end_ then GoNum.slice filteredMetrics start end_
     else Some []);
  let hasMore := end_ <? total in
  Some (MetricsResponse.mk paginatedMetrics total limit offset hasMore, None).

Definition GetByDate (r : t) (date : GoTime.Time)
  : list BusinessMetrics.t * option GoNum.error :=
  let dateKey := GoTime.Format date in
  match data r !! dateKey with
  | Some metrics => (metrics, None)
  | None => ([], None)
  end.

(** The key a metric is stored under. *)
Definition dayKey (m : BusinessMetrics.t) : string :=
  GoTime.Format (BusinessMetrics.Date m).

(** The repository after a sequence of [Store] calls on a new one. *)
Definition stored (batches : list (list BusinessMetrics.t)) : t :=
  foldl (fun r metrics => (Store r metrics).1) NewMetricsRepository batches.

End MetricsRepository.

End Infra.

(* ===================================================================== *)
(** * internal/usecase                                                    *)
(* ===================================================================== *)

Module Usecase.

Import Domain.

(** Logging is left out. Of the telemetry, the failure counter of the
    transform stage and the calls made to the export client are kept,
    as the values the functions return next to their results. *)

(** ** Transform (metrics_service.go, [processAdsData], [processCRMData]) *)

Section Transform.

(** [time.Parse]; [GoTime.Parse] is the instance the examples run. *)
Variable time_Parse : string -> string -> option GoTime.Time.

Definition adDateFormats : list string :=
  [ "2006-01-02"; "2006/01/02"; "01/02/2006"; "02/01/2006"; GoTime.RFC3339 ]%string.

Definition crmDateFormats : list string :=
  [ GoTime.RFC3339; "2006-01-02 15:04:05"; "2006-01-02";
    "2006/01/02 15:04:05"; "2006/01/02" ]%string.

(** The inner loop over the layouts:
    [date, err = time.Parse(format, raw); if err == nil { break }].
    The state is the pair [(date, err != nil)]. *)
Fixpoint parseWithFormats (formats : list string) (raw : string)
    (date : GoTime.Time) (failed : bool) : GoTime.Time * bool :=
  match formats with
  | [] => (date, failed)
  | format :: formats' =>
      match time_Parse format raw with
      | Some t => (t, false)
      | None => parseWithFormats formats' raw GoTime.zeroTime true
      end
  end.

(** [if s == "" { s = "unknown" }]. *)
Definition normalizeUTM (s : string) : string :=
  if String.eqb s "" then "unknown"%string else s.

(** State of the loop of [processAdsData]: the slice built so far and
    the labels passed to [RecordETLRecordFailure]. *)
Record adsLoop : Type := mkAdsLoop {
  processed : list ProcessedAdData.t;
  failures : list (string * string)
}.

(** One round of the loop; [clock n] is the reading of [time.Now()] when
    [n] records have been emitted. *)
Definition processAd (clock : nat -> GoTime.Time) (since : option GoTime.Time)
    (st : adsLoop) (ad : AdPerformance.t) : adsLoop :=
  let '(date, failed) :=
    parseWithFormats adDateFormats (AdPerformance.Date ad) GoTime.zeroTime false in
  if failed then
    mkAdsLoop (processed st) (failures st ++ [("ads", "date_parse")%string])
  else if match since with
          | Some s => GoTime.Before date s
          | None => false
          end then st
  else
    let utmCampaign := normalizeUTM (AdPerformance.UTMCampaign ad) in
    let utmSource := normalizeUTM (AdPerformance.UTMSource ad) in
    let utmMedium := normalizeUTM (AdPerformance.UTMMedium ad) in
    mkAdsLoop
      (processed st ++
         [ProcessedAdData.mk date (AdPerformance.CampaignID ad)
            (AdPerformance.Channel ad) (AdPerformance.Clicks ad)
            (AdPerformance.Impressions ad) (AdPerformance.Cost ad)
            utmCampaign utmSource utmMedium
            (clock (length (processed st)))])
      (failures st).

Definition processAdsData (clock : nat -> GoTime.Time)
    (ads : list AdPerformance.t) (since : option GoTime.Time) : adsLoop :=
  foldl (processAd clock since) (mkAdsLoop [] []) ads.

Record crmLoop : Type := mkCrmLoop {
  processedCRM : list ProcessedOpportunity.t;
  failuresCRM : list (string * string)
}.

Definition processOpp (clock : nat -> GoTime.Time) (since : option GoTime.Time)
    (st : crmLoop) (opp : Opportunity.t) : crmLoop :=
  let '(createdAt, failed) :=
    parseWithFormats crmDateFormats (Opportunity.CreatedAt opp)
      GoTime.zeroTime false in
  if failed then
    mkCrmLoop (processedCRM st) (failuresCRM st ++ [("crm", "date_parse")%string])
  else if match since with
          | Some s => GoTime.Before createdAt s
          | None => false
          end then st
  else
    mkCrmLoop
      (processedCRM st ++
         [ProcessedOpportunity.mk (Opportunity.OpportunityID opp)
            (Opportunity.ContactEmail opp) (Opportunity.Stage opp)
            (Opportunity.Amount opp) createdAt
            (normalizeUTM (Opportunity.UTMCampaign opp))
            (normalizeUTM (Opportunity.UTMSource opp))
            (normalizeUTM (Opportunity.UTMMedium opp))
            (clock (length (processedCRM st)))])
      (failuresCRM st).

Definition processCRMData (clock : nat -> GoTime.Time)
    (opportunities : list Opportunity.t) (since : option GoTime.Time) : crmLoop :=
  foldl (processOpp clock since) (mkCrmLoop [] []) opportunities.

End Transform.

(** ** Aggregation ([calculateMetricForUTM], [calculateMetricsWithWorkerPool]) *)

(** The variables of the loop over the ad records of a group. *)
Record adTotals : Type := mkAdTotals {
  totalClicks : Z;
  totalImpressions : Z;
  totalCost : float;
  latestDate : GoTime.Time;
  channel : string;
  campaignID : string
}.

Definition adTotals0 : adTotals :=
  mkAdTotals 0 0 PrimFloat.zero GoTime.zeroTime "" "".

Definition addAd (acc : adTotals) (ad : ProcessedAdData.t) : adTotals :=
  let clicks := GoNum.intAdd (totalClicks acc) (ProcessedAdData.Clicks ad) in
  let impressions :=
    GoNum.intAdd (totalImpressions acc) (ProcessedAdData.Impressions ad) in
  let cost := PrimFloat.add (totalCost acc) (ProcessedAdData.Cost ad) in
  if GoTime.After (ProcessedAdData.Date ad) (latestDate acc)
  then mkAdTotals clicks impressions cost (ProcessedAdData.Date ad)
         (ProcessedAdData.Channel ad) (ProcessedAdData.CampaignID ad)
  else mkAdTotals clicks impressions cost (latestDate acc)
         (channel acc) (campaignID acc).

(** The variables of the loop over the opportunities of a group. *)
Record oppTotals : Type := mkOppTotals {
  leads : Z;
  opps : Z;
  closedWon : Z;
  revenue : float
}.

Definition oppTotals0 : oppTotals := mkOppTotals 0 0 0 PrimFloat.zero.

Definition addOpp (acc : oppTotals) (opp : ProcessedOpportunity.t) : oppTotals :=
  let stage := ProcessedOpportunity.Stage opp in
  if String.eqb stage StageLead then
    mkOppTotals (GoNum.intAdd (leads acc) 1) (opps acc) (closedWon acc) (revenue acc)
  else if String.eqb stage StageOpportunity then
    mkOppTotals (leads acc) (GoNum.intAdd (opps acc) 1) (closedWon acc) (revenue acc)
  else if String.eqb stage StageClosedWon then
    mkOppTotals (leads acc) (opps acc) (GoNum.intAdd (closedWon acc) 1)
      (PrimFloat.add (revenue acc) (ProcessedOpportunity.Amount opp))
  else acc.

(** [calculateMetricForUTM]; [None] is the nil pointer; [now] is the
    reading of [time.Now()] stored in [CalculatedAt]. *)
Definition calculateMetricForUTM (now : GoTime.Time)
    (ads : list ProcessedAdData.t) (opportunities : list ProcessedOpportunity.t)
    (utm : UTMKey.t) : option BusinessMetrics.t :=
  if (length ads =? 0)%nat then None
  else
    let a := foldl addAd adTotals0 ads in
    let o := foldl addOpp oppTotals0 opportunities in
    let cpc := if 0 <? totalClicks a
               then PrimFloat.div (totalCost a) (GoNum.float64OfInt (totalClicks a))
               else PrimFloat.zero in
    let cpa := if 0 <? leads o
               then PrimFloat.div (totalCost a) (GoNum.float64OfInt (leads o))
               else PrimFloat.zero in
    let cvrLeadToOpp :=
      if 0 <? leads o
      then PrimFloat.div (GoNum.float64OfInt (opps o)) (GoNum.float64OfInt (leads o))
      else PrimFloat.zero in
    let cvrOppToWon :=
      if 0 <? opps o
      then PrimFloat.div (GoNum.float64OfInt (closedWon o))
             (GoNum.float64OfInt (opps o))
      else PrimFloat.zero in
    let roas := if GoNum.floatPos (totalCost a)
                then PrimFloat.div (revenue o) (totalCost a)
                else PrimFloat.zero in
    Some (BusinessMetrics.mk (latestDate a) (channel a) (campaignID a)
            (UTMKey.Campaign utm) (UTMKey.Source utm) (UTMKey.Medium utm)
            (totalClicks a) (totalImpressions a) (totalCost a)
            (leads o) (opps o) (closedWon o) (revenue o)
            cpc cpa cvrLeadToOpp cvrOppToWon roas now).

Definition adKey (ad : ProcessedAdData.t) : UTMKey.t :=
  UTMKey.mk (ProcessedAdData.UTMCampaign ad) (ProcessedAdData.UTMSource ad)
    (ProcessedAdData.UTMMedium ad).

Definition oppKey (opp : ProcessedOpportunity.t) : UTMKey.t :=
  UTMKey.mk (ProcessedOpportunity.UTMCampaign opp)
    (ProcessedOpportunity.UTMSource opp) (ProcessedOpportunity.UTMMedium opp).

Definition groupAds (ads : list ProcessedAdData.t)
  : gmap UTMKey.t (list ProcessedAdData.t) :=
  foldl (fun m ad => Infra.appendAt m (adKey ad) ad) ∅ ads.

Definition groupOpps (opportunities : list ProcessedOpportunity.t)
  : gmap UTMKey.t (list ProcessedOpportunity.t) :=
  foldl (fun m opp => Infra.appendAt m (oppKey opp) opp) ∅ opportunities.

(** [calculateMetricsWithWorkerPool]. The jobs are the keys of [adsByUTM];
    Go fixes neither the order in which [range] yields them nor the
    interleaving of the workers, so the order in which the jobs complete
    is the parameter [schedule], applied to the keys. With no worker
    ([workerPool <= 0]) the result channel is closed at once and nothing
    is collected. [clock n] is the reading of [time.Now()] in the [n]-th
    job to complete. *)
Definition calculateMetricsWithWorkerPool (workerPool : Z)
    (schedule : list UTMKey.t -> list UTMKey.t) (clock : nat -> GoTime.Time)
    (ads : list ProcessedAdData.t) (opportunities : list ProcessedOpportunity.t)
  : list BusinessMetrics.t :=
  let adsByUTM := groupAds ads in
  let oppsByUTM := groupOpps opportunities in
  if workerPool <=? 0 then []
  else
    let jobs := schedule (map fst (map_to_list adsByUTM)) in
    omap (fun '(n, utm) =>
            calculateMetricForUTM (clock n)
              (default [] (adsByUTM !! utm)) (default [] (oppsByUTM !! utm)) utm)
         (imap (fun n utm => (n, utm)) jobs).

(** ** Export (metrics_service.go, [ExportMetrics]) *)

Definition toExportData (metric : BusinessMetrics.t) : ExportData.t :=
  ExportData.mk (GoTime.Format (BusinessMetrics.Date metric))
    (BusinessMetrics.Channel metric) (BusinessMetrics.CampaignID metric)
    (BusinessMetrics.Clicks metric) (BusinessMetrics.Impressions metric)
    (BusinessMetrics.Cost metric) (BusinessMetrics.Leads metric)
    (BusinessMetrics.Opportunities metric) (BusinessMetrics.ClosedWon metric)
    (BusinessMetrics.Revenue metric) (BusinessMetrics.CPC metric)
    (BusinessMetrics.CPA metric) (BusinessMetrics.CVRLeadToOpp metric)
    (BusinessMetrics.CVROppToWon metric) (BusinessMetrics.ROAS metric).

(** What a call of [ExportMetrics] leaves behind: the returned error and
    the calls it made to [exportClient.Export], in order. *)
Record exportOutcome : Type := mkExportOutcome {
  exportErr : option GoNum.error;
  exportCalls : list (list ExportData.t * GoTime.Time)
}.

(** [ExportMetrics], over the two interfaces it is written against:
    [getByDate] is [metricsRepo.GetByDate] and [export] is the answer of
    [exportClient.Export]. *)
Definition ExportMetrics
    (getByDate : GoTime.Time -> list BusinessMetrics.t * option GoNum.error)
    (export : list ExportData.t -> GoTime.Time -> option GoNum.error)
    (date : GoTime.Time) : exportOutcome :=
  match getByDate date with
  | (_, Some err) =>
      mkExportOutcome (Some ("failed to get metrics for export: " +:+ err)) []
  | (metrics, None) =>
      if (length metrics =? 0)%nat then
        mkExportOutcome
          (Some ("no metrics found for date " +:+ GoTime.Format date)) []
      else
        let exportData := map toExportData metrics in
        match export exportData date with
        | Some err =>
            mkExportOutcome (Some ("failed to export metrics: " +:+ err))
              [(exportData, date)]
        | None => mkExportOutcome None [(exportData, date)]
        end
  end.

(** ** Queries (metrics_service.go, [GetMetricsByChannel] and its siblings) *)

(** What a query of the service leaves behind: the response (nil on an
    error), the error, and the labels passed to [RecordBusinessMetric]. *)
Record queryOutcome : Type := mkQueryOutcome {
  queryResponse : option MetricsResponse.t;
  queryErr : option GoNum.error;
  queryRecorded : list string
}.

(** The shared tail of the three queries; [getByFilter] is
    [metricsRepo.GetByFilter], whose outer [None] is a run-time panic. *)
Definition runQuery
    (getByFilter : MetricsFilter.t -> option (MetricsResponse.t * option GoNum.error))
    (filter : MetricsFilter.t) (failure label : string) : option queryOutcome :=
  match getByFilter filter with
  | None => None
  | Some (_, Some err) =>
      Some (mkQueryOutcome None (Some (failure +:+ ": " +:+ err)) [])
  | Some (response, None) =>
      Some (mkQueryOutcome (Some response) None [label])
  end.

Definition GetMetricsByChannel
    (getByFilter : MetricsFilter.t -> option (MetricsResponse.t * option GoNum.error))
    (channel : string) (from to : GoTime.Time) (limit offset : Z)
  : option queryOutcome :=
  let filter := MetricsFilter.mk (Some from) (Some to) channel "" "" "" "" limit offset in
  runQuery getByFilter filter "failed to get metrics by channel" "channel_query".

Definition GetMetricsByFunnel
    (getByFilter : MetricsFilter.t -> option (MetricsResponse.t * option GoNum.error))
    (utmCampaign : string) (from to : GoTime.Time) (limit offset : Z)
  : option queryOutcome :=
  let filter :=
    MetricsFilter.mk (Some from) (Some to) "" "" utmCampaign "" "" limit offset in
  runQuery getByFilter filter "failed to get metrics by funnel" "funnel_query".

Definition GetMetricsByFilter
    (getByFilter : MetricsFilter.t -> option (MetricsResponse.t * option GoNum.error))
    (filter : MetricsFilter.t) : option queryOutcome :=
  runQuery getByFilter filter "failed to get metrics by filter" "filter_query".

(** ** Summary (metrics_service.go, [GetMetricsSummary]) *)

(** The summary map, one field per leaf: "period", "totals", "averages"
    and "counts". *)
Record Summary : Type := mkSummary {
  period_from : string;
  period_to : string;
  totals_clicks : Z;
  totals_impressions : Z;
  totals_cost : float;
  totals_leads : Z;
  totals_opportunities : Z;
  totals_closed_won : Z;
  totals_revenue : float;
  averages_cpc : float;
  averages_cpa : float;
  averages_cvr_lead_to_opp : float;
  averages_cvr_opp_to_won : float;
  averages_roas : float;
  counts_unique_channels : Z;
  counts_unique_campaigns : Z;
  counts_metric_records : Z
}.

(** The variables of the loop over [response.Data]. *)
Record summaryTotals : Type := mkSummaryTotals {
  sumClicks : Z;
  sumImpressions : Z;
  sumLeads : Z;
  sumOpportunities : Z;
  sumClosedWon : Z;
  sumCost : float;
  sumRevenue : float;
  channels : gset string;
  campaigns : gset string
}.

Definition summaryTotals0 : summaryTotals :=
  mkSummaryTotals 0 0 0 0 0 PrimFloat.zero PrimFloat.zero ∅ ∅.

Definition addMetric (acc : summaryTotals) (metric : BusinessMetrics.t)
  : summaryTotals :=
  mkSummaryTotals
    (GoNum.intAdd (sumClicks acc) (BusinessMetrics.Clicks metric))
    (GoNum.intAdd (sumImpressions acc) (BusinessMetrics.Impressions metric))
    (GoNum.intAdd (sumLeads acc) (BusinessMetrics.Leads metric))
    (GoNum.intAdd (sumOpportunities acc) (BusinessMetrics.Opportunities metric))
    (GoNum.intAdd (sumClosedWon acc) (BusinessMetrics.ClosedWon metric))
    (PrimFloat.add (sumCost acc) (BusinessMetrics.Cost metric))
    (PrimFloat.add (sumRevenue acc) (BusinessMetrics.Revenue metric))
    ({[BusinessMetrics.Channel metric]} ∪ channels acc)
    ({[BusinessMetrics.CampaignID metric]} ∪ campaigns acc).

(** [GetMetricsSummary]; [now1] and [now2] are its two readings of
    [time.Now()]. The filter it builds sets only [From] and [To]. *)
Definition GetMetricsSummary
    (getByFilter : MetricsFilter.t -> option (MetricsResponse.t * option GoNum.error))
    (now1 now2 : GoTime.Time) : option (option Summary * option GoNum.error) :=
  let from := GoTime.AddDate now1 (-60) in
  let to := now2 in
  let filter := MetricsFilter.mk (Some from) (Some to) "" "" "" "" "" 0 0 in
  match getByFilter filter with
  | None => None
  | Some (_, Some err) =>
      Some (None, Some ("failed to get metrics summary: " +:+ err))
  | Some (response, None) =>
      let t := foldl addMetric summaryTotals0 (MetricsResponse.Data response) in
      let avgCPC := if 0 <? sumClicks t
                    then PrimFloat.div (sumCost t) (GoNum.float64OfInt (sumClicks t))
                    else PrimFloat.zero in
      let avgCPA := if 0 <? sumLeads t
                    then PrimFloat.div (sumCost t) (GoNum.float64OfInt (sumLeads t))
                    else PrimFloat.zero in
      let avgCVRLeadToOpp :=
        if 0 <? sumLeads t
        then PrimFloat.div (GoNum.float64OfInt (sumOpportunities t))
               (GoNum.float64OfInt (sumLeads t))
        else PrimFloat.zero in
      let avgCVROppToWon :=
        if 0 <? sumOpportunities t
        then PrimFloat.div (GoNum.float64OfInt (sumClosedWon t))
               (GoNum.float64OfInt (sumOpportunities t))
        else PrimFloat.zero in
      let avgROAS := if GoNum.floatPos (sumCost t)
                     then PrimFloat.div (sumRevenue t) (sumCost t)
                     else PrimFloat.zero in
      Some (Some (mkSummary (GoTime.Format from) (GoTime.Format to)
                    (sumClicks t) (sumImpressions t) (sumCost t) (sumLeads t)
                    (sumOpportunities t) (sumClosedWon t) (sumRevenue t)
                    avgCPC avgCPA avgCVRLeadToOpp avgCVROppToWon avgROAS
                    (Z.of_nat (size (channels t))) (Z.of_nat (size (campaigns t)))
                    (Z.of_nat (length (MetricsResponse.Data response)))),
            None)
  end.

(** ** The pipeline (metrics_service.go, [RunETL] and its stages) *)

(** The three repositories the service holds. *)
Record repos : Type := mkRepos {
  adRepo : Infra.AdRepository.t;
  crmRepo : Infra.CRMRepository.t;
  metricsRepo : Infra.MetricsRepository.t
}.

(** What a run depends on besides its arguments: the answers of the two
    fetches ([inr] is a non-nil error), [time.Parse], the readings of
    [time.Now()] and the pool. *)
Record etlEnv : Type := mkEtlEnv {
  fetchAds : list AdPerformance.t + GoNum.error;
  fetchCRM : list Opportunity.t + GoNum.error;
  envParse : string -> string -> option GoTime.Time;
  adsClock : nat -> GoTime.Time;
  crmClock : nat -> GoTime.Time;
  nowFrom : GoTime.Time;
  nowTo : GoTime.Time;
  workerPool : Z;
  schedule : list UTMKey.t -> list UTMKey.t;
  poolClock : nat -> GoTime.Time
}.

(** [extractData]: both fetches run to their end; the error of the ads
    fetch is looked at first. *)
Definition extractData (env : etlEnv)
  : (list AdPerformance.t * list Opportunity.t) + GoNum.error :=
  match fetchAds env, fetchCRM env with
  | inr adsErr, _ => inr ("ads data extraction failed: " +:+ adsErr)
  | inl _, inr crmErr => inr ("CRM data extraction failed: " +:+ crmErr)
  | inl adsData, inl crmData => inl (adsData, crmData)
  end.

(** [transformData]; its error is always nil. *)
Definition transformData (env : etlEnv) (adsData : list AdPerformance.t)
    (crmData : list Opportunity.t) (since : option GoTime.Time)
  : adsLoop * crmLoop * option GoNum.error :=
  (processAdsData (envParse env) (adsClock env) adsData since,
   processCRMData (envParse env) (crmClock env) crmData since,
   None).

(** [loadData]: the two stores, each on its own repository; the error of
    the ads store is looked at first. *)
Definition loadData (st : repos) (ads : list ProcessedAdData.t)
    (opportunities : list ProcessedOpportunity.t) : repos * option GoNum.error :=
  let '(adRepo', adsErr) := Infra.AdRepository.Store (adRepo st) ads in
  let '(crmRepo', crmErr) := Infra.CRMRepository.Store (crmRepo st) opportunities in
  let st' := mkRepos adRepo' crmRepo' (metricsRepo st) in
  match adsErr, crmErr with
  | Some err, _ => (st', Some ("failed to store ads data: " +:+ err))
  | None, Some err => (st', Some ("failed to store CRM data: " +:+ err))
  | None, None => (st', None)
  end.

(** [calculateMetrics]. *)
Definition calculateMetrics (env : etlEnv) (st : repos) (since : option GoTime.Time)
  : repos * option GoNum.error :=
  let from := GoTime.AddDate (nowFrom env) (-365) in
  let to := GoTime.AddDate (nowTo env) 30 in
  let from := match since with
              | Some s => s
              | None => from
              end in
  match Infra.AdRepository.GetByDateRange (adRepo st) from to with
  | (_, Some err) => (st, Some ("failed to get ads data for metrics: " +:+ err))
  | (ads, None) =>
      match Infra.CRMRepository.GetByDateRange (crmRepo st) from to with
      | (_, Some err) => (st, Some ("failed to get CRM data for metrics: " +:+ err))
      | (opportunities, None) =>
          let metrics :=
            calculateMetricsWithWorkerPool (workerPool env) (schedule env)
              (poolClock env) ads opportunities in
          match Infra.MetricsRepository.Store (metricsRepo st) metrics with
          | (metricsRepo', Some err) =>
              (mkRepos (adRepo st) (crmRepo st) metricsRepo',
               Some ("failed to store metrics: " +:+ err))
          | (metricsRepo', None) =>
              (mkRepos (adRepo st) (crmRepo st) metricsRepo', None)
          end
      end
  end.

(** What a run leaves behind: the repositories, the returned error, the
    (status, stage) pairs passed to [RecordETLJob] and the labels passed to
    [RecordETLRecordFailure]. *)
Record etlOutcome : Type := mkEtlOutcome {
  etlRepos : repos;
  etlErr : option GoNum.error;
  etlJobs : list (string * string);
  etlRecordFailures : list (string * string)
}.

(** [RunETL]. *)
Definition RunETL (env : etlEnv) (st : repos) (since : option GoTime.Time)
  : etlOutcome :=
  match extractData env with
  | inr err =>
      mkEtlOutcome st (Some ("failed to extract data: " +:+ err))
        [("failed", "extract")%string] []
  | inl (adsData, crmData) =>
      match transformData env adsData crmData since with
      | (processedAds, processedOpps, Some err) =>
          mkEtlOutcome st (Some ("failed to transform data: " +:+ err))
            [("failed", "transform")%string]
            (failures processedAds ++ failuresCRM processedOpps)
      | (processedAds, processedOpps, None) =>
          let recordFailures := failures processedAds ++ failuresCRM processedOpps in
          match loadData st (processed processedAds) (processedCRM processedOpps) with
          | (st1, Some err) =>
              mkEtlOutcome st1 (Some ("failed to load data: " +:+ err))
                [("failed", "load")%string] recordFailures
          | (st1, None) =>
              match calculateMetrics env st1 since with
              | (st2, Some err) =>
                  mkEtlOutcome st2 (Some ("failed to calculate metrics: " +:+ err))
                    [("failed", "metrics")%string] recordFailures
              | (st2, None) =>
                  mkEtlOutcome st2 None [("success", "complete")%string]
                    recordFailures
              end
          end
      end
  end.

End Usecase.

(* ===================================================================== *)
(** * The specification's operations, in its own words                    *)
(* ===================================================================== *)

Module Spec.
Import Domain Usecase.

(** [ParseFlexibleDate]: the first successful parse, in the order of the
    layouts. *)
Definition ParseFlexibleDate (time_Parse : string -> string -> option GoTime.Time)
    (raw : string) (formats : list string) : option GoTime.Time :=
  head (omap (fun format => time_Parse format raw) formats).

(** [t] is the result of the first layout of [formats] that parses [raw]. *)
Definition FirstMatch (time_Parse : string -> string -> option GoTime.Time)
    (formats : list string) (raw : string) (t : GoTime.Time) : Prop :=
  exists (i : nat) (format : string),
    formats !! i = Some format /\ time_Parse format raw = Some t /\
    forall (j : nat) (earlier : string),
      (j < i)%nat -> formats !! j = Some earlier -> time_Parse earlier raw = None.

(** [NormalizeUTM]. *)
Definition NormalizeUTM (value : string) : string :=
  match value with
  | EmptyString => "unknown"
  | _ => value
  end.

(** [TransformAds], one record: [None] when the record is dropped, else
    the normalized record, still waiting for its [processed_at]. *)
Definition TransformAd (time_Parse : string -> string -> option GoTime.Time)
    (since : option GoTime.Time) (ad : AdPerformance.t)
  : option (GoTime.Time -> ProcessedAdData.t) :=
  match ParseFlexibleDate time_Parse (AdPerformance.Date ad) adDateFormats with
  | None => None
  | Some date =>
      match since with
      | Some s =>
          if bool_decide (GoTime.unixNano date < GoTime.unixNano s) then None
          else Some (ProcessedAdData.mk date (AdPerformance.CampaignID ad)
                       (AdPerformance.Channel ad) (AdPerformance.Clicks ad)
                       (AdPerformance.Impressions ad) (AdPerformance.Cost ad)
                       (NormalizeUTM (AdPerformance.UTMCampaign ad))
                       (NormalizeUTM (AdPerformance.UTMSource ad))
                       (NormalizeUTM (AdPerformance.UTMMedium ad)))
      | None =>
          Some (ProcessedAdData.mk date (AdPerformance.CampaignID ad)
                  (AdPerformance.Channel ad) (AdPerformance.Clicks ad)
                  (AdPerformance.Impressions ad) (AdPerformance.Cost ad)
                  (NormalizeUTM (AdPerformance.UTMCampaign ad))
                  (NormalizeUTM (AdPerformance.UTMSource ad))
                  (NormalizeUTM (AdPerformance.UTMMedium ad)))
      end
  end.

(** The records of a batch whose date matches no layout. *)
Definition unparseable (time_Parse : string -> string -> option GoTime.Time)
    (ads : list AdPerformance.t) : list AdPerformance.t :=
  filter (fun ad => ParseFlexibleDate time_Parse (AdPerformance.Date ad)
                      adDateFormats = None) ads.

(** [r] is the first record of [ads], in iteration order, that carries
    the latest date of the group. *)
Definition LatestFirstSeen (ads : list ProcessedAdData.t) (r : ProcessedAdData.t)
  : Prop :=
  exists l1 l2, ads = l1 ++ r :: l2
    /\ (forall x, x ∈ l1 ->
          GoTime.unixNano (ProcessedAdData.Date x) < GoTime.unixNano (ProcessedAdData.Date r))
    /\ (forall x, x ∈ l2 ->
          GoTime.unixNano (ProcessedAdData.Date x) <= GoTime.unixNano (ProcessedAdData.Date r)).

(** [r] is the last record of [ads], in iteration order, that carries the
    latest date of the group. *)
Definition LatestLastSeen (ads : list ProcessedAdData.t) (r : ProcessedAdData.t)
  : Prop :=
  exists l1 l2, ads = l1 ++ r :: l2
    /\ (forall x, x ∈ l1 ->
          GoTime.unixNano (ProcessedAdData.Date x) <= GoTime.unixNano (ProcessedAdData.Date r))
    /\ (forall x, x ∈ l2 ->
          GoTime.unixNano (ProcessedAdData.Date x) < GoTime.unixNano (ProcessedAdData.Date r)).

(** The UTM key a bucket is reported under. *)
Definition metricKey (m : BusinessMetrics.t) : UTMKey.t :=
  UTMKey.mk (BusinessMetrics.UTMCampaign m) (BusinessMetrics.UTMSource m)
    (BusinessMetrics.UTMMedium m).

(** The limit and the offset in force: the filter's value when it is
    positive, else the default. *)
Definition effectiveLimit (filter : MetricsFilter.t) : Z :=
  if 0 <? MetricsFilter.Limit filter then MetricsFilter.Limit filter else 100.

Definition effectiveOffset (filter : MetricsFilter.t) : Z :=
  if 0 <? MetricsFilter.Offset filter then MetricsFilter.Offset filter else 0.

(** [Paginate]: the slice [[offset, offset+limit)] of the sorted records,
    clamped to their bounds. *)
Definition Paginate {A : Type} (records : list A) (limit offset : Z) : list A :=
  take (Z.to_nat limit) (drop (Z.to_nat offset) records).

(** The filter with its unset (non-positive) limit and offset replaced by
    the defaults. *)
Definition withDefaults (filter : MetricsFilter.t) : MetricsFilter.t :=
  MetricsFilter.mk (MetricsFilter.From filter) (MetricsFilter.To filter)
    (MetricsFilter.Channel filter) (MetricsFilter.CampaignID filter)
    (MetricsFilter.UTMCampaign filter) (MetricsFilter.UTMSource filter)
    (MetricsFilter.UTMMedium filter)
    (if MetricsFilter.Limit filter <=? 0 then 100 else MetricsFilter.Limit filter)
    (if MetricsFilter.Offset filter <=? 0 then 0 else MetricsFilter.Offset filter).

(** The raw totals of a group, from its records: a sum of [int]s (which
    wraps around like every [int]), a sum of [float64]s added up from the
    left in the order of the records, and the number of opportunities at
    a stage. *)
Definition sumInt (l : list Z) : Z := GoNum.wrapInt (foldr Z.add 0 l).

Definition sumFloat (l : list float) : float :=
  foldl PrimFloat.add PrimFloat.zero l.

Definition atStage (stage : OpportunityStage)
    (opportunities : list ProcessedOpportunity.t) : list ProcessedOpportunity.t :=
  filter (fun opp => ProcessedOpportunity.Stage opp = stage) opportunities.

Definition countStage (stage : OpportunityStage)
    (opportunities : list ProcessedOpportunity.t) : Z :=
  GoNum.wrapInt (Z.of_nat (length (atStage stage opportunities))).

(** The filter that asks for the page after the one [filter] asks for:
    the same selection, the offset moved on by the limit. *)
Definition nextPage (filter : MetricsFilter.t) : MetricsFilter.t :=
  MetricsFilter.mk (MetricsFilter.From filter) (MetricsFilter.To filter)
    (MetricsFilter.Channel filter) (MetricsFilter.CampaignID filter)
    (MetricsFilter.UTMCampaign filter) (MetricsFilter.UTMSource filter)
    (MetricsFilter.UTMMedium filter)
    (effectiveLimit filter)
    (effectiveOffset filter + effectiveLimit filter).

(** [TransformCRM], one record: [None] when the record is dropped, else
    the normalized opportunity, still waiting for its [processed_at]. *)
Definition TransformOpp (time_Parse : string -> string -> option GoTime.Time)
    (since : option GoTime.Time) (opp : Opportunity.t)
  : option (GoTime.Time -> ProcessedOpportunity.t) :=
  match ParseFlexibleDate time_Parse (Opportunity.CreatedAt opp) crmDateFormats with
  | None => None
  | Some createdAt =>
      let emit :=
        ProcessedOpportunity.mk (Opportunity.OpportunityID opp)
          (Opportunity.ContactEmail opp) (Opportunity.Stage opp)
          (Opportunity.Amount opp) createdAt
          (NormalizeUTM (Opportunity.UTMCampaign opp))
          (NormalizeUTM (Opportunity.UTMSource opp))
          (NormalizeUTM (Opportunity.UTMMedium opp)) in
      match since with
      | Some s =>
          if bool_decide (GoTime.unixNano createdAt < GoTime.unixNano s) then None
          else Some emit
      | None => Some emit
      end
  end.

(** The opportunities of a batch whose creation date matches no layout. *)
Definition unparseableOpps (time_Parse : string -> string -> option GoTime.Time)
    (opportunities : list Opportunity.t) : list Opportunity.t :=
  filter (fun opp => ParseFlexibleDate time_Parse (Opportunity.CreatedAt opp)
                       crmDateFormats = None) opportunities.

End Spec.

(* ===================================================================== *)
(** * Sample data                                                         *)
(* ===================================================================== *)

Module Examples.
Import Domain.

(** Two ad records of one UTM group that share their date. *)
Definition tieAdFirst : ProcessedAdData.t :=
  ProcessedAdData.mk (GoTime.Date 2025 1 1 0 0 0 0) "campaign-a" "google"
    10 100 5%float "sale" "unknown" "unknown" (GoTime.Date 2025 1 2 0 0 0 0).

Definition tieAdSecond : ProcessedAdData.t :=
  ProcessedAdData.mk (GoTime.Date 2025 1 1 0 0 0 0) "campaign-b" "facebook"
    20 200 10%float "sale" "unknown" "unknown" (GoTime.Date 2025 1 2 0 0 0 0).

(** An opportunity whose UTM key no ad record carries. *)
Definition orphanOpp : ProcessedOpportunity.t :=
  ProcessedOpportunity.mk "opp-1" "lead@example.com" StageLead 0%float
    (GoTime.Date 2025 1 1 0 0 0 0) "orphan" "unknown" "unknown"
    (GoTime.Date 2025 1 2 0 0 0 0).

(** Opportunities of the group of the two ad records: two leads, one
    open opportunity, one won for 30 and one lost. *)
Definition saleOpp (id : string) (stage : OpportunityStage) (amount : float)
  : ProcessedOpportunity.t :=
  ProcessedOpportunity.mk id "lead@example.com" stage amount
    (GoTime.Date 2025 1 1 0 0 0 0) "sale" "unknown" "unknown"
    (GoTime.Date 2025 1 2 0 0 0 0).

Definition saleOpps : list ProcessedOpportunity.t :=
  [ saleOpp "opp-2" StageLead 0%float; saleOpp "opp-3" StageOpportunity 50%float;
    saleOpp "opp-4" StageClosedWon 30%float; saleOpp "opp-5" StageLead 0%float;
    saleOpp "opp-6" StageClosedLost 80%float ].

(** A stored bucket dated [date]. *)
Definition sampleMetric (date : GoTime.Time) (channel : string) : BusinessMetrics.t :=
  BusinessMetrics.mk date channel "campaign-a" "sale" "unknown" "unknown"
    100 1000 50%float 1 0 0 0%float 0.5%float 50%float 0%float 0%float 0%float
    (GoTime.Date 2025 1 5 0 0 0 0).

Definition metricJan1 : BusinessMetrics.t :=
  sampleMetric (GoTime.Date 2025 1 1 0 0 0 0) "google".

Definition metricJan2 : BusinessMetrics.t :=
  sampleMetric (GoTime.Date 2025 1 2 0 0 0 0) "facebook".

(** A query for the two days with the largest limit an [int] holds and
    offset 1: [?from=2025-01-01&to=2025-01-02&limit=9223372036854775807&offset=1]. *)
Definition hugeLimitFilter : MetricsFilter.t :=
  MetricsFilter.mk (Some (GoTime.Date 2025 1 1 0 0 0 0))
    (Some (GoTime.Date 2025 1 2 0 0 0 0)) "" "" "" "" "" GoNum.maxInt 1.

(** A bucket dated after the sample queries are made. *)
Definition metricFeb1 : BusinessMetrics.t :=
  sampleMetric (GoTime.Date 2025 2 1 0 0 0 0) "google".

(** An ad record dated 2025-01-03, midnight UTC. *)
Definition adJan3 : ProcessedAdData.t :=
  ProcessedAdData.mk (GoTime.Date 2025 1 3 0 0 0 0) "campaign-a" "google"
    10 100 5%float "sale" "unknown" "unknown" (GoTime.Date 2025 1 4 0 0 0 0).

(** A bucket dated 2025-04-01. *)
Definition metricApr1 : BusinessMetrics.t :=
  sampleMetric (GoTime.Date 2025 4 1 0 0 0 0) "google".

(** A zone with daylight saving time, America/New_York in 2025: five
    hours west of UTC, four from 2025-03-09 07:00 UTC (02:00 on the local
    clock) to 2025-11-02 06:00 UTC (02:00 on the local clock), then five
    again. *)
Definition easternTime : GoTime.Location :=
  GoTime.mkLocation (-18000)
    [GoTime.mkZoneTrans 1741503600 (-14400);
     GoTime.mkZoneTrans 1762063200 (-18000)].

(** Two readings of the clock of a server in that zone, a second apart,
    on 2025-03-20 at noon. *)
Definition easternNoon : GoTime.Time := GoTime.DateIn 2025 3 20 12 0 0 easternTime.
Definition easternNoonLater : GoTime.Time :=
  GoTime.DateIn 2025 3 20 12 0 1 easternTime.

(** A scan from 2025-01-02 12:00 to 2025-01-03 06:00, UTC. *)
Definition scanFromNoon : GoTime.Time := GoTime.Date 2025 1 2 12 0 0 0.
Definition scanToMorning : GoTime.Time := GoTime.Date 2025 1 3 6 0 0 0.

End Examples.

(* ===================================================================== *)
(** * Facts about package time                                            *)
(* ===================================================================== *)

Module GoTimeFacts.
Import GoTime.

Lemma rangeAll_sound (P : Z -> bool) (n : nat) : forall lo z,
  rangeAll P lo n = true -> lo <= z < lo + Z.of_nat n -> P z = true.
Proof.
  induction n as [|n IH]; intros lo z Hc Hz; [lia|].
  simpl in Hc. destruct (P lo) eqn:Hlo; [|discriminate].
  destruct (decide (z = lo)) as [->|Hne]; [done|].
  apply (IH (lo + 1)); [done|lia].
Qed.

Lemma doeOk_all doe : 0 <= doe < daysPerEra -> doeOk doe = true.
Proof.
  intros H. apply (rangeAll_sound doeOk (Z.to_nat daysPerEra) 0).
  - vm_compute. reflexivity.
  - rewrite Z2Nat.id; unfold daysPerEra in *; lia.
Qed.

Lemma civilOfDoe_range doe y m d :
  0 <= doe < daysPerEra -> civilOfDoe doe = (y, m, d) ->
  1 <= m <= 12 /\ 1 <= d <= 31
  /\ 0 <= y - (if m <=? 2 then 1 else 0) <= 399
  /\ doeOfCivil y m d = doe.
Proof.
  intros Hdoe Hc. pose proof (doeOk_all doe Hdoe) as Hok.
  unfold doeOk in Hok. rewrite Hc in Hok.
  repeat (apply andb_prop in Hok as [Hok ?]). lia.
Qed.

Lemma civilFromDays_range z y m d :
  civilFromDays z = (y, m, d) -> 1 <= m <= 12 /\ 1 <= d <= 31.
Proof.
  unfold civilFromDays. intros Hc.
  destruct (civilOfDoe ((z + epochShift) mod daysPerEra)) as [[y0 m0] d0] eqn:E.
  injection Hc as <- <- <-.
  apply civilOfDoe_range in E; [lia|].
  apply Z.mod_pos_bound. reflexivity.
Qed.

(** Two day numbers with the same calendar date are equal. *)
Lemma civilFromDays_inj z1 z2 :
  civilFromDays z1 = civilFromDays z2 -> z1 = z2.
Proof.
  unfold civilFromDays. intros Hc.
  assert (Hb : forall z, 0 <= (z + epochShift) mod daysPerEra < daysPerEra)
    by (intros; apply Z.mod_pos_bound; reflexivity).
  destruct (civilOfDoe ((z1 + epochShift) mod daysPerEra)) as [[y1 m1] d1] eqn:E1.
  destruct (civilOfDoe ((z2 + epochShift) mod daysPerEra)) as [[y2 m2] d2] eqn:E2.
  injection Hc as Hy -> ->.
  apply civilOfDoe_range in E1 as (_ & _ & Hy1 & Hd1); [|apply Hb].
  apply civilOfDoe_range in E2 as (_ & _ & Hy2 & Hd2); [|apply Hb].
  assert (He : (z1 + epochShift) / daysPerEra = (z2 + epochShift) / daysPerEra) by lia.
  assert (y1 = y2) by lia. subst y2.
  pose proof (Z.div_mod (z1 + epochShift) daysPerEra ltac:(done)).
  pose proof (Z.div_mod (z2 + epochShift) daysPerEra ltac:(done)).
  lia.
Qed.

(** *** Strings *)

Lemma string_app_nil (t : string) : "" +:+ t = t.
Proof. reflexivity. Qed.

Lemma string_app_cons (c : ascii) (s t : string) :
  String c s +:+ t = String c (s +:+ t).
Proof. reflexivity. Qed.

Lemma string_length_app (s t : string) :
  String.length (s +:+ t) = (String.length s + String.length t)%nat.
Proof.
  induction s as [|c s IH]; [done|].
  rewrite string_app_cons. simpl. by rewrite IH.
Qed.

Lemma string_app_inj_tail (s1 s2 t1 t2 : string) :
  String.length t1 = String.length t2 ->
  s1 +:+ t1 = s2 +:+ t2 -> s1 = s2 /\ t1 = t2.
Proof.
  revert s2. induction s1 as [|c s1 IH]; intros [|c' s2] Hl He;
    rewrite ?string_app_nil, ?string_app_cons in He.
  - done.
  - subst t1. simpl in Hl. rewrite string_length_app in Hl. lia.
  - subst t2. simpl in Hl. rewrite string_length_app in Hl. lia.
  - injection He as -> He. destruct (IH s2 Hl He) as [-> ->]. done.
Qed.

Lemma readDigits_decimal (u : Z) : readDigits (decimal u) = Some (Z.to_N u).
Proof.
  unfold readDigits, decimal, NilZero.string_of_uint.
  destruct (N.to_uint (Z.to_N u)) eqn:E;
    rewrite <- ?E, ?NilEmpty.usu; simpl; rewrite ?DecimalN.Unsigned.of_to; try done.
  exfalso. revert E. unfold N.to_uint. destruct (Z.to_N u); [done|].
  intros E. pose proof (DecimalPos.Unsigned.of_to p) as H.
  rewrite E in H. simpl in H. done.
Qed.

Lemma readDigits_zeros (n : nat) (s : string) :
  is_Some (readDigits s) -> readDigits (zeros n +:+ s) = readDigits s.
Proof.
  intros [v Hv]. induction n as [|n IH]; simpl; [done|].
  unfold readDigits in *. simpl.
  destruct (NilEmpty.uint_of_string (zeros n +:+ s)) as [u|]; simpl in *; [|by rewrite Hv in IH].
  done.
Qed.

Lemma readDigits_minus (s : string) : readDigits (String "-" s) = None.
Proof.
  unfold readDigits. simpl. by destruct (NilEmpty.uint_of_string s).
Qed.

Lemma readDigits_padded (n : nat) (u : Z) :
  readDigits (zeros n +:+ decimal u) = Some (Z.to_N u).
Proof.
  rewrite readDigits_zeros; rewrite readDigits_decimal; done.
Qed.

Lemma appendInt_inj (x x' : Z) (w w' : nat) :
  appendInt x w = appendInt x' w' -> x = x'.
Proof.
  unfold appendInt. intros He.
  destruct (Z.ltb_spec x 0), (Z.ltb_spec x' 0); cbv zeta in He;
    rewrite ?string_app_cons, ?string_app_nil in He.
  - injection He as He. apply (f_equal readDigits) in He.
    rewrite !readDigits_padded in He. injection He as He. lia.
  - apply (f_equal readDigits) in He.
    rewrite readDigits_minus, readDigits_padded in He. done.
  - apply (f_equal readDigits) in He.
    rewrite readDigits_minus, readDigits_padded in He. done.
  - apply (f_equal readDigits) in He.
    rewrite !readDigits_padded in He. injection He as He. lia.
Qed.

Lemma appendInt2_length (x : Z) :
  0 <= x < 100 -> String.length (appendInt x 2) = 2%nat.
Proof.
  intros H.
  pose proof (rangeAll_sound
                (fun z => (String.length (appendInt z 2) =? 2)%nat) 100 0 x
                eq_refl ltac:(lia)) as Hc.
  by apply Nat.eqb_eq in Hc.
Qed.

Lemma formatCivil_inj (y m d y' m' d' : Z) :
  1 <= m <= 12 -> 1 <= d <= 31 -> 1 <= m' <= 12 -> 1 <= d' <= 31 ->
  formatCivil (y, m, d) = formatCivil (y', m', d') ->
  (y, m, d) = (y', m', d').
Proof.
  intros Hm Hd Hm' Hd'. unfold formatCivil. intros He.
  apply string_app_inj_tail in He as [Hy He].
  2:{ rewrite !string_length_app, !appendInt2_length by lia. done. }
  rewrite !string_app_cons, !string_app_nil in He. injection He as He.
  apply string_app_inj_tail in He as [Hmm He].
  2:{ simpl. rewrite !appendInt2_length by lia. done. }
  injection He as He.
  apply appendInt_inj in Hy, Hmm, He. by subst.
Qed.

(** The key [t.Format("2006-01-02")] determines the calendar day. *)
Lemma Format_inj_day (t u : Time) :
  Format t = Format u -> dayNumber t = dayNumber u.
Proof.
  unfold Format. intros He.
  destruct (civilFromDays (dayNumber t)) as [[y m] d] eqn:E1.
  destruct (civilFromDays (dayNumber u)) as [[y' m'] d'] eqn:E2.
  apply civilFromDays_inj. rewrite E1, E2.
  apply civilFromDays_range in E1 as [? ?].
  apply civilFromDays_range in E2 as [? ?].
  by apply formatCivil_inj.
Qed.

Lemma Format_day (t u : Time) :
  dayNumber t = dayNumber u -> Format t = Format u.
Proof. unfold Format. by intros ->. Qed.

(** *** Locations *)

Lemma dayNumber_localDay (t : Time) :
  dayNumber t = localDay (loc t) (unixSec t).
Proof.
  unfold dayNumber, localDay, zoneOffset, unixSec, nsPerDay.
  rewrite (Z.mul_comm secondsPerDay), <- Z.div_div by done.
  by rewrite Z.div_add.
Qed.

Lemma dayNumber_In (t : Time) (l : Location) :
  dayNumber (In t l) = localDay l (unixSec t).
Proof. by rewrite dayNumber_localDay. Qed.

Lemma unixSec_le (t u : Time) :
  unixNano t <= unixNano u -> unixSec t <= unixSec u.
Proof. intros Hle. by apply Z.div_le_mono. Qed.

Lemma lookup_fixed (offset sec : Z) :
  lookup (FixedZone offset) sec = (offset, alpha, omega).
Proof. reflexivity. Qed.

Lemma dateOffset_fixed (offset unix : Z) :
  dateOffset (FixedZone offset) unix = offset.
Proof.
  unfold dateOffset, offsetAt. rewrite !lookup_fixed. cbn [fst].
  destruct (Z.eqb_spec offset 0) as [->|_]; [done|].
  by destruct (_ || _).
Qed.

Lemma zoneOffset_fixed (t : Time) (offset : Z) :
  loc t = FixedZone offset -> zoneOffset t = offset.
Proof. unfold zoneOffset. by intros ->. Qed.

(** In a fixed zone a calendar day is 24 hours. *)
Lemma AddDate_fixed (t : Time) (k offset : Z) :
  loc t = FixedZone offset ->
  AddDate t k = mkTime (unixNano t + k * nsPerDay) (FixedZone offset).
Proof.
  intros Hl. unfold AddDate. rewrite (zoneOffset_fixed t offset Hl), Hl.
  rewrite dateOffset_fixed. f_equal. lia.
Qed.

Lemma regular_fixed (offset : Z) : regular (FixedZone offset).
Proof.
  split.
  - intros wall. unfold localDay, dateSec, offsetAt.
    rewrite dateOffset_fixed, lookup_fixed. cbn [fst]. f_equal. lia.
  - intros s1 s2 Hle. unfold localDay, offsetAt. rewrite !lookup_fixed. cbn [fst].
    apply Z.div_le_mono; [done|lia].
Qed.

(** Case analysis on the lookups of a location given by its table. *)
Ltac zone_bools :=
  repeat match goal with
         | H : (_ <? _) = true |- _ => apply Z.ltb_lt in H
         | H : (_ <? _) = false |- _ => apply Z.ltb_ge in H
         | H : (_ <=? _) = true |- _ => apply Z.leb_le in H
         | H : (_ <=? _) = false |- _ => apply Z.leb_gt in H
         | H : (_ || _) = true |- _ => apply orb_true_iff in H as [H|H]
         | H : (_ || _) = false |- _ => apply orb_false_iff in H as [? ?]
         | H : (_ =? _) = true |- _ => apply Z.eqb_eq in H
         | H : (_ =? _) = false |- _ => apply Z.eqb_neq in H
         end.

Ltac zone_cases :=
  repeat match goal with
         | |- context [if ?c then _ else _] => destruct c eqn:?
         end;
  cbn [fst snd] in *; zone_bools.

(** A zone that moves its clock by an hour at 02:00 is regular. *)
Lemma regular_easternTime : regular Examples.easternTime.
Proof.
  split.
  - intros wall.
    unfold localDay, dateSec, dateOffset, offsetAt, lookup, Examples.easternTime,
      secondsPerDay, alpha, omega.
    cbn [tx firstOffset lookupFrom txWhen txOffset].
    change (2 ^ 63) with 9223372036854775808.
    zone_cases; try lia; try (f_equal; lia);
      Z.to_euclidean_division_equations; lia.
  - intros s1 s2 Hle.
    unfold localDay, offsetAt, lookup, Examples.easternTime, secondsPerDay,
      alpha, omega.
    cbn [tx firstOffset lookupFrom txWhen txOffset].
    zone_cases; try lia; Z.to_euclidean_division_equations; lia.
Qed.

Lemma loc_AddDate (t : Time) (k : Z) : loc (AddDate t k) = loc t.
Proof. reflexivity. Qed.

(** In a regular location [AddDate] moves the calendar day by the days
    it is given. *)
Lemma dayNumber_AddDate (t : Time) (k : Z) :
  regular (loc t) -> dayNumber (AddDate t k) = dayNumber t + k.
Proof.
  intros [Hdate _]. rewrite dayNumber_localDay, loc_AddDate.
  set (wall := unixNano t + zoneOffset t * nsPerSecond + k * nsPerDay).
  assert (Hsec : unixSec (AddDate t k) = dateSec (loc t) (wall / nsPerSecond)).
  { unfold unixSec, AddDate, dateSec. cbn [unixNano]. fold wall.
    replace (wall - dateOffset (loc t) (wall / nsPerSecond) * nsPerSecond)
      with (wall + - dateOffset (loc t) (wall / nsPerSecond) * nsPerSecond) by lia.
    rewrite Z.div_add by done. lia. }
  rewrite Hsec, Hdate. rewrite Z.div_div by done.
  unfold wall, dayNumber. change (nsPerSecond * secondsPerDay) with nsPerDay.
  by rewrite Z.div_add.
Qed.

(** In a regular location a time of an earlier calendar day is an
    earlier instant. *)
Lemma dayNumber_le (t u : Time) :
  regular (loc t) -> unixNano t <= unixNano u ->
  dayNumber t <= dayNumber (In u (loc t)).
Proof.
  intros [_ Hmono] Hle. rewrite dayNumber_In, dayNumber_localDay.
  by apply Hmono, unixSec_le.
Qed.

End GoTimeFacts.

(* ===================================================================== *)
(** * Facts about the day-partitioned stores                              *)
(* ===================================================================== *)

Module InfraFacts.
Import Domain Infra.

(** *** The day loop *)

Lemma nsPerDay_pos : 0 < GoTime.nsPerDay.
Proof. reflexivity. Qed.

Lemma loc_dateAt (from : GoTime.Time) (k : nat) :
  GoTime.loc (dateAt from k) = GoTime.loc from.
Proof. induction k as [|k IH]; [done|]. exact IH. Qed.

Lemma dateAt_shift (from : GoTime.Time) (k : nat) :
  dateAt (GoTime.AddDate from 1) k = dateAt from (S k).
Proof. unfold dateAt. by rewrite Nat.iter_succ_r. Qed.

(** In a regular location round [k] looks at the [k]-th day after the
    day of [from]. *)
Lemma dayNumber_dateAt (from : GoTime.Time) (k : nat) :
  GoTime.regular (GoTime.loc from) ->
  GoTime.dayNumber (dateAt from k) = GoTime.dayNumber from + Z.of_nat k.
Proof.
  intros Hreg. induction k as [|k IH]; [simpl; lia|].
  change (dateAt from (S k)) with (GoTime.AddDate (dateAt from k) 1).
  rewrite GoTimeFacts.dayNumber_AddDate by by rewrite loc_dateAt.
  lia.
Qed.

(** A date past the day of [to] is after [to]. *)
Lemma After_later_day (date to : GoTime.Time) :
  GoTime.regular (GoTime.loc date) ->
  GoTime.dayNumber (GoTime.In to (GoTime.loc date)) < GoTime.dayNumber date ->
  GoTime.After date to = true.
Proof.
  intros Hreg Hday. unfold GoTime.After. apply Z.ltb_lt.
  destruct (Z.lt_ge_cases (GoTime.unixNano to) (GoTime.unixNano date))
    as [|Hle]; [done|].
  pose proof (GoTimeFacts.dayNumber_le date to Hreg Hle). lia.
Qed.

(** With enough fuel the loop leaves through its condition: it yields
    the dates of the rounds before the first one whose date is after
    [to]. *)
Lemma dayLoop_enough (fuel : nat) : forall date to,
  GoTime.regular (GoTime.loc date) ->
  GoTime.dayNumber (GoTime.In to (GoTime.loc date)) - GoTime.dayNumber date + 1
    <= Z.of_nat fuel ->
  exists n : nat,
    dayLoop fuel date to = dateAt date <$> seq 0 n
    /\ (forall k, (k < n)%nat -> GoTime.After (dateAt date k) to = false)
    /\ GoTime.After (dateAt date n) to = true.
Proof.
  induction fuel as [|fuel IH]; intros date to Hreg Hf.
  - exists 0%nat. split_and!; [done|intros k Hk; lia|].
    apply (After_later_day date to); [done|lia].
  - simpl. destruct (GoTime.After date to) eqn:Ha.
    + exists 0%nat. split_and!; [done|intros k Hk; lia|done].
    + destruct (IH (GoTime.AddDate date 1) to) as (n & Hl & Hbefore & Hafter).
      * by rewrite GoTimeFacts.loc_AddDate.
      * rewrite GoTimeFacts.loc_AddDate, GoTimeFacts.dayNumber_AddDate by done. lia.
      * exists (S n). split_and!.
        -- rewrite Hl. cbn [seq fmap list_fmap]. f_equal.
           rewrite <- fmap_S_seq, <- list_fmap_compose.
           apply list_fmap_ext. intros _ k _. apply dateAt_shift.
        -- intros [|k] Hk; [done|]. rewrite <- dateAt_shift. apply Hbefore. lia.
        -- by rewrite <- dateAt_shift.
Qed.

Lemma rangeDates_spec (from to : GoTime.Time) :
  GoTime.regular (GoTime.loc from) ->
  exists n : nat,
    rangeDates from to = dateAt from <$> seq 0 n
    /\ rounds from to = Z.of_nat n
    /\ (forall k, (k < n)%nat -> GoTime.After (dateAt from k) to = false)
    /\ GoTime.After (dateAt from n) to = true.
Proof.
  intros Hreg.
  destruct (dayLoop_enough (dayLoopFuel from to) from to Hreg)
    as (n & Hl & Hbefore & Hafter).
  { unfold dayLoopFuel. lia. }
  exists n. split_and!; [done| |done|done].
  unfold rounds, rangeDates. by rewrite Hl, length_fmap, length_seq.
Qed.

(** More fuel changes nothing. *)
Lemma dayLoop_fuel_irrelevant (from to : GoTime.Time) (extra : nat) :
  GoTime.regular (GoTime.loc from) ->
  dayLoop (dayLoopFuel from to + extra) from to = rangeDates from to.
Proof.
  intros Hreg.
  destruct (rangeDates_spec from to Hreg) as (n & -> & _ & Hbefore & Hafter).
  destruct (dayLoop_enough (dayLoopFuel from to + extra) from to Hreg)
    as (n' & -> & Hbefore' & Hafter').
  { unfold dayLoopFuel. lia. }
  f_equal. f_equal.
  destruct (Nat.lt_total n n') as [Hlt|[->|Hlt]]; [|done|].
  - apply Hbefore' in Hlt. congruence.
  - apply Hbefore in Hlt. congruence.
Qed.


(** The calendar days of the dates the loop goes through. *)
Lemma rangeDates_days (from to : GoTime.Time) :
  GoTime.regular (GoTime.loc from) ->
  GoTime.dayNumber <$> rangeDates from to
  = seqZ (GoTime.dayNumber from) (rounds from to).
Proof.
  intros Hreg. destruct (rangeDates_spec from to Hreg) as (n & -> & -> & _).
  unfold seqZ. rewrite Nat2Z.id, <- list_fmap_compose.
  apply list_fmap_ext. intros _ k _. simpl.
  rewrite dayNumber_dateAt by done. lia.
Qed.

Lemma elem_of_rangeDates_keys (from to : GoTime.Time) (t : GoTime.Time) :
  GoTime.regular (GoTime.loc from) ->
  GoTime.Format t ∈ (GoTime.Format <$> rangeDates from to)
  <-> visitedDay from to (GoTime.dayNumber t).
Proof.
  intros Hreg. unfold visitedDay.
  rewrite <- (elem_of_seqZ (GoTime.dayNumber from)), <- rangeDates_days by done.
  rewrite !list_elem_of_fmap. split.
  - intros (d & He & Hd). exists d. split; [|done].
    by apply GoTimeFacts.Format_inj_day.
  - intros (d & He & Hd). exists d. split; [|done].
    by apply GoTimeFacts.Format_day.
Qed.

Lemma NoDup_fmap_eq {A B : Type} (f : A -> B) (l : list A) (x y : A) :
  NoDup (f <$> l) -> x ∈ l -> y ∈ l -> f x = f y -> x = y.
Proof.
  induction l as [|a l IH]; intros Hnd Hx Hy He; [by apply elem_of_nil in Hx|].
  rewrite fmap_cons in Hnd. apply NoDup_cons in Hnd as [Hna Hnd].
  apply elem_of_cons in Hx as [->|Hx]; apply elem_of_cons in Hy as [->|Hy].
  - done.
  - exfalso. apply Hna. rewrite He. by apply list_elem_of_fmap_2.
  - exfalso. apply Hna. rewrite <- He. by apply list_elem_of_fmap_2.
  - by apply IH.
Qed.

Lemma NoDup_rangeDates_keys (from to : GoTime.Time) :
  GoTime.regular (GoTime.loc from) ->
  NoDup (GoTime.Format <$> rangeDates from to).
Proof.
  intros Hreg.
  assert (Hnd : NoDup (GoTime.dayNumber <$> rangeDates from to)).
  { rewrite rangeDates_days by done. apply NoDup_seqZ. }
  apply NoDup_fmap_2_strong; [|by apply NoDup_fmap_1 in Hnd].
  intros x y Hx Hy He. apply GoTimeFacts.Format_inj_day in He.
  by apply (NoDup_fmap_eq GoTime.dayNumber (rangeDates from to)).
Qed.

(** *** The day loop in a fixed zone *)

Lemma dateAt_fixed (from : GoTime.Time) (offset : Z) (k : nat) :
  GoTime.loc from = GoTime.FixedZone offset ->
  dateAt from k
  = GoTime.mkTime (GoTime.unixNano from + Z.of_nat k * GoTime.nsPerDay)
      (GoTime.FixedZone offset).
Proof.
  intros Hl. induction k as [|k IH].
  - destruct from as [n l]; simpl in *. subst l. f_equal. lia.
  - change (dateAt from (S k)) with (GoTime.AddDate (dateAt from k) 1).
    rewrite (GoTimeFacts.AddDate_fixed _ 1 offset) by by rewrite loc_dateAt.
    rewrite IH. cbn [GoTime.unixNano]. f_equal. lia.
Qed.

(** In a fixed zone the loop makes one round per 24 hours from [from] to
    [to], the first at [from]. *)
Lemma rounds_fixed (from to : GoTime.Time) (offset : Z) :
  GoTime.loc from = GoTime.FixedZone offset ->
  rounds from to
  = Z.max 0 ((GoTime.unixNano to - GoTime.unixNano from) / GoTime.nsPerDay + 1).
Proof.
  intros Hl.
  assert (Hreg : GoTime.regular (GoTime.loc from)).
  { rewrite Hl. apply GoTimeFacts.regular_fixed. }
  destruct (rangeDates_spec from to Hreg) as (n & _ & -> & Hbefore & Hafter).
  rewrite (dateAt_fixed from offset n Hl) in Hafter.
  unfold GoTime.After in Hafter. cbn [GoTime.unixNano] in Hafter.
  apply Z.ltb_lt in Hafter.
  pose proof nsPerDay_pos as Hpos.
  pose proof (Z.div_mod (GoTime.unixNano to - GoTime.unixNano from)
                GoTime.nsPerDay ltac:(lia)) as Hdm.
  pose proof (Z.mod_pos_bound (GoTime.unixNano to - GoTime.unixNano from)
                GoTime.nsPerDay Hpos) as Hmb.
  destruct n as [|n]; [nia|].
  specialize (Hbefore n ltac:(lia)).
  rewrite (dateAt_fixed from offset n Hl) in Hbefore.
  unfold GoTime.After in Hbefore. cbn [GoTime.unixNano] in Hbefore.
  apply Z.ltb_ge in Hbefore. nia.
Qed.

(** *** Maps of slices *)

Section Partitioned.
Context `{Countable K} {A : Type} (key : A -> K).

Lemma storeAll_lookup (l : list A) : forall (m : gmap K (list A)) (k : K),
  default [] (storeAll key m l !! k)
  = default [] (m !! k) ++ filter (fun x => key x = k) l.
Proof.
  induction l as [|x l IH]; intros m k; simpl.
  - by rewrite app_nil_r.
  - unfold storeAll in *. simpl. rewrite IH. unfold appendAt.
    rewrite filter_cons. destruct (decide (key x = k)) as [->|Hne].
    + rewrite lookup_insert_eq. simpl. by rewrite <- app_assoc.
    + by rewrite lookup_insert_ne.
Qed.

(** A partition that exists is never empty. *)
Lemma storeAll_nonempty (l : list A) : forall (m : gmap K (list A)),
  (forall k xs, m !! k = Some xs -> xs <> []) ->
  forall k xs, storeAll key m l !! k = Some xs -> xs <> [].
Proof.
  induction l as [|x l IH]; intros m Hm k xs; simpl; [apply Hm|].
  apply IH. intros k' xs'. unfold appendAt.
  rewrite lookup_insert. case_decide; [|apply Hm].
  intros [= <-]. by destruct (default [] (m !! key x)).
Qed.

Lemma concat_filter_keys (l : list A) (ks : list K) :
  NoDup ks ->
  concat ((fun k => filter (fun x => key x = k) l) <$> ks)
  ≡ₚ filter (fun x => key x ∈ ks) l.
Proof.
  intros Hnd. induction l as [|x l IH].
  - simpl. induction ks as [|k ks IHk]; [done|]. simpl. apply IHk.
    by apply NoDup_cons in Hnd as [_ ?].
  - rewrite (filter_cons (fun x => key x ∈ ks)).
    destruct (decide (key x ∈ ks)) as [Hin|Hnin].
    + apply list_elem_of_split in Hin as (ks1 & ks2 & ->).
      apply NoDup_app in Hnd as (_ & Hd1 & Hd2).
      apply NoDup_cons in Hd2 as [Hd2 _].
      rewrite <- IH. rewrite !fmap_app, !fmap_cons, !concat_app. simpl.
      rewrite filter_cons, decide_True by done.
      assert (Hout : forall ks' : list K, key x ∉ ks' ->
        (fun k => filter (fun x0 => key x0 = k) (x :: l)) <$> ks'
        = (fun k => filter (fun x0 => key x0 = k) l) <$> ks').
      { intros ks' Hn. apply list_fmap_ext. intros i k Hk.
        rewrite filter_cons, decide_False; [done|].
        intros Heq. subst k. apply Hn. by eapply list_elem_of_lookup_2. }
      rewrite !Hout by (try done; intros ?; by eapply Hd1; [|left]).
      simpl. symmetry. apply Permutation_middle.
    + rewrite <- IH. apply reflexive_eq. f_equal.
      apply list_fmap_ext. intros i k Hk.
      rewrite filter_cons, decide_False; [done|].
      intros Heq. subst k. apply Hnin. by eapply list_elem_of_lookup_2.
Qed.

End Partitioned.

(** *** Range scans *)

Lemma foldl_collect {A : Type} (data : gmap string (list A))
    (dates : list GoTime.Time) : forall acc : list A,
  foldl (fun result date =>
           match data !! GoTime.Format date with
           | Some records => result ++ records
           | None => result
           end) acc dates
  = acc ++ concat ((fun date => default [] (data !! GoTime.Format date)) <$> dates).
Proof.
  induction dates as [|d dates IH]; intros acc; simpl.
  - by rewrite app_nil_r.
  - rewrite IH. destruct (data !! GoTime.Format d); simpl.
    + by rewrite <- app_assoc.
    + done.
Qed.

Lemma collectRange_concat {A : Type} (data : gmap string (list A))
    (from to : GoTime.Time) :
  collectRange data from to
  = concat ((fun date => default [] (data !! GoTime.Format date))
              <$> rangeDates from to).
Proof. unfold collectRange. by rewrite foldl_collect. Qed.

(** A scan of a store filled from the empty map returns, up to order, the
    stored records whose day key is visited. *)
Lemma collectRange_storeAll {A : Type} (dateOf : A -> GoTime.Time)
    (batch : list A) (from to : GoTime.Time) :
  GoTime.regular (GoTime.loc from) ->
  collectRange (storeAll (fun x => GoTime.Format (dateOf x)) ∅ batch) from to
  ≡ₚ filter (fun x => visitedDay from to (GoTime.dayNumber (dateOf x))) batch.
Proof.
  intros Hreg. rewrite collectRange_concat.
  trans (concat ((fun k => filter (fun x => GoTime.Format (dateOf x) = k) batch)
                   <$> (GoTime.Format <$> rangeDates from to))).
  { apply reflexive_eq. f_equal. rewrite <- list_fmap_compose.
    apply list_fmap_ext. intros i d _. simpl.
    by rewrite storeAll_lookup, lookup_empty. }
  rewrite concat_filter_keys by by apply NoDup_rangeDates_keys.
  apply reflexive_eq. apply list_filter_iff. intros x.
  by apply elem_of_rangeDates_keys.
Qed.

(** The same for any key function that renders the day of a record. *)
Lemma collectRange_storeAll_key {A : Type} (key : A -> string)
    (dateOf : A -> GoTime.Time) (batch : list A) (from to : GoTime.Time) :
  GoTime.regular (GoTime.loc from) ->
  (forall x, key x = GoTime.Format (dateOf x)) ->
  collectRange (storeAll key ∅ batch) from to
  ≡ₚ filter (fun x => visitedDay from to (GoTime.dayNumber (dateOf x))) batch.
Proof.
  intros Hreg Hkey. rewrite collectRange_concat.
  trans (concat ((fun k => filter (fun x => key x = k) batch)
                   <$> (GoTime.Format <$> rangeDates from to))).
  { apply reflexive_eq. f_equal. rewrite <- list_fmap_compose.
    apply list_fmap_ext. intros i d _. unfold compose.
    by rewrite storeAll_lookup, lookup_empty. }
  rewrite concat_filter_keys by by apply NoDup_rangeDates_keys.
  apply reflexive_eq. apply list_filter_iff. intros x.
  rewrite Hkey. by apply elem_of_rangeDates_keys.
Qed.

End InfraFacts.

(* ===================================================================== *)
(** * The transform stage                                                 *)
(* ===================================================================== *)

Module TransformFacts.
Import Domain Usecase.

Section Parse.
Variable time_Parse : string -> string -> option GoTime.Time.

(** Once a layout has been tried, the state the loop started from is
    forgotten. *)
Lemma parseWithFormats_cons format formats raw date failed :
  parseWithFormats time_Parse (format :: formats) raw date failed
  = match time_Parse format raw with
    | Some t => (t, false)
    | None => parseWithFormats time_Parse formats raw GoTime.zeroTime true
    end.
Proof. reflexivity. Qed.

Lemma parseWithFormats_failed formats raw :
  parseWithFormats time_Parse formats raw GoTime.zeroTime true
  = match Spec.ParseFlexibleDate time_Parse raw formats with
    | Some t => (t, false)
    | None => (GoTime.zeroTime, true)
    end.
Proof.
  unfold Spec.ParseFlexibleDate.
  induction formats as [|f formats IH]; simpl; [done|].
  destruct (time_Parse f raw); simpl; [done|]. apply IH.
Qed.

(** The loop over a non-empty list of layouts computes
    [ParseFlexibleDate]. *)
Lemma parseWithFormats_spec formats raw :
  formats <> [] ->
  parseWithFormats time_Parse formats raw GoTime.zeroTime false
  = match Spec.ParseFlexibleDate time_Parse raw formats with
    | Some t => (t, false)
    | None => (GoTime.zeroTime, true)
    end.
Proof.
  destruct formats as [|f formats]; [done|]. intros _.
  rewrite parseWithFormats_cons, parseWithFormats_failed.
  unfold Spec.ParseFlexibleDate. simpl.
  by destruct (time_Parse f raw).
Qed.

Lemma ParseFlexibleDate_Some formats raw t :
  Spec.ParseFlexibleDate time_Parse raw formats = Some t
  <-> Spec.FirstMatch time_Parse formats raw t.
Proof.
  unfold Spec.ParseFlexibleDate, Spec.FirstMatch.
  induction formats as [|f formats IH]; simpl.
  - split; [done|]. by intros (i & g & Hi & _).
  - destruct (time_Parse f raw) as [u|] eqn:Hf; simpl.
    + split.
      * intros [= ->]. exists 0%nat, f. split_and!; [done|done|]. lia.
      * intros (i & g & Hi & Hp & Hearlier). destruct i as [|i].
        -- simpl in Hi. injection Hi as <-. congruence.
        -- specialize (Hearlier 0%nat f ltac:(lia) eq_refl). congruence.
    + rewrite IH. split.
      * intros (i & g & Hi & Hp & Hearlier). exists (S i), g.
        split_and!; [done|done|]. intros [|j] e Hj He.
        -- simpl in He. by injection He as <-.
        -- simpl in He. eapply Hearlier; [|done]. lia.
      * intros (i & g & Hi & Hp & Hearlier). destruct i as [|i].
        -- simpl in Hi. injection Hi as <-. congruence.
        -- exists i, g. split_and!; [done|done|].
           intros j e Hj He. apply (Hearlier (S j) e); [lia|done].
Qed.

Lemma ParseFlexibleDate_None formats raw :
  Spec.ParseFlexibleDate time_Parse raw formats = None
  <-> forall format, format ∈ formats -> time_Parse format raw = None.
Proof.
  unfold Spec.ParseFlexibleDate.
  induction formats as [|f formats IH]; simpl.
  - split; [|done]. intros _ g Hg. by apply elem_of_nil in Hg.
  - destruct (time_Parse f raw) as [u|] eqn:Hf; simpl.
    + split; [done|]. intros Hall. specialize (Hall f ltac:(left)). congruence.
    + rewrite IH. split.
      * intros Hall g [->|Hg]%elem_of_cons; auto.
      * intros Hall g Hg. apply Hall. by right.
Qed.

End Parse.

(** C5. Flexible date parsing tries the layouts in their fixed order and
    returns the timestamp of the first layout that parses; it fails only
    when no layout parses. For ad records the order is YYYY-MM-DD,
    YYYY/MM/DD, MM/DD/YYYY, DD/MM/YYYY, RFC3339, so that "03/04/2025",
    which the fourth layout would read as April 3, is March 4. *)
Theorem ad_date_layout_priority :
  forall (time_Parse : string -> string -> option GoTime.Time) (raw : string),
    let result := parseWithFormats time_Parse adDateFormats raw GoTime.zeroTime false in
    (forall t, result = (t, false) <-> Spec.FirstMatch time_Parse adDateFormats raw t)
    /\ (result.2 = true
        <-> forall format, format ∈ adDateFormats -> time_Parse format raw = None)
    /\ (forall t, parseWithFormats time_Parse crmDateFormats raw GoTime.zeroTime false
                   = (t, false)
                   <-> Spec.FirstMatch time_Parse crmDateFormats raw t)
    /\ adDateFormats
       = [ "2006-01-02"; "2006/01/02"; "01/02/2006"; "02/01/2006";
           "2006-01-02T15:04:05Z07:00" ]%string
    /\ parseWithFormats GoTime.Parse adDateFormats "03/04/2025" GoTime.zeroTime false
       = (GoTime.Date 2025 3 4 0 0 0 0, false)
    /\ GoTime.Parse "02/01/2006" "03/04/2025" = Some (GoTime.Date 2025 4 3 0 0 0 0).
Proof.
  intros time_Parse raw result. subst result.
  rewrite parseWithFormats_spec by done.
  split_and!.
  - intros t. rewrite <- ParseFlexibleDate_Some.
    destruct (Spec.ParseFlexibleDate time_Parse raw adDateFormats); simpl.
    + split; congruence.
    + split; [congruence|done].
  - rewrite <- ParseFlexibleDate_None.
    by destruct (Spec.ParseFlexibleDate time_Parse raw adDateFormats).
  - intros t. rewrite parseWithFormats_spec by done.
    rewrite <- ParseFlexibleDate_Some.
    destruct (Spec.ParseFlexibleDate time_Parse raw crmDateFormats); simpl.
    + split; congruence.
    + split; [congruence|done].
  - reflexivity.
  - vm_compute. reflexivity.
  - vm_compute. reflexivity.
Qed.

Section Transform.
Variable time_Parse : string -> string -> option GoTime.Time.

Lemma normalizeUTM_spec (s : string) : normalizeUTM s = Spec.NormalizeUTM s.
Proof. by destruct s. Qed.

(** One round of the loop of [processAdsData], by the outcome of the
    record. *)
Lemma processAd_spec clock since st ad :
  processAd time_Parse clock since st ad
  = match Spec.ParseFlexibleDate time_Parse (AdPerformance.Date ad) adDateFormats with
    | None => mkAdsLoop (processed st)
                (failures st ++ [("ads", "date_parse")%string])
    | Some _ =>
        match Spec.TransformAd time_Parse since ad with
        | None => st
        | Some emit =>
            mkAdsLoop (processed st ++ [emit (clock (length (processed st)))])
              (failures st)
        end
    end.
Proof.
  unfold processAd, Spec.TransformAd.
  rewrite parseWithFormats_spec by done.
  destruct (Spec.ParseFlexibleDate time_Parse (AdPerformance.Date ad) adDateFormats)
    as [date|]; [|done].
  rewrite !normalizeUTM_spec.
  destruct since as [s|]; [|done].
  unfold GoTime.Before.
  destruct (Z.ltb_spec (GoTime.unixNano date) (GoTime.unixNano s)).
  - by rewrite bool_decide_eq_true_2.
  - by rewrite bool_decide_eq_false_2 by lia.
Qed.

Lemma TransformAd_unparseable since ad :
  Spec.ParseFlexibleDate time_Parse (AdPerformance.Date ad) adDateFormats = None ->
  Spec.TransformAd time_Parse since ad = None.
Proof. unfold Spec.TransformAd. by intros ->. Qed.

Lemma processAds_fold clock since ads : forall st,
  let out := foldl (processAd time_Parse clock since) st ads in
  processed out
  = processed st
    ++ imap (fun n emit => emit (clock (length (processed st) + n)%nat))
         (omap (Spec.TransformAd time_Parse since) ads)
  /\ failures out
     = failures st
       ++ replicate (length (Spec.unparseable time_Parse ads))
            ("ads", "date_parse")%string.
Proof.
  induction ads as [|ad ads IH]; intros st; simpl.
  - by rewrite !app_nil_r.
  - destruct (IH (processAd time_Parse clock since st ad)) as [IHp IHf].
    rewrite IHp, IHf. clear IH IHp IHf.
    rewrite processAd_spec. unfold Spec.unparseable.
    rewrite filter_cons.
    destruct (Spec.ParseFlexibleDate time_Parse (AdPerformance.Date ad) adDateFormats)
      as [date|] eqn:Hp.
    + rewrite decide_False by done.
      destruct (Spec.TransformAd time_Parse since ad) as [emit|] eqn:He; [|done].
      simpl. rewrite <- app_assoc. simpl. rewrite Nat.add_0_r.
      split; [|done]. do 2 f_equal. rewrite length_app. simpl.
      apply imap_ext. intros n e _. simpl. do 2 f_equal. lia.
    + rewrite decide_True by done.
      rewrite (TransformAd_unparseable since ad Hp). simpl.
      split; [done|]. by rewrite <- app_assoc.
Qed.

End Transform.

(** C6. The ad transform treats every record on its own: a record whose
    date matches no layout is dropped and counted under "date_parse", a
    record dated strictly before [since] is dropped and not counted, and
    every other record is emitted, its empty UTM fields replaced by
    "unknown" and the others unchanged. *)
Theorem processAdsData_records_independent :
  forall (time_Parse : string -> string -> option GoTime.Time)
         (clock : nat -> GoTime.Time) (ads : list AdPerformance.t)
         (since : option GoTime.Time),
    let out := processAdsData time_Parse clock ads since in
    processed out
    = imap (fun n emit => emit (clock n))
        (omap (Spec.TransformAd time_Parse since) ads)
    /\ failures out
       = replicate (length (Spec.unparseable time_Parse ads))
           ("ads", "date_parse")%string.
Proof.
  intros time_Parse clock ads since. unfold processAdsData.
  apply (processAds_fold time_Parse clock since ads (mkAdsLoop [] [])).
Qed.

End TransformFacts.

(* ===================================================================== *)
(** * The aggregation stage                                               *)
(* ===================================================================== *)

Module AggregationFacts.
Import Domain Usecase.

Lemma addAd_after acc x :
  GoTime.unixNano (latestDate acc) < GoTime.unixNano (ProcessedAdData.Date x) ->
  latestDate (addAd acc x) = ProcessedAdData.Date x
  /\ channel (addAd acc x) = ProcessedAdData.Channel x
  /\ campaignID (addAd acc x) = ProcessedAdData.CampaignID x.
Proof.
  intros Hlt. unfold addAd, GoTime.After.
  destruct (Z.ltb_spec (GoTime.unixNano (latestDate acc))
              (GoTime.unixNano (ProcessedAdData.Date x))); [done|lia].
Qed.

Lemma addAd_not_after acc x :
  GoTime.unixNano (ProcessedAdData.Date x) <= GoTime.unixNano (latestDate acc) ->
  latestDate (addAd acc x) = latestDate acc
  /\ channel (addAd acc x) = channel acc
  /\ campaignID (addAd acc x) = campaignID acc.
Proof.
  intros Hge. unfold addAd, GoTime.After.
  destruct (Z.ltb_spec (GoTime.unixNano (latestDate acc))
              (GoTime.unixNano (ProcessedAdData.Date x))); [lia|done].
Qed.

(** The loop over the ad records either never replaces the latest date it
    started with, or ends on the first record that carries the latest
    date. *)
Lemma addAd_fold_latest (ads : list ProcessedAdData.t) : forall acc,
  let a := foldl addAd acc ads in
  ((forall x, x ∈ ads ->
      GoTime.unixNano (ProcessedAdData.Date x) <= GoTime.unixNano (latestDate acc))
   /\ latestDate a = latestDate acc /\ channel a = channel acc
   /\ campaignID a = campaignID acc)
  \/ (exists r, Spec.LatestFirstSeen ads r
      /\ GoTime.unixNano (latestDate acc) < GoTime.unixNano (ProcessedAdData.Date r)
      /\ latestDate a = ProcessedAdData.Date r
      /\ channel a = ProcessedAdData.Channel r
      /\ campaignID a = ProcessedAdData.CampaignID r).
Proof.
  induction ads as [|x ads IH]; intros acc; simpl.
  - left. split_and!; try done. intros x Hx. by apply elem_of_nil in Hx.
  - specialize (IH (addAd acc x)). simpl in IH.
    destruct (Z.lt_ge_cases (GoTime.unixNano (latestDate acc))
                (GoTime.unixNano (ProcessedAdData.Date x))) as [Hlt|Hge].
    + destruct (addAd_after acc x Hlt) as (Ed & Ec & Ei).
      rewrite Ed, Ec, Ei in IH. right.
      destruct IH as [(Hall & Hd & Hc & Hi)
                     |(r & (l1 & l2 & -> & H1 & H2) & Hr & Hd & Hc & Hi)].
      * exists x. split_and!; try done.
        exists [], ads. split_and!; try done.
        intros y Hy. by apply elem_of_nil in Hy.
      * exists r. split_and!; try done; [|lia].
        exists (x :: l1), l2. split_and!; try done.
        intros y [->|Hy]%elem_of_cons; [lia|by apply H1].
    + destruct (addAd_not_after acc x Hge) as (Ed & Ec & Ei).
      rewrite Ed, Ec, Ei in IH.
      destruct IH as [(Hall & Hd & Hc & Hi)
                     |(r & (l1 & l2 & -> & H1 & H2) & Hr & Hd & Hc & Hi)].
      * left. split_and!; try done.
        intros y [->|Hy]%elem_of_cons; [lia|by apply Hall].
      * right. exists r. split_and!; try done.
        exists (x :: l1), l2. split_and!; try done.
        intros y [->|Hy]%elem_of_cons; [lia|by apply H1].
Qed.

Lemma calculateMetricForUTM_Some now ads opportunities utm :
  ads <> [] ->
  exists m, calculateMetricForUTM now ads opportunities utm = Some m
    /\ BusinessMetrics.Date m = latestDate (foldl addAd adTotals0 ads)
    /\ BusinessMetrics.Channel m = channel (foldl addAd adTotals0 ads)
    /\ BusinessMetrics.CampaignID m = campaignID (foldl addAd adTotals0 ads)
    /\ Spec.metricKey m = utm.
Proof.
  intros Hne. unfold calculateMetricForUTM.
  destruct ads as [|x ads]; [done|]. simpl length. simpl Nat.eqb.
  eexists. split; [reflexivity|]. simpl. split_and!; try done.
  by destruct utm.
Qed.

Lemma calculateMetricForUTM_nil now opportunities utm :
  calculateMetricForUTM now [] opportunities utm = None.
Proof. reflexivity. Qed.

(** C1 (amended). For a UTM group in which some ad record is dated after
    the zero time, the bucket's date, channel and campaign_id are those of
    the ad record with the latest date; among several records with that
    date, the one met first in iteration order supplies them. *)
Theorem bucket_identity_latest_first_seen :
  forall (now : GoTime.Time) (ads : list ProcessedAdData.t)
         (opportunities : list ProcessedOpportunity.t) (utm : UTMKey.t),
    (exists x, x ∈ ads
               /\ GoTime.After (ProcessedAdData.Date x) GoTime.zeroTime = true) ->
    exists m r,
      calculateMetricForUTM now ads opportunities utm = Some m
      /\ Spec.LatestFirstSeen ads r
      /\ BusinessMetrics.Date m = ProcessedAdData.Date r
      /\ BusinessMetrics.Channel m = ProcessedAdData.Channel r
      /\ BusinessMetrics.CampaignID m = ProcessedAdData.CampaignID r.
Proof.
  intros now ads opportunities utm (x & Hx & Hafter).
  assert (Hne : ads <> []) by (intros ->; by apply elem_of_nil in Hx).
  destruct (calculateMetricForUTM_Some now ads opportunities utm Hne)
    as (m & Hm & Hd & Hc & Hi & _).
  exists m.
  destruct (addAd_fold_latest ads adTotals0)
    as [(Hall & _)|(r & Hr & _ & Ed & Ec & Ei)].
  - specialize (Hall x Hx). unfold GoTime.After in Hafter.
    apply Z.ltb_lt in Hafter.
    change (latestDate adTotals0) with GoTime.zeroTime in Hall. lia.
  - exists r. split_and!; try done; congruence.
Qed.

Lemma bucket_identity_latest_first_seen_witness :
  exists m r,
    calculateMetricForUTM (GoTime.Date 2025 1 3 0 0 0 0)
      [Examples.tieAdFirst; Examples.tieAdSecond] [] (UTMKey.mk "sale" "unknown" "unknown") = Some m
    /\ Spec.LatestFirstSeen [Examples.tieAdFirst; Examples.tieAdSecond] r
    /\ BusinessMetrics.Date m = ProcessedAdData.Date r
    /\ BusinessMetrics.Channel m = ProcessedAdData.Channel r
    /\ BusinessMetrics.CampaignID m = ProcessedAdData.CampaignID r.
Proof.
  apply bucket_identity_latest_first_seen.
  exists Examples.tieAdFirst. split; [by left|]. vm_compute. reflexivity.
Defined.

(** C1 as stated fails: two records share the latest date, and the bucket
    takes channel and campaign_id from the one met first, not from the
    one met last. *)
Lemma latest_tie_is_not_last_seen :
  Spec.LatestLastSeen [Examples.tieAdFirst; Examples.tieAdSecond] Examples.tieAdSecond
  /\ exists m,
      calculateMetricForUTM (GoTime.Date 2025 1 3 0 0 0 0)
        [Examples.tieAdFirst; Examples.tieAdSecond] [] (UTMKey.mk "sale" "unknown" "unknown") = Some m
      /\ BusinessMetrics.Channel m = "google"%string
      /\ BusinessMetrics.CampaignID m = "campaign-a"%string
      /\ BusinessMetrics.Channel m <> ProcessedAdData.Channel Examples.tieAdSecond
      /\ BusinessMetrics.CampaignID m <> ProcessedAdData.CampaignID Examples.tieAdSecond.
Proof.
  split.
  - exists [Examples.tieAdFirst], []. split_and!; [done| |].
    + intros x ->%list_elem_of_singleton. simpl. lia.
    + intros x Hx. by apply elem_of_nil in Hx.
  - eexists. split; [reflexivity|].
    cbn [BusinessMetrics.Channel BusinessMetrics.CampaignID].
    split_and!; [vm_compute; reflexivity|vm_compute; reflexivity| |];
      vm_compute; intros Heq; discriminate Heq.
Qed.

(** *** The raw totals *)

Lemma wrapInt_idemp (a b : Z) :
  GoNum.wrapInt (GoNum.wrapInt a + b) = GoNum.wrapInt (a + b).
Proof.
  unfold GoNum.wrapInt. f_equal.
  replace ((a + 2 ^ 63) mod 2 ^ 64 - 2 ^ 63 + b + 2 ^ 63)
    with ((a + 2 ^ 63) mod 2 ^ 64 + b) by lia.
  rewrite Z.add_mod_idemp_l by done. f_equal. lia.
Qed.

Lemma foldl_intAdd (l : list Z) : forall a,
  foldl GoNum.intAdd (GoNum.wrapInt a) l = GoNum.wrapInt (a + foldr Z.add 0 l).
Proof.
  induction l as [|x l IH]; intros a; simpl.
  - by rewrite Z.add_0_r.
  - unfold GoNum.intAdd at 2. rewrite wrapInt_idemp, IH. f_equal. lia.
Qed.

Lemma addAd_fold_totals (ads : list ProcessedAdData.t) : forall acc,
  totalClicks (foldl addAd acc ads)
  = foldl GoNum.intAdd (totalClicks acc) (ProcessedAdData.Clicks <$> ads)
  /\ totalImpressions (foldl addAd acc ads)
     = foldl GoNum.intAdd (totalImpressions acc) (ProcessedAdData.Impressions <$> ads)
  /\ totalCost (foldl addAd acc ads)
     = foldl PrimFloat.add (totalCost acc) (ProcessedAdData.Cost <$> ads).
Proof.
  induction ads as [|x ads IH]; intros acc; [done|].
  cbn [foldl fmap list_fmap]. destruct (IH (addAd acc x)) as (-> & -> & ->).
  unfold addAd. by destruct (GoTime.After _ _).
Qed.

(** The [switch] on the stage, case by case. *)
Lemma addOpp_stage (acc : oppTotals) (opp : ProcessedOpportunity.t) :
  addOpp acc opp
  = if decide (ProcessedOpportunity.Stage opp = StageLead) then
      mkOppTotals (GoNum.intAdd (leads acc) 1) (opps acc) (closedWon acc)
        (revenue acc)
    else if decide (ProcessedOpportunity.Stage opp = StageOpportunity) then
      mkOppTotals (leads acc) (GoNum.intAdd (opps acc) 1) (closedWon acc)
        (revenue acc)
    else if decide (ProcessedOpportunity.Stage opp = StageClosedWon) then
      mkOppTotals (leads acc) (opps acc) (GoNum.intAdd (closedWon acc) 1)
        (PrimFloat.add (revenue acc) (ProcessedOpportunity.Amount opp))
    else acc.
Proof.
  unfold addOpp. cbv zeta.
  destruct (String.eqb_spec (ProcessedOpportunity.Stage opp) StageLead),
    (String.eqb_spec (ProcessedOpportunity.Stage opp) StageOpportunity),
    (String.eqb_spec (ProcessedOpportunity.Stage opp) StageClosedWon);
    repeat case_decide; done.
Qed.

Lemma addOpp_fold_totals (opportunities : list ProcessedOpportunity.t) :
  forall acc l o w,
    leads acc = GoNum.wrapInt l -> opps acc = GoNum.wrapInt o ->
    closedWon acc = GoNum.wrapInt w ->
    let out := foldl addOpp acc opportunities in
    leads out
    = GoNum.wrapInt (l + Z.of_nat (length (Spec.atStage StageLead opportunities)))
    /\ opps out
       = GoNum.wrapInt
           (o + Z.of_nat (length (Spec.atStage StageOpportunity opportunities)))
    /\ closedWon out
       = GoNum.wrapInt
           (w + Z.of_nat (length (Spec.atStage StageClosedWon opportunities)))
    /\ revenue out
       = foldl PrimFloat.add (revenue acc)
           (ProcessedOpportunity.Amount
              <$> Spec.atStage StageClosedWon opportunities).
Proof.
  unfold Spec.atStage.
  induction opportunities as [|x opportunities IH];
    intros acc l o w Hl Ho Hw; cbv zeta.
  - cbn. rewrite !Z.add_0_r. done.
  - cbn [foldl]. rewrite !filter_cons, addOpp_stage.
    repeat case_decide;
      try (exfalso; unfold StageLead, StageOpportunity, StageClosedWon in *;
           congruence).
    + destruct (IH (mkOppTotals (GoNum.intAdd (leads acc) 1) (opps acc)
                      (closedWon acc) (revenue acc)) (l + 1) o w)
        as (-> & -> & -> & ->); cbn [leads opps closedWon revenue]; try done.
      * unfold GoNum.intAdd. by rewrite Hl, wrapInt_idemp.
      * split_and!; try done. cbn [length]. f_equal. lia.
    + destruct (IH (mkOppTotals (leads acc) (GoNum.intAdd (opps acc) 1)
                      (closedWon acc) (revenue acc)) l (o + 1) w)
        as (-> & -> & -> & ->); cbn [leads opps closedWon revenue]; try done.
      * unfold GoNum.intAdd. by rewrite Ho, wrapInt_idemp.
      * split_and!; try done. cbn [length]. f_equal. lia.
    + destruct (IH (mkOppTotals (leads acc) (opps acc)
                      (GoNum.intAdd (closedWon acc) 1)
                      (PrimFloat.add (revenue acc) (ProcessedOpportunity.Amount x)))
                  l o (w + 1))
        as (-> & -> & -> & ->); cbn [leads opps closedWon revenue]; try done.
      * unfold GoNum.intAdd. by rewrite Hw, wrapInt_idemp.
      * split_and!; try done. cbn [length]. f_equal. lia.
    + by apply IH.
Qed.

(** C4. Every derived ratio of an emitted bucket is the quotient of two
    raw totals of its group when the denominator is positive, and
    exactly 0 otherwise: when the denominator is zero, and also when it
    is negative or, for the cost, not a number. The totals are those of
    the records: clicks and cost summed over the ad records, the
    opportunities counted by stage, revenue summed over the won ones. *)
Theorem derived_ratios_guarded :
  forall (now : GoTime.Time) (ads : list ProcessedAdData.t)
         (opportunities : list ProcessedOpportunity.t) (utm : UTMKey.t),
    ads <> [] ->
    exists m,
      calculateMetricForUTM now ads opportunities utm = Some m
      /\ BusinessMetrics.Clicks m = Spec.sumInt (ProcessedAdData.Clicks <$> ads)
      /\ BusinessMetrics.Cost m = Spec.sumFloat (ProcessedAdData.Cost <$> ads)
      /\ BusinessMetrics.Leads m = Spec.countStage StageLead opportunities
      /\ BusinessMetrics.Opportunities m
         = Spec.countStage StageOpportunity opportunities
      /\ BusinessMetrics.ClosedWon m = Spec.countStage StageClosedWon opportunities
      /\ BusinessMetrics.Revenue m
         = Spec.sumFloat (ProcessedOpportunity.Amount
                            <$> Spec.atStage StageClosedWon opportunities)
      /\ (0 < BusinessMetrics.Clicks m ->
          BusinessMetrics.CPC m
          = PrimFloat.div (BusinessMetrics.Cost m)
              (GoNum.float64OfInt (BusinessMetrics.Clicks m)))
      /\ (BusinessMetrics.Clicks m <= 0 -> BusinessMetrics.CPC m = PrimFloat.zero)
      /\ (0 < BusinessMetrics.Leads m ->
          BusinessMetrics.CPA m
          = PrimFloat.div (BusinessMetrics.Cost m)
              (GoNum.float64OfInt (BusinessMetrics.Leads m)))
      /\ (BusinessMetrics.Leads m <= 0 -> BusinessMetrics.CPA m = PrimFloat.zero)
      /\ (0 < BusinessMetrics.Leads m ->
          BusinessMetrics.CVRLeadToOpp m
          = PrimFloat.div (GoNum.float64OfInt (BusinessMetrics.Opportunities m))
              (GoNum.float64OfInt (BusinessMetrics.Leads m)))
      /\ (BusinessMetrics.Leads m <= 0 ->
          BusinessMetrics.CVRLeadToOpp m = PrimFloat.zero)
      /\ (0 < BusinessMetrics.Opportunities m ->
          BusinessMetrics.CVROppToWon m
          = PrimFloat.div (GoNum.float64OfInt (BusinessMetrics.ClosedWon m))
              (GoNum.float64OfInt (BusinessMetrics.Opportunities m)))
      /\ (BusinessMetrics.Opportunities m <= 0 ->
          BusinessMetrics.CVROppToWon m = PrimFloat.zero)
      /\ (GoNum.floatPos (BusinessMetrics.Cost m) = true ->
          BusinessMetrics.ROAS m
          = PrimFloat.div (BusinessMetrics.Revenue m) (BusinessMetrics.Cost m))
      /\ (GoNum.floatPos (BusinessMetrics.Cost m) = false ->
          BusinessMetrics.ROAS m = PrimFloat.zero)
      /\ (BusinessMetrics.Cost m = PrimFloat.zero
          \/ BusinessMetrics.Cost m = PrimFloat.neg_zero ->
          BusinessMetrics.ROAS m = PrimFloat.zero).
Proof.
  intros now ads opportunities utm Hne. unfold calculateMetricForUTM.
  destruct (length ads =? 0)%nat eqn:Hlen.
  { apply Nat.eqb_eq in Hlen. by destruct ads. }
  destruct (addAd_fold_totals ads adTotals0) as (Hclicks & _ & Hcost).
  destruct (addOpp_fold_totals opportunities oppTotals0 0 0 0 eq_refl eq_refl eq_refl)
    as (Hleads & Hopps & Hwon & Hrev).
  set (a := foldl addAd adTotals0 ads) in *.
  set (o := foldl addOpp oppTotals0 opportunities) in *.
  eexists. split; [reflexivity|]. cbn [BusinessMetrics.Clicks BusinessMetrics.CPC
    BusinessMetrics.Cost BusinessMetrics.Leads BusinessMetrics.CPA
    BusinessMetrics.CVRLeadToOpp BusinessMetrics.Opportunities
    BusinessMetrics.CVROppToWon BusinessMetrics.ClosedWon BusinessMetrics.ROAS
    BusinessMetrics.Revenue].
  split_and!.
  - rewrite Hclicks. apply (foldl_intAdd _ 0).
  - exact Hcost.
  - exact Hleads.
  - exact Hopps.
  - exact Hwon.
  - exact Hrev.
  - intros H. by rewrite (proj2 (Z.ltb_lt _ _) H).
  - intros H. by rewrite (proj2 (Z.ltb_ge _ _) H).
  - intros H. by rewrite (proj2 (Z.ltb_lt _ _) H).
  - intros H. by rewrite (proj2 (Z.ltb_ge _ _) H).
  - intros H. by rewrite (proj2 (Z.ltb_lt _ _) H).
  - intros H. by rewrite (proj2 (Z.ltb_ge _ _) H).
  - intros H. by rewrite (proj2 (Z.ltb_lt _ _) H).
  - intros H. by rewrite (proj2 (Z.ltb_ge _ _) H).
  - intros ->. done.
  - intros ->. done.
  - intros [->| ->]; done.
Qed.

Lemma derived_ratios_guarded_witness :
  [Examples.tieAdFirst; Examples.tieAdSecond] <> []
  /\ exists m,
      calculateMetricForUTM (GoTime.Date 2025 1 3 0 0 0 0)
        [Examples.tieAdFirst; Examples.tieAdSecond] Examples.saleOpps
        (UTMKey.mk "sale" "unknown" "unknown") = Some m
      /\ BusinessMetrics.Clicks m = 30
      /\ BusinessMetrics.Leads m = 2
      /\ BusinessMetrics.Opportunities m = 1
      /\ BusinessMetrics.ClosedWon m = 1
      /\ BusinessMetrics.CPC m = 0.5%float
      /\ BusinessMetrics.CPA m = 7.5%float
      /\ BusinessMetrics.CVRLeadToOpp m = 0.5%float
      /\ BusinessMetrics.CVROppToWon m = 1%float
      /\ BusinessMetrics.ROAS m = 2%float.
Proof.
  split; [done|].
  destruct (derived_ratios_guarded (GoTime.Date 2025 1 3 0 0 0 0)
              [Examples.tieAdFirst; Examples.tieAdSecond] Examples.saleOpps
              (UTMKey.mk "sale" "unknown" "unknown") ltac:(done))
    as (m & Hm & Hrest).
  exists m. split; [exact Hm|].
  vm_compute in Hm. injection Hm as <-. split_and!; reflexivity.
Defined.

(** The group of a key in [adsByUTM]. *)
Lemma groupAds_lookup (ads : list ProcessedAdData.t) (utm : UTMKey.t) :
  default [] (groupAds ads !! utm) = filter (fun ad => adKey ad = utm) ads.
Proof.
  unfold groupAds.
  change (foldl _ ∅ ads) with (Infra.storeAll adKey ∅ ads).
  by rewrite InfraFacts.storeAll_lookup, lookup_empty.
Qed.

(** C2. Every bucket the aggregation emits belongs to a UTM key that has
    at least one ad record in the input; a key that only opportunities
    carry is never emitted. *)
Theorem buckets_only_for_ad_groups :
  forall (workerPool : Z) (schedule : list UTMKey.t -> list UTMKey.t)
         (clock : nat -> GoTime.Time) (ads : list ProcessedAdData.t)
         (opportunities : list ProcessedOpportunity.t),
    let out := calculateMetricsWithWorkerPool workerPool schedule clock
                 ads opportunities in
    (forall m, m ∈ out -> exists ad, ad ∈ ads /\ adKey ad = Spec.metricKey m)
    /\ (forall utm,
          (exists opp, opp ∈ opportunities /\ oppKey opp = utm) ->
          (forall ad, ad ∈ ads -> adKey ad <> utm) ->
          forall m, m ∈ out -> Spec.metricKey m <> utm).
Proof.
  intros workerPool schedule clock ads opportunities out.
  assert (Hmain : forall m, m ∈ out ->
                    exists ad, ad ∈ ads /\ adKey ad = Spec.metricKey m).
  { intros m Hm. subst out. unfold calculateMetricsWithWorkerPool in Hm.
    destruct (workerPool <=? 0); [by apply elem_of_nil in Hm|].
    apply list_elem_of_omap in Hm as ([n utm] & _ & Hcalc).
    rewrite groupAds_lookup in Hcalc.
    destruct (filter (fun ad => adKey ad = utm) ads) as [|ad group] eqn:Hg.
    - by rewrite calculateMetricForUTM_nil in Hcalc.
    - assert (Hin : ad ∈ filter (fun ad => adKey ad = utm) ads)
        by (rewrite Hg; left).
      apply list_elem_of_filter in Hin as [Hkey Hin].
      exists ad. split; [done|].
      destruct (calculateMetricForUTM_Some (clock n) (ad :: group)
                  (default [] (groupOpps opportunities !! utm)) utm ltac:(done))
        as (m' & Hm' & _ & _ & _ & Hk).
      congruence. }
  split; [exact Hmain|].
  intros utm _ Hnone m Hm Hk.
  destruct (Hmain m Hm) as (ad & Hin & Hkey).
  apply (Hnone ad Hin). congruence.
Qed.

Lemma buckets_only_for_ad_groups_witness :
  length (calculateMetricsWithWorkerPool 2 id (fun _ => GoTime.Date 2025 1 3 0 0 0 0)
            [Examples.tieAdFirst; Examples.tieAdSecond] [Examples.orphanOpp])
  = 1%nat
  /\ forall m,
      m ∈ calculateMetricsWithWorkerPool 2 id (fun _ => GoTime.Date 2025 1 3 0 0 0 0)
            [Examples.tieAdFirst; Examples.tieAdSecond] [Examples.orphanOpp] ->
      Spec.metricKey m <> oppKey Examples.orphanOpp.
Proof.
  split; [vm_compute; reflexivity|].
  apply (proj2 (buckets_only_for_ad_groups 2 id
                  (fun _ => GoTime.Date 2025 1 3 0 0 0 0)
                  [Examples.tieAdFirst; Examples.tieAdSecond] [Examples.orphanOpp])).
  - exists Examples.orphanOpp. split; [by left|reflexivity].
  - intros ad Had.
    apply elem_of_cons in Had as [->|Had]; [by vm_compute|].
    apply list_elem_of_singleton in Had as ->. by vm_compute.
Defined.

End AggregationFacts.

(* ===================================================================== *)
(** * Sorting                                                             *)
(* ===================================================================== *)

Module SortFacts.
Import GoSort.

Lemma sift_Permutation {A : Type} (less : A -> A -> bool) (x : A)
    (left : list A) :
  sift less x left ≡ₚ x :: left.
Proof.
  induction left as [|y left IH]; simpl; [done|].
  destruct (less x y); [|done].
  rewrite IH. apply Permutation_swap.
Qed.

Lemma insertionSort_Permutation {A : Type} (less : A -> A -> bool) (l : list A) :
  insertionSort less l ≡ₚ l.
Proof.
  unfold insertionSort. rewrite reverse_Permutation.
  assert (Hgen : forall left, foldl (fun left x => sift less x left) left l
                              ≡ₚ l ++ left).
  { induction l as [|x l IH]; intros left; simpl; [done|].
    rewrite IH, sift_Permutation. symmetry. apply Permutation_middle. }
  by rewrite Hgen, app_nil_r.
Qed.

(** The elements to the left of the one being sifted stay in order,
    read from the nearest one on. *)
Lemma sift_StronglySorted {A : Type} (less : A -> A -> bool) (x : A)
    (left : list A) :
  (forall a b, less a b = true -> less b a = false) ->
  (forall a b c, less b a = false -> less c b = false -> less c a = false) ->
  StronglySorted (flip (ascending less)) left ->
  StronglySorted (flip (ascending less)) (sift less x left).
Proof.
  intros Hasym Htrans Hs. induction Hs as [|y left Hs IH Hy]; simpl.
  - repeat constructor.
  - destruct (less x y) eqn:Hxy.
    + constructor; [exact IH|].
      rewrite sift_Permutation. constructor; [|done].
      unfold flip, ascending. by apply Hasym.
    + constructor; [by constructor|].
      constructor; [done|].
      eapply Forall_impl; [exact Hy|].
      intros z Hz. unfold flip, ascending in *. by eapply Htrans.
Qed.

Lemma StronglySorted_rev {A : Type} (R : A -> A -> Prop) (l : list A) :
  StronglySorted (flip R) l -> StronglySorted R (reverse l).
Proof.
  induction 1 as [|x l Hs IH Hx]; [constructor|].
  rewrite reverse_cons.
  apply StronglySorted_app_2; [|done|repeat constructor].
  intros x1 x2 Hx1 ->%list_elem_of_singleton.
  rewrite Forall_forall in Hx. apply Hx. by apply elem_of_reverse.
Qed.

Lemma insertionSort_StronglySorted {A : Type} (less : A -> A -> bool) (l : list A) :
  (forall a b, less a b = true -> less b a = false) ->
  (forall a b c, less b a = false -> less c b = false -> less c a = false) ->
  StronglySorted (ascending less) (insertionSort less l).
Proof.
  intros Hasym Htrans. unfold insertionSort. apply StronglySorted_rev.
  assert (Hgen : forall left,
    StronglySorted (flip (ascending less)) left ->
    StronglySorted (flip (ascending less))
      (foldl (fun left x => sift less x left) left l)).
  { induction l as [|x l IH]; intros left Hs; simpl; [done|].
    by apply IH, sift_StronglySorted. }
  apply Hgen. constructor.
Qed.

(** Insertion sort meets the contract of [sort.Slice]. *)
#[export] Instance insertionSorter : SliceSorter :=
  {| Slice := @insertionSort;
     Slice_Permutation := @insertionSort_Permutation;
     Slice_Sorted := @insertionSort_StronglySorted |}.

End SortFacts.

(* ===================================================================== *)
(** * The metrics repository                                              *)
(* ===================================================================== *)

Module MetricsFacts.
Import Domain Infra.
Import MetricsRepository.

Lemma Store_data (r : t) (metrics : list BusinessMetrics.t) :
  data (Store r metrics).1 = storeAll MetricsRepository.dayKey (data r) metrics.
Proof. unfold Store, storeAll, MetricsRepository.dayKey. reflexivity. Qed.

Lemma storeAll_app `{Countable K} {A : Type} (key : A -> K)
    (m : gmap K (list A)) (l1 l2 : list A) :
  storeAll key m (l1 ++ l2) = storeAll key (storeAll key m l1) l2.
Proof. unfold storeAll. by rewrite foldl_app. Qed.

Lemma stored_from (batches : list (list BusinessMetrics.t)) : forall r,
  data (foldl (fun r metrics => (Store r metrics).1) r batches)
  = storeAll MetricsRepository.dayKey (data r) (concat batches).
Proof.
  induction batches as [|b batches IH]; intros r; [done|].
  cbn [foldl concat]. by rewrite IH, Store_data, storeAll_app.
Qed.

(** Many [Store] calls leave what one call with all the records leaves. *)
Lemma stored_data (batches : list (list BusinessMetrics.t)) :
  data (stored batches) = storeAll MetricsRepository.dayKey ∅ (concat batches).
Proof. unfold stored. by rewrite stored_from. Qed.

Lemma filter_loop (filter : MetricsFilter.t) (l : list BusinessMetrics.t) :
  forall acc,
    foldl (fun acc metric =>
             if matchesFilter metric filter then acc ++ [metric] else acc) acc l
    = acc ++ base.filter (fun metric => matchesFilter metric filter = true) l.
Proof.
  induction l as [|m l IH]; intros acc; simpl.
  - by rewrite app_nil_r.
  - rewrite IH, filter_cons. destruct (matchesFilter m filter) eqn:Hm.
    + rewrite decide_True by done. by rewrite <- app_assoc.
    + rewrite decide_False by congruence. done.
Qed.

Lemma StronglySorted_weaken {A : Type} (R R' : A -> A -> Prop) (l : list A) :
  (forall a b, R a b -> R' a b) -> StronglySorted R l -> StronglySorted R' l.
Proof.
  intros Himp Hs. induction Hs as [|x l Hs IH Hx]; constructor; [done|].
  eapply Forall_impl; [exact Hx|]. intros y. apply Himp.
Qed.

Section Query.
Context `{GoSort.SliceSorter}.

(** What the sort was given is what was collected and matches. *)
Lemma sortedMatches_Permutation now1 now2 r filter :
  sortedMatches now1 now2 r filter
  ≡ₚ base.filter (fun metric => matchesFilter metric filter = true)
       (collectRange (data r) (scanBounds now1 now2 filter).1
          (scanBounds now1 now2 filter).2).
Proof.
  unfold sortedMatches. destruct (scanBounds now1 now2 filter) as [from to].
  rewrite GoSort.Slice_Permutation, filter_loop. done.
Qed.

Lemma lessByDate_asym a b : lessByDate a b = true -> lessByDate b a = false.
Proof. unfold lessByDate, GoTime.Before. lia. Qed.

Lemma lessByDate_trans a b c :
  lessByDate b a = false -> lessByDate c b = false -> lessByDate c a = false.
Proof. unfold lessByDate, GoTime.Before. lia. Qed.

(** The records are in ascending order of date. *)
Lemma sortedMatches_StronglySorted now1 now2 r filter :
  StronglySorted
    (fun a b => GoTime.unixNano (BusinessMetrics.Date a)
                <= GoTime.unixNano (BusinessMetrics.Date b))
    (sortedMatches now1 now2 r filter).
Proof.
  unfold sortedMatches. destruct (scanBounds now1 now2 filter) as [from to].
  eapply StronglySorted_weaken;
    [|apply GoSort.Slice_Sorted; [apply lessByDate_asym|apply lessByDate_trans]].
  intros a b. unfold GoSort.ascending, lessByDate, GoTime.Before. lia.
Qed.

(** [GetByFilter] never panics and never returns an error; its answer,
    stage by stage. *)
Lemma GetByFilter_unfold now1 now2 r filter :
  let l := sortedMatches now1 now2 r filter in
  let limit := Spec.effectiveLimit filter in
  let offset := Spec.effectiveOffset filter in
  let total := Z.of_nat (length l) in
  let start := Z.min offset total in
  let end_ := Z.min (GoNum.intAdd offset limit) total in
  GetByFilter now1 now2 r filter
  = Some (MetricsResponse.mk
            (if start <? end_
             then take (Z.to_nat (end_ - start)) (drop (Z.to_nat start) l)
             else [])
            total limit offset (end_ <? total), None).
Proof.
  intros l limit offset total start end_.
  unfold GetByFilter. fold l. fold (Spec.effectiveLimit filter).
  fold (Spec.effectiveOffset filter). fold limit offset total.
  assert (Hoff : 0 <= offset).
  { subst offset. unfold Spec.effectiveOffset.
    destruct (Z.ltb_spec 0 (MetricsFilter.Offset filter)); lia. }
  assert (Hstart : (if total <? offset then total else offset) = start).
  { subst start. destruct (Z.ltb_spec total offset); lia. }
  assert (Hend : (if total <? GoNum.intAdd offset limit then total
                  else GoNum.intAdd offset limit) = end_).
  { subst end_. destruct (Z.ltb_spec total (GoNum.intAdd offset limit)); lia. }
  rewrite Hstart, Hend.
  destruct (Z.ltb_spec start end_) as [Hlt|Hge]; simpl; [|done].
  unfold GoNum.slice. fold total.
  assert (0 <= start) by lia. assert (end_ <= total) by lia.
  rewrite (proj2 (Z.leb_le 0 start)), (proj2 (Z.leb_le start end_)),
    (proj2 (Z.leb_le end_ total)) by lia.
  done.
Qed.

Lemma wrapInt_in_range (z : Z) :
  GoNum.minInt <= z <= GoNum.maxInt -> GoNum.wrapInt z = z.
Proof.
  unfold GoNum.wrapInt, GoNum.minInt, GoNum.maxInt. intros Hz.
  rewrite Z.mod_small; lia.
Qed.

Lemma wrapInt_above (z : Z) :
  GoNum.maxInt < z <= 2 * GoNum.maxInt -> GoNum.wrapInt z = z - 2 ^ 64.
Proof.
  unfold GoNum.wrapInt, GoNum.maxInt. intros Hz.
  replace (z + 2 ^ 63) with (z - 2 ^ 63 + 1 * 2 ^ 64) by lia.
  rewrite Z.mod_add by lia. rewrite Z.mod_small; lia.
Qed.

Lemma effectiveLimit_pos filter : 0 < Spec.effectiveLimit filter.
Proof.
  unfold Spec.effectiveLimit.
  destruct (Z.ltb_spec 0 (MetricsFilter.Limit filter)); lia.
Qed.

Lemma effectiveOffset_nonneg filter : 0 <= Spec.effectiveOffset filter.
Proof.
  unfold Spec.effectiveOffset.
  destruct (Z.ltb_spec 0 (MetricsFilter.Offset filter)); lia.
Qed.

(** Pagination when [offset + limit] fits an [int]: the page is the
    slice [[offset, offset+limit)] of the sorted records clamped to
    their bounds, holds at most [limit] records, and [has_more] tells
    whether records remain after it. *)
Lemma GetByFilter_page now1 now2 r filter :
  Spec.effectiveOffset filter + Spec.effectiveLimit filter <= GoNum.maxInt ->
  exists resp,
    GetByFilter now1 now2 r filter = Some (resp, None)
    /\ MetricsResponse.Data resp
       = Spec.Paginate (sortedMatches now1 now2 r filter)
           (Spec.effectiveLimit filter) (Spec.effectiveOffset filter)
    /\ Z.of_nat (length (MetricsResponse.Data resp)) <= Spec.effectiveLimit filter
    /\ MetricsResponse.Total resp
       = Z.of_nat (length (sortedMatches now1 now2 r filter))
    /\ (MetricsResponse.HasMore resp = true
        <-> Spec.effectiveOffset filter + Spec.effectiveLimit filter
            < MetricsResponse.Total resp).
Proof.
  intros Hfit. rewrite GetByFilter_unfold. eexists. split; [reflexivity|].
  pose proof (effectiveLimit_pos filter) as Hl.
  pose proof (effectiveOffset_nonneg filter) as Ho.
  set (l := sortedMatches now1 now2 r filter).
  set (limit := Spec.effectiveLimit filter) in *.
  set (offset := Spec.effectiveOffset filter) in *.
  unfold GoNum.intAdd. rewrite wrapInt_in_range
    by (unfold GoNum.minInt, GoNum.maxInt in *; lia).
  cbn [MetricsResponse.Data MetricsResponse.Total MetricsResponse.HasMore].
  assert (Hpage :
    (if Z.min offset (Z.of_nat (length l)) <? Z.min (offset + limit) (Z.of_nat (length l))
     then take (Z.to_nat (Z.min (offset + limit) (Z.of_nat (length l))
                          - Z.min offset (Z.of_nat (length l))))
            (drop (Z.to_nat (Z.min offset (Z.of_nat (length l)))) l)
     else [])
    = Spec.Paginate l limit offset).
  { unfold Spec.Paginate.
    destruct (Z.ltb_spec (Z.min offset (Z.of_nat (length l)))
                (Z.min (offset + limit) (Z.of_nat (length l)))) as [Hlt|Hge].
    - rewrite (Z.min_l offset) by lia.
      destruct (Z.le_gt_cases (offset + limit) (Z.of_nat (length l))).
      + rewrite (Z.min_l (offset + limit)) by lia. f_equal. lia.
      + rewrite (Z.min_r (offset + limit)) by lia.
        rewrite !take_ge; [done| |]; rewrite length_drop; lia.
    - rewrite take_ge; [|rewrite length_drop; lia].
      rewrite drop_ge; [done|lia]. }
  rewrite Hpage. split_and!; [done| |done|].
  - unfold Spec.Paginate. rewrite length_take. lia.
  - rewrite Z.ltb_lt. lia.
Qed.

(** Pagination when [offset + limit] does not fit an [int]: the sum
    wraps to a negative [end], the page is empty and [has_more] is
    set, whatever is stored. *)
Lemma GetByFilter_wrapped now1 now2 r filter :
  0 < MetricsFilter.Offset filter <= GoNum.maxInt ->
  0 < MetricsFilter.Limit filter <= GoNum.maxInt ->
  GoNum.maxInt < MetricsFilter.Offset filter + MetricsFilter.Limit filter ->
  exists resp,
    GetByFilter now1 now2 r filter = Some (resp, None)
    /\ MetricsResponse.Data resp = []
    /\ MetricsResponse.HasMore resp = true
    /\ MetricsResponse.Total resp
       = Z.of_nat (length (sortedMatches now1 now2 r filter)).
Proof.
  intros Ho Hl Hover. rewrite GetByFilter_unfold. eexists. split; [reflexivity|].
  cbn [MetricsResponse.Data MetricsResponse.Total MetricsResponse.HasMore].
  unfold Spec.effectiveOffset, Spec.effectiveLimit.
  rewrite (proj2 (Z.ltb_lt 0 _) (proj1 Ho)), (proj2 (Z.ltb_lt 0 _) (proj1 Hl)).
  unfold GoNum.intAdd. rewrite wrapInt_above by (unfold GoNum.maxInt in *; lia).
  set (total := Z.of_nat (length (sortedMatches now1 now2 r filter))).
  assert (0 <= total) by lia.
  assert (Hneg : MetricsFilter.Offset filter + MetricsFilter.Limit filter - 2 ^ 64 < 0)
    by (unfold GoNum.maxInt in *; lia).
  split_and!; [|apply Z.ltb_lt; lia|done].
  destruct (Z.ltb_spec (Z.min (MetricsFilter.Offset filter) total)
              (Z.min (MetricsFilter.Offset filter + MetricsFilter.Limit filter
                      - 2 ^ 64) total)); [lia|done].
Qed.

(** C3 at an input where [offset + limit] overflows: two metrics are
    stored and match, the query asks for offset 1 with the largest
    limit; the page that comes back is empty and [has_more] is set,
    although [offset + limit < total] is false and the slice
    [[1, 2)] holds a record. *)
Theorem pagination_limit_overflow (now1 now2 : GoTime.Time) :
  exists resp,
    GetByFilter now1 now2 (stored [[Examples.metricJan1; Examples.metricJan2]])
      Examples.hugeLimitFilter = Some (resp, None)
    /\ MetricsResponse.Total resp = 2
    /\ MetricsResponse.Offset resp = 1
    /\ MetricsResponse.Limit resp = GoNum.maxInt
    /\ MetricsResponse.Data resp = []
    /\ MetricsResponse.HasMore resp = true
    /\ ~ (1 + GoNum.maxInt < 2)
    /\ length (Spec.Paginate
                 (sortedMatches now1 now2
                    (stored [[Examples.metricJan1; Examples.metricJan2]])
                    Examples.hugeLimitFilter) GoNum.maxInt 1) = 1%nat.
Proof.
  destruct (GetByFilter_wrapped now1 now2
              (stored [[Examples.metricJan1; Examples.metricJan2]])
              Examples.hugeLimitFilter)
    as (resp & Hresp & Hdata & Hmore & Htotal); [done|done|done|].
  assert (Hlen : length (sortedMatches now1 now2
                   (stored [[Examples.metricJan1; Examples.metricJan2]])
                   Examples.hugeLimitFilter) = 2%nat).
  { rewrite sortedMatches_Permutation. vm_compute. reflexivity. }
  exists resp. split_and!; try done.
  - by rewrite Htotal, Hlen.
  - rewrite GetByFilter_unfold in Hresp. by injection Hresp as <-.
  - rewrite GetByFilter_unfold in Hresp. by injection Hresp as <-.
  - unfold Spec.Paginate. rewrite length_take, length_drop, Hlen. done.
Qed.

End Query.

End MetricsFacts.

Module ListFacts.

Lemma filter_none {A : Type} (P : A -> Prop) `{forall x, Decision (P x)} (l : list A) :
  (forall x, x ∈ l -> ~ P x) -> base.filter P l = [].
Proof.
  induction l as [|x l IH]; intros Hl; [done|].
  rewrite filter_cons, decide_False by (apply Hl; left).
  apply IH. intros y Hy. apply Hl. by right.
Qed.

Lemma filter_all {A : Type} (P : A -> Prop) `{forall x, Decision (P x)} (l : list A) :
  (forall x, x ∈ l -> P x) -> base.filter P l = l.
Proof.
  induction l as [|x l IH]; intros Hl; [done|].
  rewrite filter_cons, decide_True by (apply Hl; left).
  f_equal. apply IH. intros y Hy. apply Hl. by right.
Qed.

End ListFacts.

Module QueryFacts.
Import Domain Infra.
Import MetricsRepository.

Section Query.
Context `{GoSort.SliceSorter}.

Lemma sortedMatches_withDefaults now1 now2 r filter :
  sortedMatches now1 now2 r (Spec.withDefaults filter)
  = sortedMatches now1 now2 r filter.
Proof. reflexivity. Qed.

Lemma effectiveLimit_withDefaults filter :
  Spec.effectiveLimit (Spec.withDefaults filter) = Spec.effectiveLimit filter.
Proof.
  unfold Spec.effectiveLimit, Spec.withDefaults. simpl.
  destruct (Z.leb_spec (MetricsFilter.Limit filter) 0); [|done].
  simpl. destruct (Z.ltb_spec 0 (MetricsFilter.Limit filter)); lia.
Qed.

Lemma effectiveOffset_withDefaults filter :
  Spec.effectiveOffset (Spec.withDefaults filter) = Spec.effectiveOffset filter.
Proof.
  unfold Spec.effectiveOffset, Spec.withDefaults. simpl.
  destruct (Z.leb_spec (MetricsFilter.Offset filter) 0); [|done].
  simpl. destruct (Z.ltb_spec 0 (MetricsFilter.Offset filter)); lia.
Qed.

(** C10. A limit that is zero or negative is read as unset and replaced
    by 100, an offset that is zero or negative by 0: the query answers
    as it does for the filter with these defaults written out. It does
    not panic on a slice bound and returns no error, and with both
    values non-positive the page is the first 100 records, empty only
    when nothing matches. *)
Theorem nonpositive_limit_offset_are_defaults :
  forall (now1 now2 : GoTime.Time) (r : t) (filter : MetricsFilter.t),
    GetByFilter now1 now2 r filter
    = GetByFilter now1 now2 r (Spec.withDefaults filter)
    /\ exists resp,
        GetByFilter now1 now2 r filter = Some (resp, None)
        /\ (MetricsFilter.Limit filter <= 0 -> MetricsResponse.Limit resp = 100)
        /\ (MetricsFilter.Offset filter <= 0 -> MetricsResponse.Offset resp = 0)
        /\ (MetricsFilter.Limit filter <= 0 -> MetricsFilter.Offset filter <= 0 ->
            MetricsResponse.Data resp
            = take 100 (sortedMatches now1 now2 r filter)
            /\ (MetricsResponse.Data resp = [] -> MetricsResponse.Total resp = 0)).
Proof.
  intros now1 now2 r filter. split.
  - rewrite !MetricsFacts.GetByFilter_unfold.
    by rewrite sortedMatches_withDefaults, effectiveLimit_withDefaults,
      effectiveOffset_withDefaults.
  - assert (Hl : MetricsFilter.Limit filter <= 0 -> Spec.effectiveLimit filter = 100).
    { intros Hle. unfold Spec.effectiveLimit.
      destruct (Z.ltb_spec 0 (MetricsFilter.Limit filter)); lia. }
    assert (Ho : MetricsFilter.Offset filter <= 0 -> Spec.effectiveOffset filter = 0).
    { intros Hle. unfold Spec.effectiveOffset.
      destruct (Z.ltb_spec 0 (MetricsFilter.Offset filter)); lia. }
    destruct (Z.le_gt_cases (Spec.effectiveOffset filter + Spec.effectiveLimit filter)
                GoNum.maxInt) as [Hfit|Hover].
    + destruct (MetricsFacts.GetByFilter_page now1 now2 r filter Hfit)
        as (resp & Hresp & Hdata & _ & Htotal & _).
      exists resp. split; [exact Hresp|].
      rewrite MetricsFacts.GetByFilter_unfold in Hresp.
      split_and!.
      * intros Hle. injection Hresp as <-. by apply Hl.
      * intros Hle. injection Hresp as <-. by apply Ho.
      * intros Hle1 Hle2. rewrite Hdata, Htotal. unfold Spec.Paginate.
        rewrite (Hl Hle1), (Ho Hle2). simpl. split; [done|].
        intros Hnil. apply (f_equal length) in Hnil.
        rewrite length_take in Hnil.
        change (Z.to_nat 0) with 0%nat in Hnil. rewrite drop_0 in Hnil.
        change (length []) with 0%nat in Hnil. lia.
    + rewrite MetricsFacts.GetByFilter_unfold. eexists. split; [reflexivity|].
      cbn [MetricsResponse.Limit MetricsResponse.Offset MetricsResponse.Data
             MetricsResponse.Total].
      split_and!; [exact Hl|exact Ho|].
      intros Hle1 Hle2. rewrite (Hl Hle1), (Ho Hle2) in Hover.
      unfold GoNum.maxInt in Hover. lia.
Qed.




End Query.

Import SortFacts.

Lemma nonpositive_limit_offset_are_defaults_witness :
  exists resp,
    GetByFilter (GoTime.Date 2025 1 3 12 0 0 0) (GoTime.Date 2025 1 3 12 0 1 0)
      (stored [[Examples.metricJan1; Examples.metricJan2]])
      (MetricsFilter.mk None None "" "" "" "" "" (-5) (-7)) = Some (resp, None)
    /\ MetricsResponse.Limit resp = 100
    /\ MetricsResponse.Offset resp = 0
    /\ length (MetricsResponse.Data resp) = 2%nat.
Proof.
  destruct (nonpositive_limit_offset_are_defaults
              (GoTime.Date 2025 1 3 12 0 0 0) (GoTime.Date 2025 1 3 12 0 1 0)
              (stored [[Examples.metricJan1; Examples.metricJan2]])
              (MetricsFilter.mk None None "" "" "" "" "" (-5) (-7)))
    as (_ & resp & Hresp & Hl & Ho & Hd).
  exists resp. split_and!; [exact Hresp|by apply Hl|by apply Ho|].
  destruct Hd as [-> _]; [done|done|].
  rewrite length_take, MetricsFacts.sortedMatches_Permutation.
  vm_compute. reflexivity.
Defined.



End QueryFacts.

Module ExportFacts.
Import Domain Infra Usecase.

Lemma GetByDate_stored (batches : list (list BusinessMetrics.t)) (date : GoTime.Time) :
  MetricsRepository.GetByDate (MetricsRepository.stored batches) date
  = (base.filter (fun m => MetricsRepository.dayKey m = GoTime.Format date)
       (concat batches), None).
Proof.
  unfold MetricsRepository.GetByDate.
  pose proof (InfraFacts.storeAll_lookup MetricsRepository.dayKey (concat batches)
                ∅ (GoTime.Format date)) as Hl.
  rewrite lookup_empty in Hl. simpl in Hl.
  rewrite MetricsFacts.stored_data.
  destruct (Infra.storeAll MetricsRepository.dayKey ∅ (concat batches)
              !! GoTime.Format date); simpl in Hl; by rewrite Hl.
Qed.

(** C8. An export asked for a date under which no metric is stored ends
    with the error "no metrics found for date <date>", which no failure
    of the repository or of the export client produces, and the export
    client is not called. *)
Theorem export_of_empty_date_reports_no_data :
  forall (batches : list (list BusinessMetrics.t))
         (export : list ExportData.t -> GoTime.Time -> option GoNum.error)
         (date : GoTime.Time),
    (forall m, m ∈ concat batches -> MetricsRepository.dayKey m <> GoTime.Format date) ->
    let out := ExportMetrics
                 (MetricsRepository.GetByDate (MetricsRepository.stored batches))
                 export date in
    exportErr out = Some ("no metrics found for date " +:+ GoTime.Format date)
    /\ exportCalls out = []
    /\ (forall cause : GoNum.error,
          exportErr out <> Some ("failed to get metrics for export: " +:+ cause)
          /\ exportErr out <> Some ("failed to export metrics: " +:+ cause)).
Proof.
  intros batches export date Hnone out. subst out.
  unfold ExportMetrics. rewrite GetByDate_stored.
  assert (Hempty : base.filter (fun m => MetricsRepository.dayKey m = GoTime.Format date)
                     (concat batches) = []).
  { apply ListFacts.filter_none. intros m Hm. by apply Hnone. }
  rewrite Hempty. simpl. split_and!; [done|done|].
  intros cause. split; intros [= Heq]; discriminate Heq.
Qed.

Lemma export_of_empty_date_reports_no_data_witness :
  (forall m, m ∈ concat [[Examples.metricJan1]; [Examples.metricJan2]] ->
             MetricsRepository.dayKey m <> GoTime.Format (GoTime.Date 2025 1 3 0 0 0 0))
  /\ exportErr
       (ExportMetrics
          (MetricsRepository.GetByDate
             (MetricsRepository.stored [[Examples.metricJan1]; [Examples.metricJan2]]))
          (fun _ _ => None) (GoTime.Date 2025 1 3 0 0 0 0))
     = Some "no metrics found for date 2025-01-03"%string.
Proof.
  assert (Hnone : forall m, m ∈ concat [[Examples.metricJan1]; [Examples.metricJan2]] ->
             MetricsRepository.dayKey m <> GoTime.Format (GoTime.Date 2025 1 3 0 0 0 0)).
  { intros m Hm. simpl in Hm.
    apply elem_of_cons in Hm as [->|Hm]; [by vm_compute|].
    apply list_elem_of_singleton in Hm as ->. by vm_compute. }
  split; [exact Hnone|].
  exact (proj1 (export_of_empty_date_reports_no_data
                  [[Examples.metricJan1]; [Examples.metricJan2]]
                  (fun _ _ => None) (GoTime.Date 2025 1 3 0 0 0 0) Hnone)).
Defined.

End ExportFacts.

(* ===================================================================== *)
(** * The ad repository                                                   *)
(* ===================================================================== *)

Module AdStoreFacts.
Import Domain Infra.

Lemma AdRepository_Store_data (r : AdRepository.t) (ads : list ProcessedAdData.t) :
  AdRepository.data (AdRepository.Store r ads).1
  = storeAll AdRepository.dayKey (AdRepository.data r) ads.
Proof. unfold AdRepository.Store, storeAll, AdRepository.dayKey. reflexivity. Qed.

(** In a fixed zone the loop looks at the days from the day of [from] to
    the day of [to], at the latter only when the clock reading of [from]
    is not later than that of [to]. *)
Lemma rounds_fixed_days (from to : GoTime.Time) (offset : Z) :
  GoTime.loc from = GoTime.FixedZone offset ->
  GoTime.loc to = GoTime.FixedZone offset ->
  rounds from to
  = Z.max 0 (GoTime.dayNumber to - GoTime.dayNumber from
             + (if GoTime.clockNanos from <=? GoTime.clockNanos to then 1 else 0)).
Proof.
  intros Hfrom Hto. rewrite (InfraFacts.rounds_fixed from to offset Hfrom).
  unfold GoTime.clockNanos, GoTime.dayNumber.
  rewrite (GoTimeFacts.zoneOffset_fixed from offset Hfrom),
    (GoTimeFacts.zoneOffset_fixed to offset Hto).
  set (F := GoTime.unixNano from + offset * GoTime.nsPerSecond).
  set (T := GoTime.unixNano to + offset * GoTime.nsPerSecond).
  replace (GoTime.unixNano to - GoTime.unixNano from) with (T - F) by (subst F T; lia).
  pose proof InfraFacts.nsPerDay_pos as Hpos.
  pose proof (Z.div_mod F GoTime.nsPerDay ltac:(lia)) as HF.
  pose proof (Z.div_mod T GoTime.nsPerDay ltac:(lia)) as HT.
  pose proof (Z.mod_pos_bound F GoTime.nsPerDay Hpos).
  pose proof (Z.mod_pos_bound T GoTime.nsPerDay Hpos).
  f_equal.
  destruct (Z.leb_spec (F mod GoTime.nsPerDay) (T mod GoTime.nsPerDay)).
  - f_equal. symmetry.
    apply (Z.div_unique (T - F) GoTime.nsPerDay _
             (T mod GoTime.nsPerDay - F mod GoTime.nsPerDay)); lia.
  - rewrite Z.add_0_r.
    assert ((T - F) / GoTime.nsPerDay
            = T / GoTime.nsPerDay - F / GoTime.nsPerDay - 1) as ->; [|lia].
    symmetry.
    apply (Z.div_unique (T - F) GoTime.nsPerDay _
             (T mod GoTime.nsPerDay - F mod GoTime.nsPerDay + GoTime.nsPerDay)); lia.
Qed.

(** C7. A batch stored into an empty store is not always returned by a
    scan over an interval that covers its dates. The record is dated
    2025-01-03 00:00 and the interval runs from 2025-01-02 12:00 to
    2025-01-03 06:00 (all UTC): the scan returns no record and no error.
    Its loop goes from [from] in steps of one day and leaves once the date
    is after [to], so the only key looked up is that of January 2; with
    [from] at midnight of the same day the loop reaches the key of
    January 3 and the record is returned. *)
Theorem range_scan_misses_covered_record :
  (forall ad, ad ∈ [Examples.adJan3] ->
     GoTime.unixNano Examples.scanFromNoon
       <= GoTime.unixNano (ProcessedAdData.Date ad)
       <= GoTime.unixNano Examples.scanToMorning)
  /\ AdRepository.GetByDateRange
       (AdRepository.Store AdRepository.NewAdRepository [Examples.adJan3]).1
       Examples.scanFromNoon Examples.scanToMorning = ([], None)
  /\ ~ ((AdRepository.GetByDateRange
           (AdRepository.Store AdRepository.NewAdRepository [Examples.adJan3]).1
           Examples.scanFromNoon Examples.scanToMorning).1
        ≡ₚ [Examples.adJan3])
  /\ AdRepository.GetByDateRange
       (AdRepository.Store AdRepository.NewAdRepository [Examples.adJan3]).1
       (GoTime.Date 2025 1 2 0 0 0 0) Examples.scanToMorning
     = ([Examples.adJan3], None).
Proof.
  assert (Hscan : AdRepository.GetByDateRange
        (AdRepository.Store AdRepository.NewAdRepository [Examples.adJan3]).1
        Examples.scanFromNoon Examples.scanToMorning = ([], None))
    by (vm_compute; reflexivity).
  split_and!.
  - intros ad ->%list_elem_of_singleton.
    vm_compute. split; intros Hgt; discriminate Hgt.
  - exact Hscan.
  - rewrite Hscan. intros Hp. by apply Permutation_nil_cons in Hp.
  - vm_compute. reflexivity.
Qed.

End AdStoreFacts.

(* ===================================================================== *)
(** * More on the metrics repository                                      *)
(* ===================================================================== *)

Module MoreQueryFacts.
Import Domain Infra.
Import MetricsRepository.

Lemma field_matches (wanted actual : string) :
  strNonEmpty wanted && negb (String.eqb actual wanted) = false
  <-> wanted = ""%string \/ actual = wanted.
Proof.
  unfold strNonEmpty.
  destruct (String.eqb_spec wanted ""), (String.eqb_spec actual wanted);
    simpl; intuition congruence.
Qed.

(** X1. A metric matches a filter exactly when each of the five filter
    fields is either empty or equal to the metric's field; [From], [To],
    [Limit] and [Offset] play no part. *)
Theorem matchesFilter_characterised :
  forall (metric : BusinessMetrics.t) (filter : MetricsFilter.t),
    matchesFilter metric filter = true
    <-> (MetricsFilter.Channel filter = ""%string
         \/ BusinessMetrics.Channel metric = MetricsFilter.Channel filter)
        /\ (MetricsFilter.CampaignID filter = ""%string
            \/ BusinessMetrics.CampaignID metric = MetricsFilter.CampaignID filter)
        /\ (MetricsFilter.UTMCampaign filter = ""%string
            \/ BusinessMetrics.UTMCampaign metric = MetricsFilter.UTMCampaign filter)
        /\ (MetricsFilter.UTMSource filter = ""%string
            \/ BusinessMetrics.UTMSource metric = MetricsFilter.UTMSource filter)
        /\ (MetricsFilter.UTMMedium filter = ""%string
            \/ BusinessMetrics.UTMMedium metric = MetricsFilter.UTMMedium filter).
Proof.
  intros metric filter. unfold matchesFilter.
  rewrite <- !field_matches.
  repeat match goal with
         | |- context [if ?c then false else _] => destruct c
         end; simpl; intuition congruence.
Qed.

Lemma StronglySorted_take_drop {A : Type} (R : A -> A -> Prop) (l : list A)
    (n k : nat) :
  StronglySorted R l -> StronglySorted R (take n (drop k l)).
Proof.
  intros Hs. rewrite <- (take_drop k l) in Hs.
  apply StronglySorted_app_1_r in Hs.
  rewrite <- (take_drop n (drop k l)) in Hs.
  by apply StronglySorted_app_1_l in Hs.
Qed.

Section Query.
Context `{GoSort.SliceSorter}.

(** The records the query selects: stored, dated on a day of the scan,
    matching the filter. *)
Lemma sortedMatches_stored now1 now2 batches filter :
  GoTime.regular (GoTime.loc (scanBounds now1 now2 filter).1) ->
  sortedMatches now1 now2 (stored batches) filter
  ≡ₚ base.filter
       (fun m => matchesFilter m filter = true
                 /\ visitedDay (scanBounds now1 now2 filter).1
                      (scanBounds now1 now2 filter).2
                      (GoTime.dayNumber (BusinessMetrics.Date m)))
       (concat batches).
Proof.
  intros Hreg.
  rewrite MetricsFacts.sortedMatches_Permutation, MetricsFacts.stored_data.
  rewrite (InfraFacts.collectRange_storeAll_key dayKey BusinessMetrics.Date)
    by done.
  by rewrite list_filter_filter.
Qed.

(** X2. A query whose scan starts in a regular zone answers with records
    that were stored, match the filter and are dated on a day of the
    scan, in ascending order of date; its total is the number of all such
    stored records, whatever the page. *)
Theorem query_selects_matching_records_of_range :
  forall (now1 now2 : GoTime.Time) (batches : list (list BusinessMetrics.t))
         (filter : MetricsFilter.t),
    GoTime.regular (GoTime.loc (scanBounds now1 now2 filter).1) ->
    exists resp,
      GetByFilter now1 now2 (stored batches) filter = Some (resp, None)
      /\ MetricsResponse.Total resp
         = Z.of_nat (length (base.filter
              (fun m => matchesFilter m filter = true
                        /\ visitedDay (scanBounds now1 now2 filter).1
                             (scanBounds now1 now2 filter).2
                             (GoTime.dayNumber (BusinessMetrics.Date m)))
              (concat batches)))
      /\ (forall m, m ∈ MetricsResponse.Data resp ->
            m ∈ concat batches
            /\ matchesFilter m filter = true
            /\ visitedDay (scanBounds now1 now2 filter).1
                 (scanBounds now1 now2 filter).2
                 (GoTime.dayNumber (BusinessMetrics.Date m)))
      /\ StronglySorted
           (fun a b => GoTime.unixNano (BusinessMetrics.Date a)
                       <= GoTime.unixNano (BusinessMetrics.Date b))
           (MetricsResponse.Data resp).
Proof.
  intros now1 now2 batches filter Hreg.
  rewrite MetricsFacts.GetByFilter_unfold. eexists. split; [reflexivity|].
  cbn [MetricsResponse.Total MetricsResponse.Data]. split_and!.
  - by rewrite sortedMatches_stored.
  - intros m Hm.
    assert (Hin : m ∈ sortedMatches now1 now2 (stored batches) filter).
    { destruct (_ <? _); [|by apply elem_of_nil in Hm].
      by apply subseteq_take, subseteq_drop in Hm. }
    rewrite sortedMatches_stored in Hin by done.
    apply list_elem_of_filter in Hin as [[? ?] ?]. done.
  - destruct (_ <? _); [|constructor].
    apply StronglySorted_take_drop, MetricsFacts.sortedMatches_StronglySorted.
Qed.

(** X3. Asking for a page and then for the next one (the offset moved on
    by the limit) returns, put together, the page of twice the limit: the
    two pages neither overlap nor leave a gap; and when [has_more] is
    false the next page is empty. The offsets stay within an [int]. *)
Theorem consecutive_pages_tile :
  forall (now1 now2 : GoTime.Time) (r : t) (filter : MetricsFilter.t),
    Spec.effectiveOffset filter + 2 * Spec.effectiveLimit filter <= GoNum.maxInt ->
    exists resp1 resp2,
      GetByFilter now1 now2 r filter = Some (resp1, None)
      /\ GetByFilter now1 now2 r (Spec.nextPage filter) = Some (resp2, None)
      /\ MetricsResponse.Data resp1 ++ MetricsResponse.Data resp2
         = Spec.Paginate (sortedMatches now1 now2 r filter)
             (2 * Spec.effectiveLimit filter) (Spec.effectiveOffset filter)
      /\ (MetricsResponse.HasMore resp1 = false -> MetricsResponse.Data resp2 = []).
Proof.
  intros now1 now2 r filter Hfit.
  pose proof (MetricsFacts.effectiveLimit_pos filter) as Hl.
  pose proof (MetricsFacts.effectiveOffset_nonneg filter) as Ho.
  assert (Hl2 : Spec.effectiveLimit (Spec.nextPage filter)
                = Spec.effectiveLimit filter).
  { unfold Spec.effectiveLimit at 1. unfold Spec.nextPage. cbn [MetricsFilter.Limit].
    by rewrite (proj2 (Z.ltb_lt _ _) Hl). }
  assert (Ho2 : Spec.effectiveOffset (Spec.nextPage filter)
                = Spec.effectiveOffset filter + Spec.effectiveLimit filter).
  { unfold Spec.effectiveOffset at 1. unfold Spec.nextPage. cbn [MetricsFilter.Offset].
    rewrite (proj2 (Z.ltb_lt 0 _)); [done|lia]. }
  destruct (MetricsFacts.GetByFilter_page now1 now2 r filter ltac:(lia))
    as (resp1 & Hr1 & Hd1 & _ & Ht1 & Hm1).
  destruct (MetricsFacts.GetByFilter_page now1 now2 r (Spec.nextPage filter)
              ltac:(rewrite Hl2, Ho2; lia))
    as (resp2 & Hr2 & Hd2 & _ & _ & _).
  exists resp1, resp2. split_and!; [done|done| |].
  - rewrite Hd1, Hd2, Hl2, Ho2. unfold Spec.Paginate.
    change (sortedMatches now1 now2 r (Spec.nextPage filter))
      with (sortedMatches now1 now2 r filter).
    rewrite Z2Nat.inj_add, <- drop_drop by lia.
    rewrite take_take_drop. f_equal. lia.
  - intros Hmore. rewrite Hd2, Hl2, Ho2. unfold Spec.Paginate.
    change (sortedMatches now1 now2 r (Spec.nextPage filter))
      with (sortedMatches now1 now2 r filter).
    assert (Hle : MetricsResponse.Total resp1
                  <= Spec.effectiveOffset filter + Spec.effectiveLimit filter).
    { destruct (Z.le_gt_cases (MetricsResponse.Total resp1)
                  (Spec.effectiveOffset filter + Spec.effectiveLimit filter))
        as [Hle|Hgt]; [done|]. apply Hm1 in Hgt. congruence. }
    rewrite drop_ge by lia. apply take_nil.
Qed.

End Query.

(** X4. [GetByDate] returns the metrics stored with a date on the calendar
    day of its argument, all of them and no other, in the order they were
    stored, and never an error. *)
Theorem GetByDate_returns_the_day :
  forall (batches : list (list BusinessMetrics.t)) (date : GoTime.Time),
    GetByDate (stored batches) date
    = (base.filter
         (fun m => GoTime.dayNumber (BusinessMetrics.Date m) = GoTime.dayNumber date)
         (concat batches), None).
Proof.
  intros batches date. rewrite ExportFacts.GetByDate_stored. f_equal.
  apply list_filter_iff. intros m. unfold dayKey. split.
  - apply GoTimeFacts.Format_inj_day.
  - apply GoTimeFacts.Format_day.
Qed.

Import SortFacts.

Lemma query_selects_matching_records_of_range_witness :
  GoTime.regular (GoTime.loc (scanBounds Examples.easternNoon Examples.easternNoonLater
                                (MetricsFilter.mk None None "google" "" "" "" "" 0 0)).1)
  /\ exists resp,
      GetByFilter Examples.easternNoon Examples.easternNoonLater
        (stored [[Examples.metricJan1; Examples.metricApr1]; [Examples.metricJan2]])
        (MetricsFilter.mk None None "google" "" "" "" "" 0 0) = Some (resp, None)
      /\ MetricsResponse.Total resp = 1.
Proof.
  split; [exact GoTimeFacts.regular_easternTime|].
  destruct (query_selects_matching_records_of_range
              Examples.easternNoon Examples.easternNoonLater
              [[Examples.metricJan1; Examples.metricApr1]; [Examples.metricJan2]]
              (MetricsFilter.mk None None "google" "" "" "" "" 0 0)
              GoTimeFacts.regular_easternTime)
    as (resp & Hresp & Htotal & _).
  exists resp. split; [exact Hresp|].
  rewrite Htotal. vm_compute. reflexivity.
Defined.

Lemma consecutive_pages_tile_witness :
  Spec.effectiveOffset (MetricsFilter.mk None None "" "" "" "" "" 1 0)
    + 2 * Spec.effectiveLimit (MetricsFilter.mk None None "" "" "" "" "" 1 0)
    <= GoNum.maxInt
  /\ exists resp1 resp2,
      GetByFilter (GoTime.Date 2025 1 3 12 0 0 0) (GoTime.Date 2025 1 3 12 0 1 0)
        (stored [[Examples.metricJan2; Examples.metricJan1]])
        (MetricsFilter.mk None None "" "" "" "" "" 1 0) = Some (resp1, None)
      /\ GetByFilter (GoTime.Date 2025 1 3 12 0 0 0) (GoTime.Date 2025 1 3 12 0 1 0)
           (stored [[Examples.metricJan2; Examples.metricJan1]])
           (Spec.nextPage (MetricsFilter.mk None None "" "" "" "" "" 1 0))
         = Some (resp2, None)
      /\ length (MetricsResponse.Data resp1 ++ MetricsResponse.Data resp2) = 2%nat.
Proof.
  split; [vm_compute; discriminate|].
  destruct (consecutive_pages_tile
              (GoTime.Date 2025 1 3 12 0 0 0) (GoTime.Date 2025 1 3 12 0 1 0)
              (stored [[Examples.metricJan2; Examples.metricJan1]])
              (MetricsFilter.mk None None "" "" "" "" "" 1 0)
              ltac:(vm_compute; discriminate))
    as (resp1 & resp2 & H1 & H2 & H3 & _).
  exists resp1, resp2. split; [exact H1|]. split; [exact H2|].
  rewrite H3. unfold Spec.Paginate.
  rewrite length_take, length_drop, MetricsFacts.sortedMatches_Permutation.
  vm_compute. reflexivity.
Defined.

End MoreQueryFacts.

(* ===================================================================== *)
(** * More on the ad and CRM repositories                                 *)
(* ===================================================================== *)

Module RepositoryFacts.
Import Domain Infra Usecase.

(** The loop [for _, x := range l { if p(x) { result = append(result, x) } }]. *)
Lemma keep_loop {A : Type} (p : A -> bool) (l : list A) : forall acc,
  foldl (fun result x => if p x then result ++ [x] else result) acc l
  = acc ++ filter (fun x => p x = true) l.
Proof.
  induction l as [|x l IH]; intros acc; simpl.
  - by rewrite app_nil_r.
  - rewrite IH. rewrite filter_cons. destruct (p x) eqn:Hp.
    + rewrite decide_True by done. by rewrite <- app_assoc.
    + rewrite decide_False by congruence. done.
Qed.

Lemma concat_fmap_app {A B : Type} (f g : B -> list A) (l : list B) :
  concat ((fun x => f x ++ g x) <$> l) ≡ₚ concat (f <$> l) ++ concat (g <$> l).
Proof.
  induction l as [|x l IH]; simpl; [done|].
  rewrite IH, <- !app_assoc. apply Permutation_app_head.
  rewrite !app_assoc. apply Permutation_app_tail, Permutation_app_comm.
Qed.

(** A scan after a store: what the scan returned before, and the stored
    records dated on a day of the scan. *)
Lemma collectRange_after_store {A : Type} (key : A -> string)
    (dateOf : A -> GoTime.Time) (m : gmap string (list A)) (batch : list A)
    (from to : GoTime.Time) :
  GoTime.regular (GoTime.loc from) ->
  (forall x, key x = GoTime.Format (dateOf x)) ->
  collectRange (storeAll key m batch) from to
  ≡ₚ collectRange m from to
     ++ filter (fun x => visitedDay from to (GoTime.dayNumber (dateOf x))) batch.
Proof.
  intros Hreg Hkey. rewrite !InfraFacts.collectRange_concat.
  trans (concat ((fun date => default [] (m !! GoTime.Format date)
                              ++ filter (fun x => key x = GoTime.Format date) batch)
                   <$> rangeDates from to)).
  { apply reflexive_eq. f_equal. apply list_fmap_ext. intros _ date _.
    apply InfraFacts.storeAll_lookup. }
  rewrite concat_fmap_app. apply Permutation_app_head.
  trans (concat ((fun k => filter (fun x => key x = k) batch)
                   <$> (GoTime.Format <$> rangeDates from to))).
  { apply reflexive_eq. f_equal. by rewrite <- list_fmap_compose. }
  rewrite InfraFacts.concat_filter_keys by by apply InfraFacts.NoDup_rangeDates_keys.
  apply reflexive_eq, list_filter_iff. intros x. rewrite Hkey.
  by apply InfraFacts.elem_of_rangeDates_keys.
Qed.

Lemma collectRange_inverted {A : Type} (data : gmap string (list A))
    (from to : GoTime.Time) :
  GoTime.After from to = true -> collectRange data from to = [].
Proof.
  intros Hafter. unfold collectRange, rangeDates.
  destruct (dayLoopFuel from to); simpl; [done|]. by rewrite Hafter.
Qed.

(** X5. Storing a batch of ad records adds to a range scan (one that
    starts in a regular zone) exactly the records of the batch dated on a
    day of the scan and takes nothing away: the scan afterwards holds the
    records it held before and those, and a batch stored twice is
    returned twice. *)
Theorem ad_store_adds_to_scan :
  forall (r : AdRepository.t) (ads : list ProcessedAdData.t) (from to : GoTime.Time),
    GoTime.regular (GoTime.loc from) ->
    let r1 := (AdRepository.Store r ads).1 in
    let r2 := (AdRepository.Store r1 ads).1 in
    let added := filter (fun ad => visitedDay from to
                                     (GoTime.dayNumber (ProcessedAdData.Date ad))) ads in
    (AdRepository.Store r ads).2 = None
    /\ (AdRepository.GetByDateRange r1 from to).1
       ≡ₚ (AdRepository.GetByDateRange r from to).1 ++ added
    /\ (AdRepository.GetByDateRange r2 from to).1
       ≡ₚ (AdRepository.GetByDateRange r from to).1 ++ added ++ added.
Proof.
  intros r ads from to Hreg r1 r2 added. split; [done|].
  assert (Hstep : forall r0,
    (AdRepository.GetByDateRange (AdRepository.Store r0 ads).1 from to).1
    ≡ₚ (AdRepository.GetByDateRange r0 from to).1 ++ added).
  { intros r0. unfold AdRepository.GetByDateRange. cbn [fst].
    rewrite AdStoreFacts.AdRepository_Store_data.
    by apply (collectRange_after_store AdRepository.dayKey ProcessedAdData.Date). }
  split; [apply Hstep|].
  unfold r2. rewrite Hstep. unfold r1. rewrite Hstep. by rewrite <- app_assoc.
Qed.

Lemma ad_store_adds_to_scan_witness :
  GoTime.regular (GoTime.loc Examples.easternNoon)
  /\ length (AdRepository.GetByDateRange
               (AdRepository.Store
                  (AdRepository.Store AdRepository.NewAdRepository
                     [Examples.tieAdFirst; Examples.adJan3]).1
                  [Examples.tieAdFirst; Examples.adJan3]).1
               (GoTime.AddDate Examples.easternNoon (-365)) Examples.easternNoon).1
     = 4%nat.
Proof.
  split; [exact GoTimeFacts.regular_easternTime|].
  destruct (ad_store_adds_to_scan AdRepository.NewAdRepository
              [Examples.tieAdFirst; Examples.adJan3]
              (GoTime.AddDate Examples.easternNoon (-365)) Examples.easternNoon
              GoTimeFacts.regular_easternTime)
    as (_ & _ & Htwice).
  rewrite Htwice. vm_compute. reflexivity.
Defined.

(** X6. A range whose first bound is after its last is scanned in no
    round: the ad scan and the CRM scan return no record and no error,
    whatever is stored, and so do the scans filtered by key, campaign,
    channel or stage. *)
Theorem inverted_range_is_empty :
  forall (ads : AdRepository.t) (crm : CRMRepository.t) (from to : GoTime.Time)
         (utm : UTMKey.t) (campaignID channel : string) (stage : OpportunityStage),
    GoTime.After from to = true ->
    AdRepository.GetByDateRange ads from to = ([], None)
    /\ AdRepository.GetByUTM ads utm from to = ([], None)
    /\ AdRepository.GetByCampaign ads campaignID from to = ([], None)
    /\ AdRepository.GetByChannel ads channel from to = ([], None)
    /\ CRMRepository.GetByDateRange crm from to = ([], None)
    /\ CRMRepository.GetByUTM crm utm from to = ([], None)
    /\ CRMRepository.GetByStage crm stage from to = ([], None).
Proof.
  intros ads crm from to utm campaignID channel stage Hafter.
  unfold AdRepository.GetByUTM, AdRepository.GetByCampaign,
    AdRepository.GetByChannel, AdRepository.GetByDateRange,
    CRMRepository.GetByUTM, CRMRepository.GetByStage,
    CRMRepository.GetByDateRange.
  rewrite !collectRange_inverted by done. done.
Qed.

Lemma inverted_range_is_empty_witness :
  GoTime.After (GoTime.Date 2025 1 4 0 0 0 0) (GoTime.Date 2025 1 2 0 0 0 0) = true
  /\ AdRepository.GetByDateRange
       (AdRepository.Store AdRepository.NewAdRepository [Examples.adJan3]).1
       (GoTime.Date 2025 1 4 0 0 0 0) (GoTime.Date 2025 1 2 0 0 0 0) = ([], None).
Proof.
  split; [reflexivity|].
  apply (inverted_range_is_empty _ CRMRepository.NewCRMRepository _ _
           (UTMKey.mk "" "" "") ""%string ""%string StageLead).
  reflexivity.
Defined.

(** X7. The three filtered ad scans return the records of the range scan
    that carry the UTM key, the campaign or the channel asked for, in the
    order of the scan; an empty argument selects the records whose field
    is empty, not all of them. The records [GetByUTM] returns for a key
    are the group the aggregation forms for that key. *)
Theorem ad_scans_filter_the_range :
  forall (r : AdRepository.t) (utm : UTMKey.t) (campaignID channel : string)
         (from to : GoTime.Time),
    let scan := (AdRepository.GetByDateRange r from to).1 in
    AdRepository.GetByUTM r utm from to
    = (filter (fun ad => adKey ad = utm) scan, None)
    /\ AdRepository.GetByCampaign r campaignID from to
       = (filter (fun ad => ProcessedAdData.CampaignID ad = campaignID) scan, None)
    /\ AdRepository.GetByChannel r channel from to
       = (filter (fun ad => ProcessedAdData.Channel ad = channel) scan, None)
    /\ default [] (groupAds scan !! utm) = (AdRepository.GetByUTM r utm from to).1.
Proof.
  intros r utm campaignID channel from to scan.
  assert (Hutm : AdRepository.GetByUTM r utm from to
                 = (filter (fun ad => adKey ad = utm) scan, None)).
  { unfold AdRepository.GetByUTM, AdRepository.GetByDateRange.
    rewrite keep_loop. cbn [app]. f_equal. apply list_filter_iff. intros ad.
    unfold adKey. destruct utm as [c s m].
    cbn [UTMKey.Campaign UTMKey.Source UTMKey.Medium].
    rewrite !andb_true_iff, !String.eqb_eq. split.
    - intros [[-> ->] ->]. done.
    - intros [= -> -> ->]. done. }
  split_and!; [done| | |].
  - unfold AdRepository.GetByCampaign, AdRepository.GetByDateRange.
    rewrite keep_loop. cbn [app]. f_equal. apply list_filter_iff. intros ad.
    apply String.eqb_eq.
  - unfold AdRepository.GetByChannel, AdRepository.GetByDateRange.
    rewrite keep_loop. cbn [app]. f_equal. apply list_filter_iff. intros ad.
    apply String.eqb_eq.
  - rewrite Hutm. apply AggregationFacts.groupAds_lookup.
Qed.

Lemma CRMRepository_Store_data (r : CRMRepository.t)
    (opportunities : list ProcessedOpportunity.t) :
  CRMRepository.data (CRMRepository.Store r opportunities).1
  = storeAll CRMRepository.dayKey (CRMRepository.data r) opportunities.
Proof. unfold CRMRepository.Store, storeAll, CRMRepository.dayKey. reflexivity. Qed.

(** X8. Opportunities are kept by the day of their creation: storing a
    batch adds to a range scan (one that starts in a regular zone) the
    opportunities of the batch created on a day of the scan and removes
    none; [GetByStage] and [GetByUTM] return the opportunities of the scan
    with that stage or that UTM key, in the order of the scan. *)
Theorem crm_store_and_scans :
  forall (r : CRMRepository.t) (opportunities : list ProcessedOpportunity.t)
         (utm : UTMKey.t) (stage : OpportunityStage) (from to : GoTime.Time),
    GoTime.regular (GoTime.loc from) ->
    let scan := (CRMRepository.GetByDateRange r from to).1 in
    (CRMRepository.Store r opportunities).2 = None
    /\ (CRMRepository.GetByDateRange (CRMRepository.Store r opportunities).1 from to).1
       ≡ₚ scan
          ++ filter (fun opp => visitedDay from to
                       (GoTime.dayNumber (ProcessedOpportunity.CreatedAt opp)))
               opportunities
    /\ CRMRepository.GetByStage r stage from to
       = (filter (fun opp => ProcessedOpportunity.Stage opp = stage) scan, None)
    /\ CRMRepository.GetByUTM r utm from to
       = (filter (fun opp => oppKey opp = utm) scan, None).
Proof.
  intros r opportunities utm stage from to Hreg scan. split_and!; [done| | |].
  - unfold scan, CRMRepository.GetByDateRange. cbn [fst].
    rewrite CRMRepository_Store_data.
    by apply (collectRange_after_store CRMRepository.dayKey
                ProcessedOpportunity.CreatedAt).
  - unfold CRMRepository.GetByStage, CRMRepository.GetByDateRange.
    rewrite keep_loop. cbn [app]. f_equal. apply list_filter_iff. intros opp.
    apply String.eqb_eq.
  - unfold CRMRepository.GetByUTM, CRMRepository.GetByDateRange.
    rewrite keep_loop. cbn [app]. f_equal. apply list_filter_iff. intros opp.
    unfold oppKey. destruct utm as [c s m].
    cbn [UTMKey.Campaign UTMKey.Source UTMKey.Medium].
    rewrite !andb_true_iff, !String.eqb_eq. split.
    + intros [[-> ->] ->]. done.
    + intros [= -> -> ->]. done.
Qed.

Lemma crm_store_and_scans_witness :
  GoTime.regular (GoTime.loc (GoTime.Date 2025 1 1 0 0 0 0))
  /\ CRMRepository.GetByStage
       (CRMRepository.Store CRMRepository.NewCRMRepository Examples.saleOpps).1
       StageLead (GoTime.Date 2025 1 1 0 0 0 0) (GoTime.Date 2025 1 2 0 0 0 0)
     = ([Examples.saleOpp "opp-2" StageLead 0%float;
         Examples.saleOpp "opp-5" StageLead 0%float], None).
Proof.
  split; [apply GoTimeFacts.regular_fixed|].
  destruct (crm_store_and_scans
              (CRMRepository.Store CRMRepository.NewCRMRepository Examples.saleOpps).1
              [] (UTMKey.mk "" "" "") StageLead
              (GoTime.Date 2025 1 1 0 0 0 0) (GoTime.Date 2025 1 2 0 0 0 0)
              (GoTimeFacts.regular_fixed 0))
    as (_ & _ & Hstage & _).
  rewrite Hstage. vm_compute. reflexivity.
Defined.

(** X9. With both bounds in one fixed zone (UTC, as for the bounds the
    handlers parse) a scan of a batch stored into a new repository
    returns the records dated on the days from the day of [from] to the
    day of [to]; the day of [to] is left out when the clock reading of
    [from] is later than that of [to]. So the batch comes back whole when
    its days lie between those of the bounds and [from] is no later in
    the day than [to]. *)
Theorem fixed_zone_scan_days :
  forall (batch : list ProcessedAdData.t) (from to : GoTime.Time) (offset : Z),
    GoTime.loc from = GoTime.FixedZone offset ->
    GoTime.loc to = GoTime.FixedZone offset ->
    let r := (AdRepository.Store AdRepository.NewAdRepository batch).1 in
    let lastDay :=
      GoTime.dayNumber to
      - (if GoTime.clockNanos from <=? GoTime.clockNanos to then 0 else 1) in
    (AdRepository.GetByDateRange r from to).1
    ≡ₚ filter (fun ad => GoTime.dayNumber from
                         <= GoTime.dayNumber (ProcessedAdData.Date ad) <= lastDay)
         batch
    /\ (AdRepository.GetByDateRange r from to).2 = None
    /\ (GoTime.clockNanos from <= GoTime.clockNanos to ->
        (forall ad, ad ∈ batch ->
           GoTime.dayNumber from <= GoTime.dayNumber (ProcessedAdData.Date ad)
             <= GoTime.dayNumber to) ->
        (AdRepository.GetByDateRange r from to).1 ≡ₚ batch).
Proof.
  intros batch from to offset Hfrom Hto r lastDay.
  assert (Hreg : GoTime.regular (GoTime.loc from)).
  { rewrite Hfrom. apply GoTimeFacts.regular_fixed. }
  assert (Hscan : (AdRepository.GetByDateRange r from to).1
    ≡ₚ filter (fun ad => GoTime.dayNumber from
                         <= GoTime.dayNumber (ProcessedAdData.Date ad) <= lastDay)
         batch).
  { subst r. unfold AdRepository.GetByDateRange. cbn [fst].
    rewrite AdStoreFacts.AdRepository_Store_data.
    rewrite (InfraFacts.collectRange_storeAll_key AdRepository.dayKey
               ProcessedAdData.Date) by done.
    apply reflexive_eq, list_filter_iff. intros ad. unfold visitedDay.
    rewrite (AdStoreFacts.rounds_fixed_days from to offset Hfrom Hto).
    subst lastDay. destruct (_ <=? _); lia. }
  split_and!; [exact Hscan|done|].
  intros Hclock Hcover. rewrite Hscan. rewrite ListFacts.filter_all; [done|].
  intros ad Had. specialize (Hcover ad Had). subst lastDay.
  rewrite (proj2 (Z.leb_le _ _) Hclock). lia.
Qed.

Lemma fixed_zone_scan_days_witness :
  GoTime.loc (GoTime.Date 2025 1 1 0 0 0 0) = GoTime.FixedZone 0
  /\ GoTime.loc (GoTime.Date 2025 1 3 0 0 0 0) = GoTime.FixedZone 0
  /\ (AdRepository.GetByDateRange
        (AdRepository.Store AdRepository.NewAdRepository
           [Examples.tieAdFirst; Examples.adJan3; Examples.tieAdSecond]).1
        (GoTime.Date 2025 1 1 0 0 0 0) (GoTime.Date 2025 1 3 0 0 0 0)).1
     ≡ₚ [Examples.tieAdFirst; Examples.adJan3; Examples.tieAdSecond].
Proof.
  split; [reflexivity|]. split; [reflexivity|].
  apply (fixed_zone_scan_days
           [Examples.tieAdFirst; Examples.adJan3; Examples.tieAdSecond]
           (GoTime.Date 2025 1 1 0 0 0 0) (GoTime.Date 2025 1 3 0 0 0 0) 0
           eq_refl eq_refl).
  - vm_compute. discriminate.
  - intros ad Had.
    apply elem_of_cons in Had as [->|Had]; [vm_compute; split; discriminate|].
    apply elem_of_cons in Had as [->|Had]; [vm_compute; split; discriminate|].
    apply list_elem_of_singleton in Had as ->. vm_compute. split; discriminate.
Defined.

End RepositoryFacts.

(* ===================================================================== *)
(** * More on the transform stage                                         *)
(* ===================================================================== *)

Module TransformMoreFacts.
Import Domain Usecase.

Section Transform.
Variable time_Parse : string -> string -> option GoTime.Time.

Lemma processOpp_spec clock since st opp :
  processOpp time_Parse clock since st opp
  = match Spec.ParseFlexibleDate time_Parse (Opportunity.CreatedAt opp)
            crmDateFormats with
    | None => mkCrmLoop (processedCRM st)
                (failuresCRM st ++ [("crm", "date_parse")%string])
    | Some _ =>
        match Spec.TransformOpp time_Parse since opp with
        | None => st
        | Some emit =>
            mkCrmLoop
              (processedCRM st ++ [emit (clock (length (processedCRM st)))])
              (failuresCRM st)
        end
    end.
Proof.
  unfold processOpp, Spec.TransformOpp.
  rewrite TransformFacts.parseWithFormats_spec by done.
  destruct (Spec.ParseFlexibleDate time_Parse (Opportunity.CreatedAt opp)
              crmDateFormats) as [createdAt|]; [|done].
  rewrite !TransformFacts.normalizeUTM_spec.
  destruct since as [s|]; [|done].
  unfold GoTime.Before.
  destruct (Z.ltb_spec (GoTime.unixNano createdAt) (GoTime.unixNano s)).
  - by rewrite bool_decide_eq_true_2.
  - by rewrite bool_decide_eq_false_2 by lia.
Qed.

Lemma processOpps_fold clock since opportunities : forall st,
  let out := foldl (processOpp time_Parse clock since) st opportunities in
  processedCRM out
  = processedCRM st
    ++ imap (fun n emit => emit (clock (length (processedCRM st) + n)%nat))
         (omap (Spec.TransformOpp time_Parse since) opportunities)
  /\ failuresCRM out
     = failuresCRM st
       ++ replicate (length (Spec.unparseableOpps time_Parse opportunities))
            ("crm", "date_parse")%string.
Proof.
  induction opportunities as [|opp opportunities IH]; intros st; simpl.
  - by rewrite !app_nil_r.
  - destruct (IH (processOpp time_Parse clock since st opp)) as [IHp IHf].
    rewrite IHp, IHf. clear IH IHp IHf.
    rewrite processOpp_spec. unfold Spec.unparseableOpps.
    rewrite filter_cons. unfold Spec.TransformOpp.
    destruct (Spec.ParseFlexibleDate time_Parse (Opportunity.CreatedAt opp)
                crmDateFormats) as [createdAt|] eqn:Hp.
    + rewrite decide_False by done.
      match goal with
      | |- context [match ?t with Some _ => _ | None => _ end] =>
          destruct t as [emit|] eqn:He
      end; [|done].
      simpl. rewrite <- app_assoc. simpl. rewrite Nat.add_0_r.
      split; [|done]. do 2 f_equal. rewrite length_app. simpl.
      apply imap_ext. intros n e _. simpl. do 2 f_equal. lia.
    + rewrite decide_True by done. simpl.
      split; [done|]. by rewrite <- app_assoc.
Qed.

End Transform.

(** X10. The CRM transform treats every opportunity on its own: one
    whose creation date matches none of the five CRM layouts is dropped
    and counted under "crm"/"date_parse", one created strictly before
    [since] is dropped and not counted, and every other one is emitted in
    its place in the order of the batch, with its id, email, stage and
    amount as they came (the stage is not checked against the four known
    stages), its empty UTM fields replaced by "unknown", and the clock
    reading taken when it is emitted. *)
Theorem processCRMData_records_independent :
  forall (time_Parse : string -> string -> option GoTime.Time)
         (clock : nat -> GoTime.Time) (opportunities : list Opportunity.t)
         (since : option GoTime.Time),
    let out := processCRMData time_Parse clock opportunities since in
    processedCRM out
    = imap (fun n emit => emit (clock n))
        (omap (Spec.TransformOpp time_Parse since) opportunities)
    /\ failuresCRM out
       = replicate (length (Spec.unparseableOpps time_Parse opportunities))
           ("crm", "date_parse")%string.
Proof.
  intros time_Parse clock opportunities since. unfold processCRMData.
  apply (processOpps_fold time_Parse clock since opportunities (mkCrmLoop [] [])).
Qed.

Lemma NormalizeUTM_nonempty (value : string) : Spec.NormalizeUTM value <> ""%string.
Proof. by destruct value. Qed.

Lemma omap_filter_length {A B : Type} (f : A -> option B) (P : A -> Prop)
    `{forall x, Decision (P x)} (l : list A) :
  (forall x, P x -> f x = None) ->
  (length (omap f l) + length (filter P l) <= length l)%nat.
Proof.
  intros Hf. induction l as [|x l IH]; [done|].
  rewrite filter_cons. cbn [omap list_omap]. case_decide as HP.
  - rewrite (Hf x HP). cbn [length]. lia.
  - destruct (f x); cbn [length]; lia.
Qed.

Lemma omap_filter_length_eq {A B : Type} (f : A -> option B) (P : A -> Prop)
    `{forall x, Decision (P x)} (l : list A) :
  (forall x, P x <-> f x = None) ->
  (length (omap f l) + length (filter P l) = length l)%nat.
Proof.
  intros Hf. induction l as [|x l IH]; [done|].
  rewrite filter_cons. cbn [omap list_omap]. case_decide as HP.
  - rewrite (proj1 (Hf x) HP). cbn [length]. lia.
  - destruct (f x) eqn:Hfx; cbn [length]; [lia|].
    exfalso. by apply HP, Hf.
Qed.

Lemma elem_of_imap_omap {A B C : Type} (g : nat -> B -> C) (f : A -> option B)
    (l : list A) (c : C) :
  c ∈ imap g (omap f l) -> exists n x b, x ∈ l /\ f x = Some b /\ c = g n b.
Proof.
  intros (n & b & -> & Hb)%elem_of_lookup_imap.
  assert (Hin : b ∈ omap f l) by by eapply list_elem_of_lookup_2.
  apply list_elem_of_omap in Hin as (x & Hx & Hfx). by exists n, x, b.
Qed.

(** X11. What the transform never emits and never miscounts: an emitted
    ad record or opportunity has no empty UTM field and is not dated
    before [since]; no record is both emitted and counted as a failure,
    and without [since] every record of a batch is one or the other. *)
Theorem transform_keeps_its_promises :
  forall (time_Parse : string -> string -> option GoTime.Time)
         (clock : nat -> GoTime.Time) (ads : list AdPerformance.t)
         (opportunities : list Opportunity.t) (since : option GoTime.Time),
    let outAds := processAdsData time_Parse clock ads since in
    let outCRM := processCRMData time_Parse clock opportunities since in
    (forall p, p ∈ processed outAds ->
       ProcessedAdData.UTMCampaign p <> ""%string
       /\ ProcessedAdData.UTMSource p <> ""%string
       /\ ProcessedAdData.UTMMedium p <> ""%string
       /\ forall s, since = Some s ->
            GoTime.unixNano s <= GoTime.unixNano (ProcessedAdData.Date p))
    /\ (forall p, p ∈ processedCRM outCRM ->
          ProcessedOpportunity.UTMCampaign p <> ""%string
          /\ ProcessedOpportunity.UTMSource p <> ""%string
          /\ ProcessedOpportunity.UTMMedium p <> ""%string
          /\ forall s, since = Some s ->
               GoTime.unixNano s <= GoTime.unixNano (ProcessedOpportunity.CreatedAt p))
    /\ (length (processed outAds) + length (failures outAds) <= length ads)%nat
    /\ (length (processedCRM outCRM) + length (failuresCRM outCRM)
        <= length opportunities)%nat
    /\ (since = None ->
        (length (processed outAds) + length (failures outAds) = length ads)%nat
        /\ (length (processedCRM outCRM) + length (failuresCRM outCRM)
            = length opportunities)%nat).
Proof.
  intros time_Parse clock ads opportunities since outAds outCRM.
  destruct (TransformFacts.processAds_fold time_Parse clock since ads
              (mkAdsLoop [] [])) as [Hpa Hfa].
  destruct (processOpps_fold time_Parse clock since opportunities
              (mkCrmLoop [] [])) as [Hpc Hfc].
  fold (processAdsData time_Parse clock ads since) in Hpa, Hfa.
  fold (processCRMData time_Parse clock opportunities since) in Hpc, Hfc.
  fold outAds in Hpa, Hfa. fold outCRM in Hpc, Hfc.
  cbn [processed failures processedCRM failuresCRM app] in Hpa, Hfa, Hpc, Hfc.
  split_and!.
  - intros p Hp. rewrite Hpa in Hp.
    apply elem_of_imap_omap in Hp as (n & ad & emit & _ & Hemit & ->).
    unfold Spec.TransformAd in Hemit.
    destruct (Spec.ParseFlexibleDate _ _ _) as [date|]; [|done].
    destruct since as [s|].
    + destruct (bool_decide_reflect (GoTime.unixNano date < GoTime.unixNano s));
        [done|].
      injection Hemit as <-. cbn.
      split_and!; try apply NormalizeUTM_nonempty.
      intros s' [= <-]. lia.
    + injection Hemit as <-. cbn.
      split_and!; try apply NormalizeUTM_nonempty. done.
  - intros p Hp. rewrite Hpc in Hp.
    apply elem_of_imap_omap in Hp as (n & opp & emit & _ & Hemit & ->).
    unfold Spec.TransformOpp in Hemit.
    destruct (Spec.ParseFlexibleDate _ _ _) as [createdAt|]; [|done].
    destruct since as [s|].
    + destruct (bool_decide_reflect
                  (GoTime.unixNano createdAt < GoTime.unixNano s)); [done|].
      injection Hemit as <-. cbn.
      split_and!; try apply NormalizeUTM_nonempty.
      intros s' [= <-]. lia.
    + injection Hemit as <-. cbn.
      split_and!; try apply NormalizeUTM_nonempty. done.
  - rewrite Hpa, Hfa, length_imap, length_replicate.
    apply omap_filter_length. intros ad Hnone.
    by apply TransformFacts.TransformAd_unparseable.
  - rewrite Hpc, Hfc, length_imap, length_replicate.
    apply omap_filter_length. intros opp Hnone.
    unfold Spec.TransformOpp. by rewrite Hnone.
  - intros ->. split.
    + rewrite Hpa, Hfa, length_imap, length_replicate.
      apply omap_filter_length_eq. intros ad. unfold Spec.TransformAd.
      destruct (Spec.ParseFlexibleDate _ _ _); split; done.
    + rewrite Hpc, Hfc, length_imap, length_replicate.
      apply omap_filter_length_eq. intros opp. unfold Spec.TransformOpp.
      destruct (Spec.ParseFlexibleDate _ _ _); split; done.
Qed.

End TransformMoreFacts.

(* ===================================================================== *)
(** * More on the aggregation                                             *)
(* ===================================================================== *)

Module AggregationMoreFacts.
Import Domain Usecase.

Lemma groupOpps_lookup (opportunities : list ProcessedOpportunity.t)
    (utm : UTMKey.t) :
  default [] (groupOpps opportunities !! utm)
  = filter (fun opp => oppKey opp = utm) opportunities.
Proof.
  unfold groupOpps.
  change (foldl _ ∅ opportunities) with (Infra.storeAll oppKey ∅ opportunities).
  by rewrite InfraFacts.storeAll_lookup, lookup_empty.
Qed.

(** The jobs: the keys that some ad record carries, each once. *)
Lemma elem_of_groupAds_keys (ads : list ProcessedAdData.t) (utm : UTMKey.t) :
  utm ∈ (map_to_list (groupAds ads)).*1
  <-> exists ad, ad ∈ ads /\ adKey ad = utm.
Proof.
  rewrite list_elem_of_fmap. split.
  - intros ([k group] & -> & Hin%elem_of_map_to_list). cbn [fst].
    pose proof (AggregationFacts.groupAds_lookup ads k) as Hl.
    rewrite Hin in Hl. cbn [default] in Hl.
    assert (Hne : group <> []).
    { unfold groupAds in Hin.
      eapply (InfraFacts.storeAll_nonempty adKey ads ∅); [|exact Hin].
      intros k' xs Hx. by rewrite lookup_empty in Hx. }
    destruct group as [|ad group]; [done|].
    assert (Had : ad ∈ filter (fun ad => adKey ad = k) ads) by (rewrite <- Hl; left).
    apply list_elem_of_filter in Had as [? ?]. by exists ad.
  - intros (ad & Hin & <-).
    pose proof (AggregationFacts.groupAds_lookup ads (adKey ad)) as Hl.
    destruct (groupAds ads !! adKey ad) as [group|] eqn:Hg.
    + exists (adKey ad, group). split; [done|]. by apply elem_of_map_to_list.
    + cbn [default] in Hl.
      assert (Had : ad ∈ filter (fun ad' => adKey ad' = adKey ad) ads)
        by by apply list_elem_of_filter.
      rewrite <- Hl in Had. by apply elem_of_nil in Had.
Qed.

Lemma omap_Forall2 {A B : Type} (f : A -> option B) (l : list A) :
  (forall x, x ∈ l -> is_Some (f x)) ->
  Forall2 (fun x y => f x = Some y) l (omap f l).
Proof.
  induction l as [|x l IH]; intros Hf; [constructor|].
  cbn [omap list_omap].
  destruct (Hf x ltac:(left)) as [y Hy]. rewrite Hy.
  constructor; [done|]. apply IH. intros x' Hx'. apply Hf. by right.
Qed.

Lemma snd_imap_pair {A B : Type} (f : nat -> A) (l : list B) :
  (imap (fun n x => (f n, x)) l).*2 = l.
Proof.
  revert f. induction l as [|x l IH]; intros f; [done|].
  cbn [imap fmap list_fmap snd]. f_equal. apply (IH (f ∘ S)).
Qed.

(** What the pool returns, job by job. *)
Lemma pool_results workerPool schedule clock ads opportunities :
  0 < workerPool ->
  (forall keys, schedule keys ≡ₚ keys) ->
  Forall2 (fun job m =>
             calculateMetricForUTM (clock job.1)
               (filter (fun ad => adKey ad = job.2) ads)
               (filter (fun opp => oppKey opp = job.2) opportunities) job.2
             = Some m
             /\ Spec.metricKey m = job.2)
    (imap (fun n utm => (n, utm)) (schedule (map_to_list (groupAds ads)).*1))
    (calculateMetricsWithWorkerPool workerPool schedule clock ads opportunities).
Proof.
  intros Hpool Hperm. unfold calculateMetricsWithWorkerPool.
  rewrite (proj2 (Z.leb_gt _ _) Hpool).
  change (map fst (map_to_list (groupAds ads))) with (map_to_list (groupAds ads)).*1.
  set (jobs := imap (fun n utm => (n, utm)) (schedule (map_to_list (groupAds ads)).*1)).
  assert (Hjob : forall job, job ∈ jobs ->
            exists ad, ad ∈ ads /\ adKey ad = job.2).
  { intros [n utm] (i & u & [= -> ->] & Hu)%elem_of_lookup_imap.
    apply list_elem_of_lookup_2 in Hu. rewrite Hperm in Hu.
    by apply elem_of_groupAds_keys in Hu. }
  eapply Forall2_impl; [apply omap_Forall2|].
  - intros [n utm] Hin. destruct (Hjob _ Hin) as (ad & Had & Hkey).
    cbn [snd] in Hkey. rewrite AggregationFacts.groupAds_lookup.
    destruct (AggregationFacts.calculateMetricForUTM_Some (clock n)
                (filter (fun ad => adKey ad = utm) ads)
                (default [] (groupOpps opportunities !! utm)) utm)
      as (m & -> & _); [|done].
    intros Hnil. assert (Hf : ad ∈ filter (fun ad => adKey ad = utm) ads)
      by by apply list_elem_of_filter.
    rewrite Hnil in Hf. by apply elem_of_nil in Hf.
  - intros [n utm] m. cbn [fst snd].
    rewrite AggregationFacts.groupAds_lookup, groupOpps_lookup. intros Hm.
    split; [done|].
    destruct (filter (fun ad => adKey ad = utm) ads) as [|ad group] eqn:Hg.
    { by rewrite AggregationFacts.calculateMetricForUTM_nil in Hm. }
    destruct (AggregationFacts.calculateMetricForUTM_Some (clock n) (ad :: group)
                (filter (fun opp => oppKey opp = utm) opportunities) utm
                ltac:(done)) as (m' & Hm' & _ & _ & _ & Hk).
    congruence.
Qed.

(** X12. With at least one worker, and whatever the order in which the
    jobs are taken and completed, the aggregation emits exactly one
    bucket for every UTM key that an ad record carries: no key twice, no
    key of an ad record left out. Each bucket is computed from all the ad
    records and all the opportunities that carry its key, in the order of
    the input, and from nothing else. *)
Theorem one_bucket_per_ad_key :
  forall (workerPool : Z) (schedule : list UTMKey.t -> list UTMKey.t)
         (clock : nat -> GoTime.Time) (ads : list ProcessedAdData.t)
         (opportunities : list ProcessedOpportunity.t),
    0 < workerPool ->
    (forall keys, schedule keys ≡ₚ keys) ->
    let out := calculateMetricsWithWorkerPool workerPool schedule clock
                 ads opportunities in
    NoDup (Spec.metricKey <$> out)
    /\ (forall ad, ad ∈ ads -> exists m, m ∈ out /\ Spec.metricKey m = adKey ad)
    /\ (forall m, m ∈ out ->
          exists n,
            calculateMetricForUTM (clock n)
              (filter (fun ad => adKey ad = Spec.metricKey m) ads)
              (filter (fun opp => oppKey opp = Spec.metricKey m) opportunities)
              (Spec.metricKey m)
            = Some m).
Proof.
  intros workerPool schedule clock ads opportunities Hpool Hperm out.
  pose proof (pool_results workerPool schedule clock ads opportunities Hpool Hperm)
    as Hres. fold out in Hres.
  assert (Hkeys : Spec.metricKey <$> out = schedule (map_to_list (groupAds ads)).*1).
  { trans ((imap (fun n utm => (n, utm))
              (schedule (map_to_list (groupAds ads)).*1)).*2).
    - symmetry. apply list_eq_Forall2, Forall2_fmap.
      eapply Forall2_impl; [exact Hres|]. by intros job m [_ ->].
    - apply snd_imap_pair. }
  split_and!.
  - rewrite Hkeys, Hperm. apply NoDup_fst_map_to_list.
  - intros ad Had.
    assert (Hin : adKey ad ∈ Spec.metricKey <$> out).
    { rewrite Hkeys, Hperm. apply elem_of_groupAds_keys. by exists ad. }
    apply list_elem_of_fmap in Hin as (m & Hk & Hm). by exists m.
  - intros m Hm.
    apply list_elem_of_lookup_1 in Hm as [i Hi].
    destruct (Forall2_lookup_r _ _ _ _ _ Hres Hi) as ([n utm] & _ & Hcalc & Hk).
    cbn [fst snd] in Hcalc, Hk. exists n. by rewrite Hk.
Qed.

Lemma one_bucket_per_ad_key_witness :
  0 < 2
  /\ (forall keys : list UTMKey.t, reverse keys ≡ₚ keys)
  /\ NoDup (Spec.metricKey
              <$> calculateMetricsWithWorkerPool 2 reverse
                    (fun _ => GoTime.Date 2025 1 3 0 0 0 0)
                    [Examples.tieAdFirst; Examples.adJan3; Examples.tieAdSecond]
                    Examples.saleOpps).
Proof.
  split; [done|]. split; [apply reverse_Permutation|].
  apply (one_bucket_per_ad_key 2 reverse (fun _ => GoTime.Date 2025 1 3 0 0 0 0)
           [Examples.tieAdFirst; Examples.adJan3; Examples.tieAdSecond]
           Examples.saleOpps); [done|apply reverse_Permutation].
Defined.

Lemma foldr_add_Permutation (l1 l2 : list Z) :
  l1 ≡ₚ l2 -> foldr Z.add 0 l1 = foldr Z.add 0 l2.
Proof. induction 1; simpl; lia. Qed.

(** X13. The integer totals of a bucket, and the two conversion rates
    computed from them, do not depend on the order in which the records
    of the group are met: clicks, impressions, leads, opportunities and
    closed-won are the same for any rearrangement of the ad records and
    of the opportunities. (Cost and revenue are sums of floats taken in
    the order of the records.) *)
Theorem integer_totals_ignore_order :
  forall (now now' : GoTime.Time) (ads ads' : list ProcessedAdData.t)
         (opportunities opportunities' : list ProcessedOpportunity.t)
         (utm : UTMKey.t),
    ads <> [] -> ads ≡ₚ ads' -> opportunities ≡ₚ opportunities' ->
    exists m m',
      calculateMetricForUTM now ads opportunities utm = Some m
      /\ calculateMetricForUTM now' ads' opportunities' utm = Some m'
      /\ BusinessMetrics.Clicks m = BusinessMetrics.Clicks m'
      /\ BusinessMetrics.Impressions m = BusinessMetrics.Impressions m'
      /\ BusinessMetrics.Leads m = BusinessMetrics.Leads m'
      /\ BusinessMetrics.Opportunities m = BusinessMetrics.Opportunities m'
      /\ BusinessMetrics.ClosedWon m = BusinessMetrics.ClosedWon m'
      /\ BusinessMetrics.CVRLeadToOpp m = BusinessMetrics.CVRLeadToOpp m'
      /\ BusinessMetrics.CVROppToWon m = BusinessMetrics.CVROppToWon m'.
Proof.
  intros now now' ads ads' opportunities opportunities' utm Hne Hads Hopps.
  assert (Hne' : ads' <> []).
  { intros ->. by apply Permutation_nil_r in Hads. }
  unfold calculateMetricForUTM.
  destruct (length ads =? 0)%nat eqn:Hlen;
    [apply Nat.eqb_eq in Hlen; by destruct ads|].
  destruct (length ads' =? 0)%nat eqn:Hlen';
    [apply Nat.eqb_eq in Hlen'; by destruct ads'|].
  destruct (AggregationFacts.addAd_fold_totals ads adTotals0) as (Hc & Hi & _).
  destruct (AggregationFacts.addAd_fold_totals ads' adTotals0) as (Hc' & Hi' & _).
  destruct (AggregationFacts.addOpp_fold_totals opportunities oppTotals0 0 0 0
              eq_refl eq_refl eq_refl) as (Hl & Ho & Hw & _).
  destruct (AggregationFacts.addOpp_fold_totals opportunities' oppTotals0 0 0 0
              eq_refl eq_refl eq_refl) as (Hl' & Ho' & Hw' & _).
  assert (Eclicks : totalClicks (foldl addAd adTotals0 ads)
                    = totalClicks (foldl addAd adTotals0 ads')).
  { rewrite Hc, Hc'. rewrite !(AggregationFacts.foldl_intAdd _ 0).
    f_equal. f_equal. apply foldr_add_Permutation. by rewrite Hads. }
  assert (Eimpr : totalImpressions (foldl addAd adTotals0 ads)
                  = totalImpressions (foldl addAd adTotals0 ads')).
  { rewrite Hi, Hi'. rewrite !(AggregationFacts.foldl_intAdd _ 0).
    f_equal. f_equal. apply foldr_add_Permutation. by rewrite Hads. }
  assert (Eleads : leads (foldl addOpp oppTotals0 opportunities)
                   = leads (foldl addOpp oppTotals0 opportunities')).
  { rewrite Hl, Hl'. unfold Spec.atStage. by rewrite Hopps. }
  assert (Eopps : opps (foldl addOpp oppTotals0 opportunities)
                  = opps (foldl addOpp oppTotals0 opportunities')).
  { rewrite Ho, Ho'. unfold Spec.atStage. by rewrite Hopps. }
  assert (Ewon : closedWon (foldl addOpp oppTotals0 opportunities)
                 = closedWon (foldl addOpp oppTotals0 opportunities')).
  { rewrite Hw, Hw'. unfold Spec.atStage. by rewrite Hopps. }
  eexists _, _. split; [reflexivity|]. split; [reflexivity|].
  cbn [BusinessMetrics.Clicks BusinessMetrics.Impressions BusinessMetrics.Leads
       BusinessMetrics.Opportunities BusinessMetrics.ClosedWon
       BusinessMetrics.CVRLeadToOpp BusinessMetrics.CVROppToWon].
  split_and!; try done.
  - by rewrite Eleads, Eopps.
  - by rewrite Eopps, Ewon.
Qed.

Lemma integer_totals_ignore_order_witness :
  exists m m',
    calculateMetricForUTM (GoTime.Date 2025 1 3 0 0 0 0)
      [Examples.tieAdFirst; Examples.tieAdSecond] Examples.saleOpps
      (UTMKey.mk "sale" "unknown" "unknown") = Some m
    /\ calculateMetricForUTM (GoTime.Date 2025 1 4 0 0 0 0)
         [Examples.tieAdSecond; Examples.tieAdFirst] (reverse Examples.saleOpps)
         (UTMKey.mk "sale" "unknown" "unknown") = Some m'
    /\ BusinessMetrics.Clicks m = BusinessMetrics.Clicks m'
    /\ BusinessMetrics.Leads m = BusinessMetrics.Leads m'.
Proof.
  destruct (integer_totals_ignore_order
              (GoTime.Date 2025 1 3 0 0 0 0) (GoTime.Date 2025 1 4 0 0 0 0)
              [Examples.tieAdFirst; Examples.tieAdSecond]
              [Examples.tieAdSecond; Examples.tieAdFirst]
              Examples.saleOpps (reverse Examples.saleOpps)
              (UTMKey.mk "sale" "unknown" "unknown"))
    as (m & m' & Hm & Hm' & Hc & _ & Hl & _).
  - done.
  - apply Permutation_swap.
  - symmetry. apply reverse_Permutation.
  - by exists m, m'.
Defined.

End AggregationMoreFacts.

(* ===================================================================== *)
(** * The metrics service over the repository                             *)
(* ===================================================================== *)

Module ServiceFacts.
Import Domain Infra Usecase.

Lemma map_fmap {A B : Type} (f : A -> B) (l : list A) : map f l = f <$> l.
Proof. induction l as [|x l IH]; [done|]. simpl. by rewrite IH. Qed.

(** X14. When metrics are stored for the day asked for, [ExportMetrics]
    calls the export client once, with one row per stored metric of that
    day, in the order they were stored, every row carrying the date asked
    for; it returns nil when the client does, and the client's error
    behind "failed to export metrics: " otherwise. *)
Theorem export_sends_the_day :
  forall (batches : list (list BusinessMetrics.t))
         (export : list ExportData.t -> GoTime.Time -> option GoNum.error)
         (date : GoTime.Time),
    filter (fun m => GoTime.dayNumber (BusinessMetrics.Date m) = GoTime.dayNumber date)
      (concat batches) <> [] ->
    let rows :=
      map toExportData
        (filter (fun m => GoTime.dayNumber (BusinessMetrics.Date m)
                          = GoTime.dayNumber date) (concat batches)) in
    let out := ExportMetrics
                 (MetricsRepository.GetByDate (MetricsRepository.stored batches))
                 export date in
    exportCalls out = [(rows, date)]
    /\ (forall row, row ∈ rows -> ExportData.Date row = GoTime.Format date)
    /\ exportErr out
       = match export rows date with
         | None => None
         | Some err => Some ("failed to export metrics: " +:+ err)
         end.
Proof.
  intros batches export date Hne rows out.
  assert (Hget : MetricsRepository.GetByDate (MetricsRepository.stored batches) date
                 = (filter (fun m => GoTime.dayNumber (BusinessMetrics.Date m)
                                     = GoTime.dayNumber date) (concat batches), None)).
  { rewrite ExportFacts.GetByDate_stored. f_equal.
    apply list_filter_iff. intros m. unfold MetricsRepository.dayKey. split.
    - apply GoTimeFacts.Format_inj_day.
    - apply GoTimeFacts.Format_day. }
  subst out. unfold ExportMetrics. rewrite Hget.
  destruct (filter _ (concat batches)) as [|m ms] eqn:Hf; [done|].
  change ((length (m :: ms) =? 0)%nat) with false. cbv iota. fold rows.
  split_and!.
  - by destruct (export rows date).
  - intros row Hrow. unfold rows in Hrow. rewrite map_fmap in Hrow.
    apply list_elem_of_fmap in Hrow as (m' & -> & Hm').
    rewrite <- Hf in Hm'. apply list_elem_of_filter in Hm' as [Hday _].
    cbn [toExportData ExportData.Date]. by apply GoTimeFacts.Format_day.
  - by destruct (export rows date).
Qed.

Lemma export_sends_the_day_witness :
  filter (fun m => GoTime.dayNumber (BusinessMetrics.Date m)
                   = GoTime.dayNumber (GoTime.Date 2025 1 1 15 30 0 0))
    (concat [[Examples.metricJan1; Examples.metricJan2]; [Examples.metricJan1]]) <> []
  /\ exportCalls
       (ExportMetrics
          (MetricsRepository.GetByDate
             (MetricsRepository.stored
                [[Examples.metricJan1; Examples.metricJan2]; [Examples.metricJan1]]))
          (fun _ _ => Some "unreachable"%string) (GoTime.Date 2025 1 1 15 30 0 0))
     = [([toExportData Examples.metricJan1; toExportData Examples.metricJan1],
         GoTime.Date 2025 1 1 15 30 0 0)].
Proof.
  split; [vm_compute; discriminate|].
  destruct (export_sends_the_day
              [[Examples.metricJan1; Examples.metricJan2]; [Examples.metricJan1]]
              (fun _ _ => Some "unreachable"%string) (GoTime.Date 2025 1 1 15 30 0 0))
    as (Hcalls & _).
  - vm_compute. discriminate.
  - rewrite Hcalls. vm_compute. reflexivity.
Defined.

Section Query.
Context `{GoSort.SliceSorter}.

(** The filter of a query that names one field. *)
Lemma matchesFilter_one (m : BusinessMetrics.t) from to channel utmCampaign
    limit offset :
  MetricsRepository.matchesFilter m
    (MetricsFilter.mk from to channel "" utmCampaign "" "" limit offset) = true
  <-> (channel = ""%string \/ BusinessMetrics.Channel m = channel)
      /\ (utmCampaign = ""%string \/ BusinessMetrics.UTMCampaign m = utmCampaign).
Proof.
  unfold MetricsRepository.matchesFilter.
  cbn [MetricsFilter.Channel MetricsFilter.CampaignID MetricsFilter.UTMCampaign
       MetricsFilter.UTMSource MetricsFilter.UTMMedium].
  rewrite <- !MoreQueryFacts.field_matches.
  change (MetricsRepository.strNonEmpty "" && _) with false.
  repeat match goal with
         | |- context [if ?c then false else _] => destruct c
         end; simpl; intuition congruence.
Qed.

Lemma query_of_stored now1 now2 batches filter failure label :
  GoTime.regular (GoTime.loc (MetricsRepository.scanBounds now1 now2 filter).1) ->
  exists resp,
    runQuery (MetricsRepository.GetByFilter now1 now2
                (MetricsRepository.stored batches)) filter failure label
    = Some (mkQueryOutcome (Some resp) None [label])
    /\ MetricsResponse.Total resp
       = Z.of_nat (length (base.filter
            (fun m => MetricsRepository.matchesFilter m filter = true
                      /\ visitedDay (MetricsRepository.scanBounds now1 now2 filter).1
                           (MetricsRepository.scanBounds now1 now2 filter).2
                           (GoTime.dayNumber (BusinessMetrics.Date m)))
            (concat batches)))
    /\ (forall m, m ∈ MetricsResponse.Data resp ->
          m ∈ concat batches
          /\ MetricsRepository.matchesFilter m filter = true
          /\ visitedDay (MetricsRepository.scanBounds now1 now2 filter).1
               (MetricsRepository.scanBounds now1 now2 filter).2
               (GoTime.dayNumber (BusinessMetrics.Date m))).
Proof.
  intros Hreg. unfold runQuery.
  rewrite MetricsFacts.GetByFilter_unfold. eexists. split; [reflexivity|].
  cbn [MetricsResponse.Total MetricsResponse.Data]. split.
  - by rewrite MoreQueryFacts.sortedMatches_stored.
  - intros m Hm.
    assert (Hin : m ∈ MetricsRepository.sortedMatches now1 now2
                        (MetricsRepository.stored batches) filter).
    { destruct (_ <? _); [|by apply elem_of_nil in Hm].
      by apply subseteq_take, subseteq_drop in Hm. }
    rewrite MoreQueryFacts.sortedMatches_stored in Hin by done.
    apply list_elem_of_filter in Hin as [[? ?] ?]. done.
Qed.

(** X15. The channel query and the funnel query of the service answer
    from the stored metrics dated on the days of the scan from [from] to
    [to] (a scan that starts in a regular zone): those of the channel,
    or of the UTM campaign, asked for, and all of them when the argument
    is empty. The total counts them all, the page holds some of them, no
    error is returned, one query is recorded, and the clock of the
    repository plays no part. *)
Theorem channel_and_funnel_queries :
  forall (now1 now2 : GoTime.Time) (batches : list (list BusinessMetrics.t))
         (name : string) (from to : GoTime.Time) (limit offset : Z),
    GoTime.regular (GoTime.loc from) ->
    let repo := MetricsRepository.GetByFilter now1 now2
                  (MetricsRepository.stored batches) in
    let onDay m := visitedDay from to (GoTime.dayNumber (BusinessMetrics.Date m)) in
    (exists resp,
        GetMetricsByChannel repo name from to limit offset
        = Some (mkQueryOutcome (Some resp) None ["channel_query"%string])
        /\ MetricsResponse.Total resp
           = Z.of_nat (length (filter
                (fun m => (name = ""%string \/ BusinessMetrics.Channel m = name)
                          /\ onDay m) (concat batches)))
        /\ (forall m, m ∈ MetricsResponse.Data resp ->
              m ∈ concat batches
              /\ (name = ""%string \/ BusinessMetrics.Channel m = name)
              /\ onDay m))
    /\ (exists resp,
          GetMetricsByFunnel repo name from to limit offset
          = Some (mkQueryOutcome (Some resp) None ["funnel_query"%string])
          /\ MetricsResponse.Total resp
             = Z.of_nat (length (filter
                  (fun m => (name = ""%string \/ BusinessMetrics.UTMCampaign m = name)
                            /\ onDay m) (concat batches)))
          /\ (forall m, m ∈ MetricsResponse.Data resp ->
                m ∈ concat batches
                /\ (name = ""%string \/ BusinessMetrics.UTMCampaign m = name)
                /\ onDay m)).
Proof.
  intros now1 now2 batches name from to limit offset Hreg repo onDay.
  split.
  - destruct (query_of_stored now1 now2 batches
                (MetricsFilter.mk (Some from) (Some to) name "" "" "" "" limit offset)
                "failed to get metrics by channel" "channel_query" Hreg)
      as (resp & Hq & Htotal & Hdata).
    exists resp. split_and!; [exact Hq| |].
    + rewrite Htotal. do 2 f_equal. apply list_filter_iff. intros m.
      rewrite matchesFilter_one. cbn [fst snd]. subst onDay. cbv beta. tauto.
    + intros m Hm. destruct (Hdata m Hm) as (Hin & Hmatch & Hday).
      apply matchesFilter_one in Hmatch. tauto.
  - destruct (query_of_stored now1 now2 batches
                (MetricsFilter.mk (Some from) (Some to) "" "" name "" "" limit offset)
                "failed to get metrics by funnel" "funnel_query" Hreg)
      as (resp & Hq & Htotal & Hdata).
    exists resp. split_and!; [exact Hq| |].
    + rewrite Htotal. do 2 f_equal. apply list_filter_iff. intros m.
      rewrite matchesFilter_one. cbn [fst snd]. subst onDay. cbv beta. tauto.
    + intros m Hm. destruct (Hdata m Hm) as (Hin & Hmatch & Hday).
      apply matchesFilter_one in Hmatch. tauto.
Qed.

End Query.

Import SortFacts.

Lemma channel_and_funnel_queries_witness :
  GoTime.regular (GoTime.loc (GoTime.Date 2025 1 1 0 0 0 0))
  /\ exists resp,
      GetMetricsByChannel
        (MetricsRepository.GetByFilter Examples.easternNoon Examples.easternNoonLater
           (MetricsRepository.stored
              [[Examples.metricJan1; Examples.metricApr1]; [Examples.metricJan2]]))
        "google" (GoTime.Date 2025 1 1 0 0 0 0) (GoTime.Date 2025 1 31 0 0 0 0) 10 0
      = Some (mkQueryOutcome (Some resp) None ["channel_query"%string])
      /\ MetricsResponse.Total resp = 1.
Proof.
  split; [apply GoTimeFacts.regular_fixed|].
  destruct (channel_and_funnel_queries
              Examples.easternNoon Examples.easternNoonLater
              [[Examples.metricJan1; Examples.metricApr1]; [Examples.metricJan2]]
              "google" (GoTime.Date 2025 1 1 0 0 0 0) (GoTime.Date 2025 1 31 0 0 0 0)
              10 0 (GoTimeFacts.regular_fixed 0))
    as ((resp & Hq & Htotal & _) & _).
  exists resp. split; [exact Hq|].
  rewrite Htotal. vm_compute. reflexivity.
Defined.

End ServiceFacts.
